(** * Wardex evaluation engine: a shallow embedding and its properties

    The development follows the TypeScript sources of the core package
    (pipeline, middleware stages, shield orchestrator) and of the signer
    package (approval tokens).

    Conventions of the embedding:
    - JavaScript strings are [string]s of ASCII characters;
    - [bigint] values are [Z];
    - risk scores are binary64 numbers ([float]): their weighted sum is
      rounded by the aggregator, so the rounding of each product matters;
    - the USD estimate of a transaction is a binary64 number ([float]),
      computed as the value assessor computes it; the thresholds of a tier
      and the samples of the escalation tracker are rationals ([Q]), the
      exact values of the numbers the source holds there;
    - a thrown exception is the [Throw] outcome of the step that raised it;
    - the clock ([Date.now()]), the local calendar day and the fresh
      identifier ([randomUUID()]) are inputs of each call ([Env]). *)

From Stdlib Require Import ZArith QArith Qround List String Ascii Bool Lia.
From Stdlib Require Import Sorting.Permutation Sorting.Sorted.
From Stdlib Require Import Floats.PrimFloat Floats.FloatAxioms.
From Stdlib Require Import Floats.FloatLemmas.
From Stdlib Require Import Uint63.
Import ListNotations.

Set Warnings "-inexact-float".

Local Open Scope string_scope.
Local Open Scope Z_scope.

(* ====================================================================== *)
(** * The JavaScript runtime functions the sources rely on               *)
(* ====================================================================== *)

Module JS.

(** ** Strings *)

Definition lower_char (c : ascii) : ascii :=
  let n := nat_of_ascii c in
  if ((65 <=? n) && (n <=? 90))%nat then ascii_of_nat (n + 32) else c.

Fixpoint toLowerCase (s : string) : string :=
  match s with
  | EmptyString => EmptyString
  | String c r => String (lower_char c) (toLowerCase r)
  end.

(** [s.slice(a, b)] and [s.slice(a)] for indices within [0, length]. *)
Definition slice (a b : nat) (s : string) : string := substring a (b - a) s.
Definition slice_from (a : nat) (s : string) : string :=
  substring a (String.length s - a) s.

Definition startsWith (p s : string) : bool := prefix p s.

Fixpoint includes (needle hay : string) : bool :=
  prefix needle hay ||
  match hay with
  | EmptyString => false
  | String _ r => includes needle r
  end.

Fixpoint repeat_char (c : ascii) (n : nat) : string :=
  match n with
  | O => EmptyString
  | S k => String c (repeat_char c k)
  end.

(** [s.padStart(n, c)] with a one-character filler. *)
Definition padStart (n : nat) (c : ascii) (s : string) : string :=
  repeat_char c (n - String.length s) ++ s.

Fixpoint join (sep : string) (l : list string) : string :=
  match l with
  | [] => ""
  | [x] => x
  | x :: r => x ++ sep ++ join sep r
  end.

Fixpoint string_forallb (p : ascii -> bool) (s : string) : bool :=
  match s with
  | EmptyString => true
  | String c r => p c && string_forallb p r
  end.

(** ** Digits *)

Definition digit_value (c : ascii) : option Z :=
  let n := Z.of_nat (nat_of_ascii c) in
  if (48 <=? n) && (n <=? 57) then Some (n - 48)
  else if (97 <=? n) && (n <=? 122) then Some (n - 87)
  else if (65 <=? n) && (n <=? 90) then Some (n - 55)
  else None.

Definition digit_in (base : Z) (c : ascii) : option Z :=
  match digit_value c with
  | Some d => if d <? base then Some d else None
  | None => None
  end.

Definition is_hex_digit (c : ascii) : bool :=
  match digit_in 16 c with Some _ => true | None => false end.

Definition digit_char (d : Z) : ascii :=
  if d <? 10 then ascii_of_nat (Z.to_nat (d + 48))
  else ascii_of_nat (Z.to_nat (d + 87)).

(** All characters of [s] are digits of [base]; the value read so far is
    [acc]. *)
Fixpoint parse_digits (base : Z) (s : string) (acc : Z) : option Z :=
  match s with
  | EmptyString => Some acc
  | String c r =>
      match digit_in base c with
      | Some d => parse_digits base r (acc * base + d)
      | None => None
      end
  end.

Definition parse_nonempty (base : Z) (s : string) : option Z :=
  match s with
  | EmptyString => None
  | _ => parse_digits base s 0
  end.

(** ** [BigInt(string)]: the StringToBigInt grammar

    White space is trimmed; the empty string is [0n]; a decimal literal may
    carry a sign; [0x], [0o] and [0b] literals may not. [None] is the
    [SyntaxError] the constructor throws. *)

Definition is_ws (c : ascii) : bool :=
  let n := nat_of_ascii c in
  ((n =? 32) || ((9 <=? n) && (n <=? 13)))%nat.

Fixpoint trimStart (s : string) : string :=
  match s with
  | EmptyString => EmptyString
  | String c r => if is_ws c then trimStart r else s
  end.

Fixpoint trimEnd (s : string) : string :=
  match s with
  | EmptyString => EmptyString
  | String c r =>
      match trimEnd r with
      | EmptyString => if is_ws c then EmptyString else String c EmptyString
      | r' => String c r'
      end
  end.

Definition trim (s : string) : string := trimEnd (trimStart s).

Definition StringToBigInt (s : string) : option Z :=
  match trim s with
  | EmptyString => Some 0
  | String "0" (String "x" r) | String "0" (String "X" r) => parse_nonempty 16 r
  | String "0" (String "o" r) | String "0" (String "O" r) => parse_nonempty 8 r
  | String "0" (String "b" r) | String "0" (String "B" r) => parse_nonempty 2 r
  | String "+" r => parse_nonempty 10 r
  | String "-" r => option_map Z.opp (parse_nonempty 10 r)
  | t => parse_nonempty 10 t
  end.

(** ** [Number.prototype.toString(radix)] on non-negative integers *)

Fixpoint digits_of (base : Z) (fuel : nat) (n : Z) (acc : string) : string :=
  match fuel with
  | O => acc
  | S f =>
      let acc' := String (digit_char (n mod base)) acc in
      if n <? base then acc' else digits_of base f (n / base) acc'
  end.

Definition toStringRadix (base : Z) (n : Z) : string :=
  if n <? 0 then String "-" (digits_of base (S (Z.to_nat (Z.log2 (- n)))) (- n) "")
  else digits_of base (S (Z.to_nat (Z.log2 n))) n "".

Definition toString (n : Z) : string := toStringRadix 10 n.
Definition nat_toString (n : nat) : string := toString (Z.of_nat n).

(** [parseInt(s, 16)] on a string that starts with a hexadecimal digit:
    the value of the longest prefix of digits ([None] is [NaN]). Sign,
    white space and a [0x] prefix, which [parseInt] also accepts, cannot
    occur where the sources call it (the token has matched
    [/^[0-9a-f]{80}$/i] before). *)
Fixpoint parse_prefix (base : Z) (s : string) (acc : Z) : Z :=
  match s with
  | EmptyString => acc
  | String c r =>
      match digit_in base c with
      | Some d => parse_prefix base r (acc * base + d)
      | None => acc
      end
  end.

Definition parseInt16 (s : string) : option Z :=
  match s with
  | EmptyString => None
  | String c _ => if is_hex_digit c then Some (parse_prefix 16 s 0) else None
  end.

(** ** [Buffer.from(s, 'hex')] and [crypto.timingSafeEqual] *)

Fixpoint bufferFromHex (s : string) : list Z :=
  match s with
  | String a (String b r) =>
      match digit_in 16 a, digit_in 16 b with
      | Some x, Some y => (16 * x + y) :: bufferFromHex r
      | _, _ => []
      end
  | _ => []
  end.

Fixpoint bytes_eqb (a b : list Z) : bool :=
  match a, b with
  | [], [] => true
  | x :: a', y :: b' => (x =? y) && bytes_eqb a' b'
  | _, _ => false
  end.

(** [None]: the [RangeError] for buffers of different byte length. *)
Definition timingSafeEqual (a b : list Z) : option bool :=
  if (List.length a =? List.length b)%nat then Some (bytes_eqb a b) else None.

(** ** Arrays *)

(** [a.slice(-n)]: the last [n] elements. *)
Definition lastn {A} (n : nat) (l : list A) : list A :=
  skipn (List.length l - n) l.

(** ** binary64 numbers *)

Definition two52 : float := Eval vm_compute in of_uint63 4503599627370496.

(** [Math.floor]: below [2^52] in magnitude, adding and subtracting [2^52]
    rounds to an integer, which is then corrected downwards; larger numbers
    are integers already. *)
Definition Math_floor (x : float) : float :=
  if (abs x <? two52)%float then
    if (x <? 0)%float then
      let a := abs x in
      let r := ((a + two52) - two52)%float in
      (- (if (r <? a) then r + 1 else r))%float
    else if (x =? 0)%float then x
    else
      let r := ((x + two52) - two52)%float in
      (if (x <? r) then r - 1 else r)%float
  else x.

(** [Math.round]: the nearest integer, ties towards [+Infinity]. *)
Definition Math_round (x : float) : float :=
  if (x =? 0)%float then x
  else
    let f := Math_floor x in
    let r := if (0.5 <=? x - f)%float then (f + 1)%float else f in
    if (r =? 0)%float && (x <? 0)%float then neg_zero else r.

Definition Math_min (a b : float) : float :=
  if is_nan a || is_nan b then nan
  else if (b <? a)%float then b else a.

Definition Math_max (a b : float) : float :=
  if is_nan a || is_nan b then nan
  else if (a <? b)%float then b else a.

(** An integer as a binary64 number (exact below [2^53]). *)
Definition num (z : Z) : float :=
  if z <? 0 then (- of_uint63 (Uint63.of_Z (- z)))%float
  else of_uint63 (Uint63.of_Z z).

(** [Number(n)] of a BigInt [n]: the binary64 number nearest to [n], ties to
    even, an infinity beyond the range. *)
Definition Number (n : Z) : float :=
  FloatOps.SF2Prim
    (SpecFloat.binary_normalize FloatOps.prec FloatOps.emax n 0 false).

(** The exact value of a finite binary64 number; 0 for the others. *)
Definition exact_value (x : float) : Q :=
  match FloatOps.Prim2SF x with
  | SpecFloat.S754_finite s m e =>
      let n := if s then Zneg m else Zpos m in
      match e with
      | Zneg p => Qmake n (2 ^ p)
      | _ => inject_Z (n * 2 ^ e)
      end
  | _ => 0%Q
  end.

End JS.

(* ====================================================================== *)
(** * Data model (types.ts, as used by the sources)                        *)
(* ====================================================================== *)

Inductive Severity := info | low | medium | high | critical.
Inductive ReasonSource :=
  src_context | src_transaction | src_address | src_contract
| src_behavioral | src_policy.
Inductive Decision := approve | advise | block | freeze.
Inductive RequiredAction := act_none | human_approval | delay.
Inductive EnforcementMode := audit | copilot | guardian | fortress.
Inductive TrustLevel := trust_high | trust_medium | trust_low | untrusted.
Inductive SourceType := st_user | st_assistant | st_tool | st_unknown.
Inductive Sensitivity := sens_low | sens_medium | sens_high.

Definition Severity_eqb (a b : Severity) : bool :=
  match a, b with
  | info, info | low, low | medium, medium | high, high
  | critical, critical => true
  | _, _ => false
  end.

Definition ReasonSource_eqb (a b : ReasonSource) : bool :=
  match a, b with
  | src_context, src_context | src_transaction, src_transaction
  | src_address, src_address | src_contract, src_contract
  | src_behavioral, src_behavioral | src_policy, src_policy => true
  | _, _ => false
  end.

Definition Decision_eqb (a b : Decision) : bool :=
  match a, b with
  | approve, approve | advise, advise | block, block | freeze, freeze => true
  | _, _ => false
  end.

Definition EnforcementMode_eqb (a b : EnforcementMode) : bool :=
  match a, b with
  | audit, audit | copilot, copilot | guardian, guardian
  | fortress, fortress => true
  | _, _ => false
  end.

Record SecurityReason := mkReason {
  code : string;
  message : string;
  severity : Severity;
  source : ReasonSource
}.

Record TransactionRequest := mkTx {
  to : string;
  value : option string;
  data : option string;
  chainId : Z
}.

Record Message := mkMessage { role : string; content : string }.

Record ContextSource := mkSource {
  source_type : SourceType;
  identifier : string;
  trustLevel : TrustLevel
}.

Record ToolCall := mkToolCall { tool : string; output : option string }.

Record ConversationContext := mkConversation {
  messages : list Message;
  conv_source : ContextSource;
  toolCallChain : option (list ToolCall)
}.

(** The values the decoder stores under [decoded.parameters]. *)
Inductive ParamValue := PString (s : string) | PBool (b : bool).

Record DecodedTransaction := mkDecoded {
  raw : TransactionRequest;
  functionName : option string;
  parameters : option (list (string * ParamValue));
  isApproval : bool;
  isTransfer : bool;
  involvesEth : bool;
  estimatedValueUsd : float
}.

(** A partial [RiskScore]: every field may be [undefined]. *)
Record RiskScores := mkScores {
  sc_context : option float;
  sc_transaction : option float;
  sc_behavioral : option float;
  sc_composite : option float
}.

(** The complete [RiskScore] of a verdict. *)
Record RiskScore := mkScore {
  rs_context : float;
  rs_transaction : float;
  rs_behavioral : float;
  rs_composite : float
}.

Record TierTriggers := mkTriggers {
  minValueAtRiskUsd : option Q;
  maxValueAtRiskUsd : option Q;
  targetAddresses : option (list string);
  functionSignatures : option (list string)
}.

Record TierEnforcement := mkEnforcement {
  mode : EnforcementMode;
  blockThreshold : float;
  requireHumanApproval : bool;
  notifyOperator : bool;
  requireOnChainProof : bool;
  timeLockSeconds : option Z
}.

Record SecurityTierConfig := mkTier {
  tier_id : string;
  tier_name : string;
  triggers : TierTriggers;
  enforcement : TierEnforcement
}.

Record Allowlists := mkAllowlists {
  allow_addresses : list string;
  allow_contracts : list string;
  allow_protocols : list string
}.

Record Denylists := mkDenylists {
  deny_addresses : list string;
  deny_patterns : list string
}.

Record Limits := mkLimits {
  maxTransactionValueWei : string;
  maxDailyVolumeWei : string;
  maxApprovalAmountWei : string;
  maxGasPriceGwei : Z
}.

Record BehavioralConfig := mkBehavioral {
  beh_enabled : bool;
  learningPeriodDays : Z;
  sensitivityLevel : Sensitivity
}.

Record ContextAnalysisConfig := mkContextAnalysis {
  enablePromptInjectionDetection : bool;
  enableCoherenceChecking : bool;
  suspiciousPatterns : list string;
  enableEscalationDetection : bool;
  enableSourceVerification : bool
}.

Record SecurityPolicy := mkPolicy {
  tiers : list SecurityTierConfig;
  allowlists : Allowlists;
  denylists : Denylists;
  limits : Limits;
  behavioral : BehavioralConfig;
  contextAnalysis : ContextAnalysisConfig
}.

(** [timestamp] is the clock reading in milliseconds (the sources format it
    with [toISOString()]). *)
Record SecurityVerdict := mkVerdict {
  decision : Decision;
  riskScore : RiskScore;
  reasons : list SecurityReason;
  suggestions : list string;
  requiredAction : option RequiredAction;
  delaySeconds : option Z;
  timestamp : Z;
  evaluationId : string;
  tierId : string
}.

Record AuditEntry := mkAudit {
  au_evaluationId : string;
  au_timestamp : Z;
  au_transaction : TransactionRequest;
  au_verdict : SecurityVerdict;
  contextSummary : option string;
  executed : bool
}.

Record AddressReputation := mkReputation {
  ageDays : Z;
  transactionCount : Z;
  riskFactors : list string;
  labels : option (list string)
}.

Inductive ContractRisk := risk_safe | risk_other.

Record ContractPattern := mkPattern {
  pat_name : string;
  pat_pattern : string;
  pat_severity : Severity;
  pat_description : string
}.

Record ContractAnalysis := mkAnalysis {
  hasSelfDestruct : bool;
  hasUnsafeDelegatecall : bool;
  isProxy : bool;
  isVerified : bool;
  implementationAddress : option string;
  allowsInfiniteApproval : bool;
  risk : ContractRisk;
  dangerousPatterns : list ContractPattern
}.

(** [ctx.metadata]: the two keys the sources use. *)
Record Metadata := mkMetadata {
  md_verdict : option SecurityVerdict;
  md_estimatedValueUsd : option float
}.

Record MiddlewareContext := mkCtx {
  transaction : TransactionRequest;
  conversationContext : option ConversationContext;
  riskScores : RiskScores;
  ctx_reasons : list SecurityReason;
  policy : SecurityPolicy;
  tier : option SecurityTierConfig;
  decoded : option DecodedTransaction;
  addressReputation : option AddressReputation;
  contractAnalysis : option ContractAnalysis;
  metadata : Metadata
}.

(** Field updates of the mutable context object. *)
Definition set_reasons (r : list SecurityReason) (c : MiddlewareContext) :=
  mkCtx (transaction c) (conversationContext c) (riskScores c) r (policy c)
        (tier c) (decoded c) (addressReputation c) (contractAnalysis c)
        (metadata c).
Definition push_reason (r : SecurityReason) (c : MiddlewareContext) :=
  set_reasons (ctx_reasons c ++ [r]) c.
Definition push_reasons (rs : list SecurityReason) (c : MiddlewareContext) :=
  set_reasons (ctx_reasons c ++ rs) c.
Definition set_riskScores (s : RiskScores) (c : MiddlewareContext) :=
  mkCtx (transaction c) (conversationContext c) s (ctx_reasons c) (policy c)
        (tier c) (decoded c) (addressReputation c) (contractAnalysis c)
        (metadata c).
Definition set_tier (t : option SecurityTierConfig) (c : MiddlewareContext) :=
  mkCtx (transaction c) (conversationContext c) (riskScores c) (ctx_reasons c)
        (policy c) t (decoded c) (addressReputation c) (contractAnalysis c)
        (metadata c).
Definition set_decoded (d : option DecodedTransaction) (c : MiddlewareContext) :=
  mkCtx (transaction c) (conversationContext c) (riskScores c) (ctx_reasons c)
        (policy c) (tier c) d (addressReputation c) (contractAnalysis c)
        (metadata c).
Definition set_addressReputation (a : option AddressReputation)
    (c : MiddlewareContext) :=
  mkCtx (transaction c) (conversationContext c) (riskScores c) (ctx_reasons c)
        (policy c) (tier c) (decoded c) a (contractAnalysis c) (metadata c).
Definition set_contractAnalysis (a : option ContractAnalysis)
    (c : MiddlewareContext) :=
  mkCtx (transaction c) (conversationContext c) (riskScores c) (ctx_reasons c)
        (policy c) (tier c) (decoded c) (addressReputation c) a (metadata c).
Definition set_metadata (m : Metadata) (c : MiddlewareContext) :=
  mkCtx (transaction c) (conversationContext c) (riskScores c) (ctx_reasons c)
        (policy c) (tier c) (decoded c) (addressReputation c)
        (contractAnalysis c) m.

Definition set_sc_context (x : float) (s : RiskScores) :=
  mkScores (Some x) (sc_transaction s) (sc_behavioral s) (sc_composite s).
Definition set_sc_transaction (x : float) (s : RiskScores) :=
  mkScores (sc_context s) (Some x) (sc_behavioral s) (sc_composite s).

(** [x ?? d] *)
Definition orElse {A} (x : option A) (d : A) : A :=
  match x with Some a => a | None => d end.

Definition reason_some (p : SecurityReason -> bool) (l : list SecurityReason) :=
  existsb p l.

(** [a < b] on rationals. *)
Definition Qltb (a b : Q) : bool := negb (Qle_bool b a).

(** [x >= q] and [x < q] for a binary64 number [x] and a number of exact
    value [q]; [x < Infinity]. Every comparison with NaN is false. *)
Definition num_geQ (x : float) (q : Q) : bool :=
  match FloatOps.Prim2SF x with
  | SpecFloat.S754_nan => false
  | SpecFloat.S754_infinity s => negb s
  | _ => Qle_bool q (JS.exact_value x)
  end.

Definition num_ltQ (x : float) (q : Q) : bool :=
  match FloatOps.Prim2SF x with
  | SpecFloat.S754_nan => false
  | SpecFloat.S754_infinity s => s
  | _ => Qltb (JS.exact_value x) q
  end.

Definition num_lt_Infinity (x : float) : bool :=
  match FloatOps.Prim2SF x with
  | SpecFloat.S754_nan => false
  | SpecFloat.S754_infinity s => s
  | _ => true
  end.

(** The double-quote character, for messages that quote a value. *)
Definition dq : string := String (ascii_of_nat 34) EmptyString.

(** The per-call inputs of an evaluation. *)
Record Env := mkEnv {
  now : Z;          (* Date.now(), milliseconds *)
  today : string;   (* new Date().toDateString() *)
  uuid : string     (* randomUUID() *)
}.

(** One sample of the escalation tracker. *)
Record EscalationSample := mkSample { valueUsd : Q; sample_timestamp : Z }.

(* ====================================================================== *)
(** * The evaluation engine                                                *)
(* ====================================================================== *)

Section Engine.

(** The baseline the behavioral comparator keeps between evaluations; its
    module (middleware/behavioral-comparator) is outside this development. *)
Variable Baseline : Type.

(** [new RegExp(source, flags).test(subject)] of the JavaScript runtime, and
    whether [new RegExp(source)] accepts the pattern at all. *)
Variable regex_test : string -> string -> string -> bool.
Variable regex_valid : string -> bool.

(** ** pipeline.ts *)

(** Everything a middleware can read or mutate: the context object, the
    [index] of the running [compose], the closure state of the context
    analyzer and of the behavioral comparator, and the inputs of the call. *)
Record World := mkWorld {
  w_ctx : MiddlewareContext;
  w_index : Z;
  w_tracker : list EscalationSample;
  w_baseline : Baseline;
  w_env : Env
}.

Inductive Res :=
| Ok (w : World)
| Throw (err : string) (w : World).

Definition Next := World -> Res.
Definition Middleware := World -> Next -> Res.

Definition set_ctx (c : MiddlewareContext) (w : World) : World :=
  mkWorld c (w_index w) (w_tracker w) (w_baseline w) (w_env w).
Definition upd_ctx (f : MiddlewareContext -> MiddlewareContext) (w : World) :=
  set_ctx (f (w_ctx w)) w.
Definition set_index (i : Z) (w : World) : World :=
  mkWorld (w_ctx w) i (w_tracker w) (w_baseline w) (w_env w).
Definition set_tracker (t : list EscalationSample) (w : World) : World :=
  mkWorld (w_ctx w) (w_index w) t (w_baseline w) (w_env w).

(** A stage that does its work and then awaits [next()]. *)
Definition stage (work : World -> Res) : Middleware :=
  fun w next =>
    match work w with
    | Ok w' => next w'
    | Throw e w' => Throw e w'
    end.

(** /^0x[0-9a-fA-F]{40}$/ *)
Definition isValidEthereumAddress (address : string) : bool :=
  match address with
  | String "0" (String "x" r) =>
      (String.length r =? 40)%nat && JS.string_forallb JS.is_hex_digit r
  | _ => false
  end.

(** /^0x[0-9a-fA-F]*$/ *)
Definition is_hex_data (d : string) : bool :=
  match d with
  | String "0" (String "x" r) => JS.string_forallb JS.is_hex_digit r
  | _ => false
  end.

(** [None] is [null]: the request is valid. *)
Definition validateTransactionRequest (tx : TransactionRequest) : option string :=
  if String.eqb (to tx) "" then
    Some ("Transaction is missing the " ++ dq ++ "to" ++ dq ++ " address")
  else if negb (isValidEthereumAddress (to tx)) then
    Some ("Invalid " ++ dq ++ "to" ++ dq ++ " address: " ++ dq ++ to tx ++ dq
          ++ " is not a valid Ethereum address (expected 0x + 40 hex chars)")
  else if chainId tx <=? 0 then
    Some ("Invalid chainId: " ++ JS.toString (chainId tx))
  else
    let value_error :=
      match value tx with
      | None => None
      | Some v =>
          match JS.StringToBigInt v with
          | Some val =>
              if val <? 0 then Some "Transaction value cannot be negative"
              else None
          | None =>
              Some ("Invalid transaction value: " ++ dq ++ v ++ dq
                    ++ " is not a valid integer")
          end
      end in
    match value_error with
    | Some e => Some e
    | None =>
        match data tx with
        | Some d =>
            if negb (String.eqb d "") && negb (is_hex_data d) then
              Some "Invalid transaction data: must be a hex string starting with 0x"
            else None
        | None => None
        end
    end.

(** [dispatch(i)] over the middlewares from position [i] on. *)
Fixpoint dispatch (mws : list Middleware) (i : Z) (next : Next) (w : World)
  : Res :=
  if i <=? w_index w then
    Throw "next() called multiple times in the same middleware" w
  else
    let w1 := set_index i w in
    match mws with
    | m :: rest => m w1 (dispatch rest (i + 1) next)
    | [] => next w1
    end.

Definition compose (middlewares : list Middleware) : Middleware :=
  fun w next => dispatch middlewares 0 next (set_index (-1) w).

Definition empty_policy : SecurityPolicy :=
  mkPolicy [] (mkAllowlists [] [] []) (mkDenylists [] [])
           (mkLimits "0" "0" "0" 0)
           (mkBehavioral false 7 sens_medium)
           (mkContextAnalysis true true [] true true).

Definition createMiddlewareContext (tx : option TransactionRequest)
    (conv : option ConversationContext) (pol : option SecurityPolicy)
  : MiddlewareContext :=
  mkCtx (orElse tx (mkTx "" None None 1)) conv
        (mkScores None None None None) []
        (orElse pol empty_policy)
        None None None None (mkMetadata None None).

(** ** middleware/context-analyzer.ts *)

Record InjectionPattern := mkInjection {
  ip_name : string;
  ip_pattern : string;
  ip_flags : string;
  ip_severity : Severity;
  ip_description : string
}.

Definition INJECTION_PATTERNS : list InjectionPattern :=
  [ mkInjection "IGNORE_INSTRUCTIONS"
      "ignore\s+(all\s+)?(previous|prior|above|earlier)\s+(instructions|rules|guidelines|constraints)"
      "i" critical "Attempt to override system instructions";
    mkInjection "ROLE_OVERRIDE"
      "you\s+are\s+(now|actually|really)\s+(a|an|the)\s+"
      "i" high "Attempt to redefine the AI agent role";
    mkInjection "SYSTEM_PROMPT_INJECTION"
      "\[?\s*(system|admin|developer|root)\s*(message|prompt|instruction|override)\s*[\]:]?"
      "i" critical "Fake system message injection";
    mkInjection "JAILBREAK_PATTERN"
      "(DAN|do\s+anything\s+now|developer\s+mode|unrestricted\s+mode)"
      "i" critical "Known jailbreak technique";
    mkInjection "BASE64_INSTRUCTION"
      "(?:execute|run|decode|eval)\s*(?:this|the)?\s*(?:base64|encoded)\s*(?:instruction|command|payload)"
      "i" high "Attempt to smuggle instructions via encoding";
    mkInjection "HIDDEN_INSTRUCTION_MARKER"
      "(?:<!--.*?-->|<\s*(?:script|style)[^>]*>.*?<\/\s*(?:script|style)\s*>)"
      "is" high "Hidden instructions in HTML/markdown comments";
    mkInjection "URGENCY_MANIPULATION"
      "(?:immediately|urgently|right\s+now|emergency|time-sensitive)\s+(?:send|transfer|approve|sign)"
      "i" medium "Urgency-based social engineering";
    mkInjection "AUTHORIZATION_CLAIM"
      "(?:authorized|approved|permitted|allowed)\s+(?:by\s+(?:the\s+)?(?:admin|owner|user|operator))"
      "i" high "False authorization claim in content";
    mkInjection "SEED_PHRASE_REQUEST"
      "(?:share|give|send|tell|show|reveal|display|output|print)\s+(?:me\s+)?(?:your\s+)?(?:seed\s+phrase|mnemonic|private\s+key|secret\s+key|recovery\s+phrase)"
      "i" critical "Explicit request for key material";
    mkInjection "REDIRECT_FUNDS"
      "(?:send|transfer|forward|redirect)\s+(?:all|remaining|the)?\s*(?:funds|tokens|eth|balance|assets)\s+(?:to|into)"
      "i" high "Broad fund redirection instruction" ].

Definition ESCALATION_WINDOW_MS : Z := 30 * 60 * 1000.
Definition ESCALATION_THRESHOLD : Q := 5.

(** [x.toFixed(1)] of a non-negative rational. *)
Definition toFixed1 (x : Q) : string :=
  let n := Qfloor (x * 10 + (1 # 2)) in
  JS.toString (n / 10) ++ "." ++ JS.toString (n mod 10).

(** [Math.round(a / b)] of integers, [b > 0]. *)
Definition round_div (a b : Z) : Z := (2 * a + b) / (2 * b).

(** The tracker after the call, and the finding if there is one. The
    samples are rationals: the quotient and its comparison are exact here
    and binary64 in the source. *)
Definition detectEscalation (tracker : list EscalationSample) (now_ms : Z)
    (currentValueUsd : Q) : list EscalationSample * option SecurityReason :=
  let kept :=
    filter (fun t => now_ms - sample_timestamp t <? ESCALATION_WINDOW_MS)
           tracker in
  let recent := (kept ++ [mkSample currentValueUsd now_ms])%list in
  if (List.length recent <? 2)%nat then (recent, None)
  else
    let oldest := hd (mkSample currentValueUsd now_ms) recent in
    let newest := last recent (mkSample currentValueUsd now_ms) in
    if Qltb 0 (valueUsd oldest) then
      if Qle_bool ESCALATION_THRESHOLD (valueUsd newest / valueUsd oldest) then
        (recent,
         Some (mkReason "VALUE_ESCALATION"
                 ("Transaction value escalated "
                  ++ toFixed1 (valueUsd newest / valueUsd oldest)
                  ++ "x within "
                  ++ JS.toString
                       (round_div (sample_timestamp newest
                                   - sample_timestamp oldest) 60000)
                  ++ " minutes")
                 high src_context))
      else (recent, None)
    else (recent, None).

Definition first_injection (subject : string) : option InjectionPattern :=
  find (fun p => regex_test (ip_pattern p) (ip_flags p) subject)
       INJECTION_PATTERNS.

Definition evaluateSource (context : ConversationContext)
  : list SecurityReason :=
  ((match trustLevel (conv_source context) with
   | untrusted =>
       [mkReason "UNTRUSTED_SOURCE"
          ("Transaction originated from untrusted source: "
           ++ identifier (conv_source context))
          critical src_context]
   | _ => []
   end)
  ++
  (match source_type (conv_source context) with
   | st_unknown =>
       [mkReason "UNKNOWN_SOURCE"
          "Transaction source could not be identified" high src_context]
   | _ => []
   end)
  ++
  (match toolCallChain context with
   | Some chain =>
       flat_map
         (fun call =>
            match output call with
            | Some out =>
                if String.eqb out "" then []
                else
                  match first_injection out with
                  | Some p =>
                      [mkReason "CROSS_MCP_INJECTION"
                         ("Tool " ++ dq ++ tool call ++ dq
                          ++ " output contains suspicious instruction: "
                          ++ ip_name p)
                         critical src_context]
                  | None => []
                  end
            | None => []
            end)
         chain
   | None => []
   end))%list.

Definition cryptoTerms : list string :=
  [ "send"; "transfer"; "swap"; "trade"; "approve"; "token"; "eth";
    "wallet"; "contract"; "defi"; "uniswap"; "aave"; "pool"; "liquidity";
    "stake"; "bridge"; "mint"; "burn"; "withdraw"; "deposit"; "exchange";
    "price"; "buy"; "sell"; "gas"; "nft"; "erc20"; "erc721" ].

Definition checkCoherence (context : ConversationContext)
  : option SecurityReason :=
  match messages context with
  | [] => None
  | _ =>
      let recentMessages := JS.lastn 5 (messages context) in
      let conversationText :=
        JS.toLowerCase (JS.join " " (map content recentMessages)) in
      let hasCryptoContext :=
        existsb (fun term => JS.includes term conversationText) cryptoTerms in
      if negb hasCryptoContext then
        Some (mkReason "INCOHERENT_CONTEXT"
                "Transaction request does not match recent conversation context - no crypto-related discussion detected"
                medium src_context)
      else None
  end.

Definition severity_weight_context (s : Severity) : float :=
  match s with
  | critical => 40
  | high => 25
  | medium => 15
  | low => 5
  | info => 0
  end.

(** The findings of the built-in patterns, message by message. *)
Definition injection_reasons (msgs : list Message) : list SecurityReason :=
  flat_map
    (fun m =>
       flat_map
         (fun p =>
            if regex_test (ip_pattern p) (ip_flags p) (content m) then
              [mkReason ("INJECTION_" ++ ip_name p)
                 ("Prompt injection detected: " ++ ip_description p)
                 (ip_severity p) src_context]
            else [])
         INJECTION_PATTERNS)
    msgs.

(** The operator's patterns, in order: the findings pushed so far, and
    [false] when [new RegExp] throws on a pattern. *)
Fixpoint custom_reasons (patterns : list string) (msgs : list Message)
  : list SecurityReason * bool :=
  match patterns with
  | [] => ([], true)
  | customPattern :: rest =>
      if regex_valid customPattern then
        let '(rs, ok) := custom_reasons rest msgs in
        (flat_map
           (fun m =>
              if regex_test customPattern "i" (content m) then
                [mkReason "CUSTOM_PATTERN_MATCH"
                   ("Custom suspicious pattern matched: " ++ customPattern)
                   medium src_context]
              else [])
           msgs ++ rs, ok)%list
      else ([], false)
  end.

Definition contextAnalyzer_work (w : World) : Res :=
  let ctx := w_ctx w in
  let config := contextAnalysis (policy ctx) in
  match conversationContext ctx with
  | None => Ok w
  | Some conv =>
      (* 1. Prompt injection detection *)
      let '(rs1, ok) :=
        if enablePromptInjectionDetection config then
          let '(rs, ok) :=
            custom_reasons (suspiciousPatterns config) (messages conv) in
          ((injection_reasons (messages conv) ++ rs)%list, ok)
        else ([], true) in
      let ctx1 := push_reasons rs1 ctx in
      if negb ok then
        Throw "SyntaxError: Invalid regular expression" (set_ctx ctx1 w)
      else
          (* 2. Source verification *)
          let ctx2 :=
            if enableSourceVerification config
            then push_reasons (evaluateSource conv) ctx1 else ctx1 in
          (* 3. Coherence checking *)
          let ctx3 :=
            if enableCoherenceChecking config then
              match checkCoherence conv with
              | Some r => push_reason r ctx2
              | None => ctx2
              end
            else ctx2 in
          (* 4. Escalation detection *)
          let '(tracker4, ctx4) :=
            match enableEscalationDetection config, decoded ctx3 with
            | true, Some d =>
                (* the tracker keeps the exact value of the estimate *)
                let '(tr, found) :=
                  detectEscalation (w_tracker w) (now (w_env w))
                                   (JS.exact_value (estimatedValueUsd d)) in
                (tr, match found with
                     | Some r => push_reason r ctx3
                     | None => ctx3
                     end)
            | _, _ => (w_tracker w, ctx3)
            end in
          (* Calculate context risk score *)
          let contextReasons :=
            filter (fun r => ReasonSource_eqb (source r) src_context)
                   (ctx_reasons ctx4) in
          let contextScore :=
            fold_left (fun acc r => (acc + severity_weight_context (severity r))%float)
                      contextReasons 0%float in
          let ctx5 :=
            set_riskScores
              (set_sc_context (JS.Math_min 100 contextScore) (riskScores ctx4))
              ctx4 in
          Ok (set_tracker tracker4 (set_ctx ctx5 w))
  end.

Definition contextAnalyzer : Middleware := stage contextAnalyzer_work.

(** ** middleware/transaction-decoder.ts *)

Record SelectorInfo := mkSelector { sel_name : string; sel_signature : string }.

Definition KNOWN_SELECTORS : list (string * SelectorInfo) :=
  [ ("0xa9059cbb", mkSelector "transfer" "transfer(address,uint256)");
    ("0x23b872dd", mkSelector "transferFrom" "transferFrom(address,address,uint256)");
    ("0x095ea7b3", mkSelector "approve" "approve(address,uint256)");
    ("0x42842e0e", mkSelector "safeTransferFrom" "safeTransferFrom(address,address,uint256)");
    ("0xb88d4fde", mkSelector "safeTransferFrom" "safeTransferFrom(address,address,uint256,bytes)");
    ("0xa22cb465", mkSelector "setApprovalForAll" "setApprovalForAll(address,bool)");
    ("0x38ed1739", mkSelector "swapExactTokensForTokens" "swapExactTokensForTokens(uint256,uint256,address[],address,uint256)");
    ("0x7ff36ab5", mkSelector "swapExactETHForTokens" "swapExactETHForTokens(uint256,address[],address,uint256)");
    ("0x18cbafe5", mkSelector "swapExactTokensForETH" "swapExactTokensForETH(uint256,uint256,address[],address,uint256)");
    ("0x5ae401dc", mkSelector "multicall" "multicall(uint256,bytes[])");
    ("0xac9650d8", mkSelector "multicall" "multicall(bytes[])");
    ("0x1fad948c", mkSelector "handleOps" "handleOps(PackedUserOperation[],address)");
    ("0x00000000", mkSelector "fallback" "fallback()") ].

Definition MAX_UINT256 : string :=
  "ffffffffffffffffffffffffffffffffffffffffffffffffffffffffffffffff".

Fixpoint lookup {A} (k : string) (l : list (string * A)) : option A :=
  match l with
  | [] => None
  | (k', v) :: r => if String.eqb k k' then Some v else lookup k r
  end.

Definition decodeSelector (data : string) : option SelectorInfo :=
  if (String.length data <? 10)%nat then None
  else lookup (JS.toLowerCase (JS.slice 0 10 data)) KNOWN_SELECTORS.

Definition decodeAddress (param : string) : string :=
  "0x" ++ JS.toLowerCase (JS.slice_from 24 param).

(** [BigInt('0x' + param)]; [None] when it throws. *)
Definition decodeUint256 (param : string) : option Z :=
  JS.StringToBigInt ("0x" ++ param).

(** [s.replace(/^0x/, '')] *)
Definition strip0x (s : string) : string :=
  match s with
  | String "0" (String "x" r) => r
  | _ => s
  end.

Definition isInfiniteApproval (amountHex : string) : bool :=
  let cleaned := JS.toLowerCase (strip0x amountHex) in
  if String.eqb cleaned MAX_UINT256 then true
  else
    match JS.StringToBigInt ("0x" ++ cleaned) with
    | Some v => 2 ^ 128 <? v
    | None => false
    end.

(** The 64-character chunks of [paramData]; the last one may be shorter. *)
Fixpoint chunks64 (fuel : nat) (paramData : string) : list string :=
  match fuel with
  | O => []
  | S f =>
      match paramData with
      | EmptyString => []
      | _ =>
          JS.slice 0 64 paramData
          :: chunks64 f (JS.slice_from 64 paramData)
      end
  end.

Definition extractParams (data : string) : list string :=
  if (String.length data <=? 10)%nat then []
  else
    let paramData := JS.slice_from 10 data in
    chunks64 (String.length paramData) paramData.

Definition nth_param (i : nat) (params : list string) : string :=
  nth i params "".

Definition set_dec_parameters (p : list (string * ParamValue))
    (d : DecodedTransaction) : DecodedTransaction :=
  mkDecoded (raw d) (functionName d) (Some p) (isApproval d) (isTransfer d)
            (involvesEth d) (estimatedValueUsd d).
Definition set_isApproval (b : bool) (d : DecodedTransaction) :=
  mkDecoded (raw d) (functionName d) (parameters d) b (isTransfer d)
            (involvesEth d) (estimatedValueUsd d).
Definition set_isTransfer (b : bool) (d : DecodedTransaction) :=
  mkDecoded (raw d) (functionName d) (parameters d) (isApproval d) b
            (involvesEth d) (estimatedValueUsd d).
Definition set_involvesEth (b : bool) (d : DecodedTransaction) :=
  mkDecoded (raw d) (functionName d) (parameters d) (isApproval d)
            (isTransfer d) b (estimatedValueUsd d).
Definition set_estimatedValueUsd (v : float) (d : DecodedTransaction) :=
  mkDecoded (raw d) (functionName d) (parameters d) (isApproval d)
            (isTransfer d) (involvesEth d) v.

(** The [switch (selectorInfo.name)] of the decoder: the decoded record and
    the reasons it pushes, or [None] when [decodeUint256] throws. *)
Definition decode_call (name : string) (params : list string)
    (d : DecodedTransaction)
  : option (DecodedTransaction * list SecurityReason) :=
  if String.eqb name "approve" then
    let d1 := set_isApproval true d in
    if (2 <=? List.length params)%nat then
      let spender := decodeAddress (nth_param 0 params) in
      let amount := nth_param 1 params in
      let d2 :=
        set_dec_parameters
          [("spender", PString spender); ("amount", PString ("0x" ++ amount))]
          d1 in
      if isInfiniteApproval amount then
        Some (d2,
              [mkReason "INFINITE_APPROVAL"
                 ("Infinite token approval detected for spender " ++ spender
                  ++ ". This allows the spender to drain all tokens of this type from the wallet.")
                 critical src_transaction])
      else Some (d2, [])
    else Some (d1, [])
  else if String.eqb name "setApprovalForAll" then
    let d1 := set_isApproval true d in
    if (2 <=? List.length params)%nat then
      let operator := decodeAddress (nth_param 0 params) in
      match decodeUint256 (nth_param 1 params) with
      | None => None
      | Some v =>
          let approved := negb (v =? 0) in
          let d2 :=
            set_dec_parameters
              [("operator", PString operator); ("approved", PBool approved)]
              d1 in
          if approved then
            Some (d2,
                  [mkReason "SET_APPROVAL_FOR_ALL"
                     ("setApprovalForAll grants " ++ operator
                      ++ " control over ALL NFTs in this collection.")
                     high src_transaction])
          else Some (d2, [])
      end
    else Some (d1, [])
  else if String.eqb name "transfer" then
    let d1 := set_isTransfer true d in
    if (2 <=? List.length params)%nat then
      Some (set_dec_parameters
              [("to", PString (decodeAddress (nth_param 0 params)));
               ("amount", PString ("0x" ++ nth_param 1 params))]
              d1, [])
    else Some (d1, [])
  else if String.eqb name "transferFrom" then
    let d1 := set_isTransfer true d in
    if (3 <=? List.length params)%nat then
      Some (set_dec_parameters
              [("from", PString (decodeAddress (nth_param 0 params)));
               ("to", PString (decodeAddress (nth_param 1 params)));
               ("amount", PString ("0x" ++ nth_param 2 params))]
              d1, [])
    else Some (d1, [])
  else if String.eqb name "multicall" then
    Some (d,
          [mkReason "MULTICALL_DETECTED"
             "Transaction uses multicall - individual operations cannot be fully analyzed in this version"
             medium src_transaction])
  else Some (d, []).

Definition transactionDecoder_work (w : World) : Res :=
  let ctx := w_ctx w in
  let transaction := transaction ctx in
  let data := orElse (data transaction) "" in
  match JS.StringToBigInt (orElse (value transaction) "0") with
  | None => Throw "SyntaxError: Cannot convert value to a BigInt" w
  | Some v =>
      let decoded0 :=
        mkDecoded transaction None None false false (0 <? v) 0%float in
      (* Decode function selector *)
      let selectorInfo := decodeSelector data in
      let decoded1 :=
        match selectorInfo with
        | Some si =>
            mkDecoded transaction (Some (sel_name si)) None false false
                      (0 <? v) 0%float
        | None => decoded0
        end in
      let params := extractParams data in
      (* Identify specific transaction types *)
      let identified :=
        match selectorInfo with
        | Some si => decode_call (sel_name si) params decoded1
        | None => Some (decoded1, [])
        end in
      match identified with
      | None =>
          Throw "SyntaxError: Cannot convert parameter to a BigInt" w
      | Some (decoded2, rs) =>
          let ctx2 := push_reasons rs ctx in
          (* plain ETH transfer *)
          let no_data := String.eqb data "" || String.eqb data "0x" in
          let decoded3 :=
            if no_data && negb (String.eqb (to transaction) "") then
              set_involvesEth true (set_isTransfer true decoded2)
            else decoded2 in
          (* ETH + contract call *)
          let ctx3 :=
            if involvesEth decoded3 && negb no_data
               && (2 <? String.length data)%nat then
              push_reason
                (mkReason "ETH_WITH_CALLDATA"
                   "Transaction sends ETH along with a contract call - verify this is intentional"
                   low src_transaction)
                ctx2
            else ctx2 in
          Ok (set_ctx (set_decoded (Some decoded3) ctx3) w)
      end
  end.

Definition transactionDecoder : Middleware := stage transactionDecoder_work.

(** ** middleware/value-assessor.ts *)

Definition DEFAULT_ETH_PRICE_USD : float := 3500.

(** [tokenPricesUsd] is a [Map] from lower-case contract addresses to
    prices. *)
Record ValueAssessorConfig := mkAssessorConfig {
  ethPriceUsd : option float;
  tokenPricesUsd : option (list (string * float))
}.

(** [config?.ethPriceUsd ?? DEFAULT_ETH_PRICE_USD] *)
Definition ethPriceOf (config : option ValueAssessorConfig) : float :=
  orElse (match config with Some c => ethPriceUsd c | None => None end)
         DEFAULT_ETH_PRICE_USD.

(** [Number(x) / 1e18] *)
Definition from_wei (x : Z) : float := (JS.Number x / 1e18)%float.

(** Step 1, the USD value of the ETH sent: [estimatedValueUsd] starts at 0
    and [ethValue * ethPrice] is added for a positive value. *)
Definition ethValueUsd (ethPrice : float) (weiValue : Z) : float :=
  if 0 <? weiValue then (0 + from_wei weiValue * ethPrice)%float
  else 0%float.

Definition set_md_estimatedValueUsd (v : float) (m : Metadata) : Metadata :=
  mkMetadata (md_verdict m) (Some v).

Definition param_string (k : string) (d : DecodedTransaction)
  : option string :=
  match parameters d with
  | Some ps =>
      match lookup k ps with
      | Some (PString s) => Some s
      | _ => None
      end
  | None => None
  end.

Definition has_parameters (d : DecodedTransaction) : bool :=
  match parameters d with Some _ => true | None => false end.

Definition valueAssessor_work (config : option ValueAssessorConfig)
    (w : World) : Res :=
  let ethPrice := ethPriceOf config in
  let tokenPrices :=
    orElse (match config with Some c => tokenPricesUsd c | None => None end)
           [] in
  let ctx := w_ctx w in
  match JS.StringToBigInt (orElse (value (transaction ctx)) "0") with
  | None => Throw "SyntaxError: Cannot convert value to a BigInt" w
  | Some weiValue =>
      (* 1. Calculate ETH value *)
      let est1 := ethValueUsd ethPrice weiValue in
      let ctx' :=
        match decoded ctx with
        | None => ctx
        | Some dec =>
            let target := JS.toLowerCase (to (transaction ctx)) in
            let has_target := negb (String.eqb target "") in
            (* 2. approvals *)
            let est2 :=
              if isApproval dec && has_parameters dec then
                match param_string "amount" dec with
                | Some amount =>
                    match JS.StringToBigInt amount with
                    | Some amountBig =>
                        if 2 ^ 128 <? amountBig then JS.Math_max est1 100000
                        else
                          match has_target, lookup target tokenPrices with
                          | true, Some tokenPrice =>
                              (est1 + from_wei amountBig * tokenPrice)%float
                          | _, _ => est1
                          end
                    | None => JS.Math_max est1 1000
                    end
                | None => est1
                end
              else est1 in
            (* transfers *)
            let est3 :=
              if isTransfer dec && has_parameters dec then
                match param_string "amount" dec,
                      has_target, lookup target tokenPrices with
                | Some amount, true, Some tokenPrice =>
                    match JS.StringToBigInt amount with
                    | Some amountBig =>
                        (est2 + from_wei amountBig * tokenPrice)%float
                    | None => JS.Math_max est2 100
                    end
                | _, _, _ => est2
                end
              else est2 in
            set_decoded (Some (set_estimatedValueUsd est3 dec)) ctx
        end in
      let est :=
        match decoded ctx' with
        | Some dec' => estimatedValueUsd dec'
        | None => est1
        end in
      Ok (set_ctx
            (set_metadata (set_md_estimatedValueUsd est (metadata ctx')) ctx')
            w)
  end.

Definition createValueAssessor (config : option ValueAssessorConfig)
  : Middleware := stage (valueAssessor_work config).

(** ** middleware/address-checker.ts *)

(** The outcome of awaiting a provider of the intelligence layer: it
    rejects, or resolves to a value or [null]. *)
Inductive ProviderResult (A : Type) :=
| PFail
| PValue (a : option A).
Arguments PFail {A}.
Arguments PValue {A} a.

Definition normalizeAddress (address : string) : string :=
  if JS.startsWith "0x" (JS.toLowerCase address)
  then JS.toLowerCase address
  else "0x" ++ JS.toLowerCase address.

Definition severity_weight_address (s : Severity) : float :=
  match s with
  | critical => 50
  | high => 25
  | medium => 15
  | low => 5
  | info => 0
  end.

Definition reputation_reasons (isAllowed : bool) (rep : AddressReputation)
  : list SecurityReason :=
  ((if ageDays rep <? 7 then
      [mkReason "NEW_ADDRESS"
         ("Target address is only " ++ JS.toString (ageDays rep)
          ++ " day(s) old")
         medium src_address]
    else [])
   ++
   (if (transactionCount rep <? 5) && negb isAllowed then
      [mkReason "LOW_ACTIVITY_ADDRESS"
         ("Target address has only " ++ JS.toString (transactionCount rep)
          ++ " transactions")
         low src_address]
    else [])
   ++
   map (fun factor => mkReason "ADDRESS_RISK_FACTOR" factor high src_address)
       (riskFactors rep))%list.

Definition addressChecker_work
    (getReputation : option (string -> Z -> ProviderResult AddressReputation))
    (w : World) : Res :=
  let ctx := w_ctx w in
  let transaction := transaction ctx in
  let policy := policy ctx in
  if String.eqb (to transaction) "" then
    Ok (set_ctx
          (push_reason
             (mkReason "CONTRACT_CREATION"
                "Transaction creates a new contract. Ensure this is intentional."
                medium src_address)
             ctx)
          w)
  else
    let target := normalizeAddress (to transaction) in
    (* 1. Check denylist *)
    let isDenied :=
      existsb (fun addr => String.eqb (normalizeAddress addr) target)
              (deny_addresses (denylists policy)) in
    let ctx1 :=
      if isDenied then
        push_reason
          (mkReason "DENYLISTED_ADDRESS"
             ("Target address " ++ target ++ " is on the denylist")
             critical src_address)
          ctx
      else ctx in
    (* 2. Check allowlist *)
    let isAllowed :=
      existsb (fun addr => String.eqb (normalizeAddress addr) target)
              (allow_addresses (allowlists policy))
      || existsb (fun addr => String.eqb (normalizeAddress addr) target)
                 (allow_contracts (allowlists policy)) in
    (* 3. Fetch reputation *)
    let ctx3 :=
      match getReputation with
      | None => ctx1
      | Some get =>
          match get target (chainId transaction) with
          | PValue (Some rep) =>
              push_reasons (reputation_reasons isAllowed rep)
                           (set_addressReputation (Some rep) ctx1)
          | PValue None => ctx1
          | PFail =>
              push_reason
                (mkReason "INTELLIGENCE_UNAVAILABLE"
                   "Could not fetch address reputation - intelligence layer unavailable"
                   info src_address)
                ctx1
          end
      end in
    (* 4. Calculate address risk score *)
    let addressReasons :=
      filter (fun r => ReasonSource_eqb (source r) src_address)
             (ctx_reasons ctx3) in
    let addressScore :=
      if isDenied then 100%float
      else if isAllowed then 0%float
      else
        fold_left
          (fun acc r => (acc + severity_weight_address (severity r))%float)
          addressReasons 0%float in
    let ctx4 :=
      set_riskScores
        (set_sc_transaction
           (JS.Math_min 100
              (orElse (sc_transaction (riskScores ctx3)) 0 + addressScore)%float)
           (riskScores ctx3))
        ctx3 in
    Ok (set_ctx ctx4 w).

Definition createAddressChecker
    (getReputation : option (string -> Z -> ProviderResult AddressReputation))
  : Middleware := stage (addressChecker_work getReputation).

(** ** middleware/contract-checker.ts *)

Definition severity_weight_contract (s : Severity) : float :=
  match s with
  | critical => 40
  | high => 25
  | medium => 10
  | low => 5
  | info => 0
  end.

Definition contract_reasons (isApprovalCall : bool) (analysis : ContractAnalysis)
  : list SecurityReason :=
  ((if hasSelfDestruct analysis then
      [mkReason "CONTRACT_SELFDESTRUCT"
         "Target contract contains SELFDESTRUCT opcode - can be destroyed, potentially losing funds"
         critical src_contract]
    else [])
   ++
   (if hasUnsafeDelegatecall analysis && negb (isVerified analysis) then
      [mkReason "CONTRACT_UNSAFE_DELEGATECALL"
         "Unverified contract uses DELEGATECALL - can execute arbitrary code"
         high src_contract]
    else [])
   ++
   (if isProxy analysis && negb (isVerified analysis) then
      [mkReason "CONTRACT_UNVERIFIED_PROXY"
         ("Contract is a proxy (implementation: "
          ++ orElse (implementationAddress analysis) "unknown"
          ++ ") and source is not verified")
         high src_contract]
    else [])
   ++
   (if negb (isVerified analysis)
       && negb (match risk analysis with risk_safe => true | _ => false end)
    then
      [mkReason "CONTRACT_UNVERIFIED"
         "Contract source code is not verified on block explorer"
         medium src_contract]
    else [])
   ++
   (if allowsInfiniteApproval analysis && isApprovalCall then
      [mkReason "CONTRACT_ALLOWS_INFINITE_APPROVAL"
         "Contract supports unlimited token approvals - ensure amount is limited"
         medium src_contract]
    else [])
   ++
   map (fun p =>
          mkReason ("CONTRACT_PATTERN_" ++ pat_name p) (pat_description p)
                   (pat_severity p) src_contract)
       (dangerousPatterns analysis))%list.

Definition analysis_unavailable : SecurityReason :=
  mkReason "CONTRACT_ANALYSIS_UNAVAILABLE"
    "Could not analyze target contract - intelligence layer unavailable"
    info src_contract.

(** The [await next(); return;] for a [null] analysis sits inside the [try]
    block: an exception of the later stages is caught there, after which the
    closing [await next()] runs as well. *)
Definition createContractChecker
    (getContractAnalysis :
       option (string -> Z -> ProviderResult ContractAnalysis))
  : Middleware :=
  fun w next =>
    let ctx := w_ctx w in
    let tx := transaction ctx in
    match getContractAnalysis with
    | None => next w
    | Some get =>
        if String.eqb (to tx) "" then next w
        else
          let hasCalldata :=
            match data tx with
            | Some d => negb (String.eqb d "") && negb (String.eqb d "0x")
            | None => false
            end in
          let hasValue :=
            match value tx with
            | Some v =>
                if String.eqb v "" then Some false
                else option_map (fun n => 0 <? n) (JS.StringToBigInt v)
            | None => Some false
            end in
          match hasValue with
          | None => Throw "SyntaxError: Cannot convert value to a BigInt" w
          | Some _ =>
              let labelled :=
                match addressReputation ctx with
                | Some rep =>
                    match labels rep with
                    | Some ls => existsb (String.eqb "contract") ls
                    | None => false
                    end
                | None => false
                end in
              if negb hasCalldata && negb labelled then next w
              else
                match get (to tx) (chainId tx) with
                | PValue None =>
                    match next w with
                    | Ok w' => Ok w'
                    | Throw _ w' =>
                        next (upd_ctx (push_reason analysis_unavailable) w')
                    end
                | PValue (Some analysis) =>
                    let reasons :=
                      contract_reasons
                        (match decoded ctx with
                         | Some d => isApproval d
                         | None => false
                         end)
                        analysis in
                    let ctx1 :=
                      push_reasons reasons
                        (set_contractAnalysis (Some analysis) ctx) in
                    let contractScore :=
                      fold_left
                        (fun acc r =>
                           (acc + severity_weight_contract (severity r))%float)
                        reasons 0%float in
                    let ctx2 :=
                      set_riskScores
                        (set_sc_transaction
                           (JS.Math_min 100
                              (orElse (sc_transaction (riskScores ctx1)) 0
                               + contractScore)%float)
                           (riskScores ctx1))
                        ctx1 in
                    next (set_ctx ctx2 w)
                | PFail =>
                    next (upd_ctx (push_reason analysis_unavailable) w)
                end
          end
    end.

(** ** middleware/risk-aggregator.ts *)

Definition tier_min (t : SecurityTierConfig) : Q :=
  orElse (minValueAtRiskUsd (triggers t)) 0%Q.

(** [[...policy.tiers].sort((a, b) => min(b) - min(a))]: the stable sort by
    descending minimum. *)
Fixpoint insert_tier (x : SecurityTierConfig) (l : list SecurityTierConfig)
  : list SecurityTierConfig :=
  match l with
  | [] => [x]
  | y :: r =>
      if Qle_bool (tier_min y) (tier_min x) then x :: y :: r
      else y :: insert_tier x r
  end.

Definition sortTiers (l : list SecurityTierConfig) : list SecurityTierConfig :=
  fold_right insert_tier [] l.

Definition address_trigger (targetAddress : string) (t : SecurityTierConfig)
  : bool :=
  match targetAddresses (triggers t) with
  | Some l =>
      negb (String.eqb targetAddress "")
      && existsb (fun a => String.eqb (JS.toLowerCase a)
                                      (JS.toLowerCase targetAddress)) l
  | None => false
  end.

Definition function_trigger (functionSignature : option string)
    (t : SecurityTierConfig) : bool :=
  match functionSignatures (triggers t), functionSignature with
  | Some l, Some f => negb (String.eqb f "") && existsb (String.eqb f) l
  | _, _ => false
  end.

(** [estimatedValueUsd >= minValue && estimatedValueUsd < maxValue], with
    [maxValue] defaulting to [Infinity]. *)
Definition value_trigger (estimatedValueUsd : float) (t : SecurityTierConfig)
  : bool :=
  num_geQ estimatedValueUsd (tier_min t)
  && match maxValueAtRiskUsd (triggers t) with
     | Some maxValue => num_ltQ estimatedValueUsd maxValue
     | None => num_lt_Infinity estimatedValueUsd
     end.

Definition tier_matches (estimatedValueUsd : float) (targetAddress : string)
    (functionSignature : option string) (t : SecurityTierConfig) : bool :=
  address_trigger targetAddress t
  || function_trigger functionSignature t
  || value_trigger estimatedValueUsd t.

(** The [for] loop over the sorted tiers. *)
Fixpoint first_match (estimatedValueUsd : float) (targetAddress : string)
    (functionSignature : option string) (sorted : list SecurityTierConfig)
  : option SecurityTierConfig :=
  match sorted with
  | [] => None
  | t :: r =>
      if address_trigger targetAddress t then Some t
      else if function_trigger functionSignature t then Some t
      else if value_trigger estimatedValueUsd t then Some t
      else first_match estimatedValueUsd targetAddress functionSignature r
  end.

Definition determineTier (policy : SecurityPolicy) (estimatedValueUsd : float)
    (targetAddress : string) (functionSignature : option string)
  : option SecurityTierConfig :=
  let sortedTiers := sortTiers (tiers policy) in
  match first_match estimatedValueUsd targetAddress functionSignature
                    sortedTiers with
  | Some t => Some t
  | None => last (map Some sortedTiers) None
  end.

Definition weight_context : float := 0.40.
Definition weight_transaction : float := 0.35.
Definition weight_behavioral : float := 0.25.

(** The [scores] object the aggregator builds and stores. *)
Definition aggregate (rs : RiskScores) : RiskScore :=
  let c := orElse (sc_context rs) 0%float in
  let t := orElse (sc_transaction rs) 0%float in
  let b := orElse (sc_behavioral rs) 0%float in
  (* Calculate weighted composite score *)
  let composite1 :=
    JS.Math_round
      (c * weight_context + t * weight_transaction + b * weight_behavioral)%float in
  (* Clamp to 0-100 *)
  let composite2 := JS.Math_max 0 (JS.Math_min 100 composite1) in
  (* Override: a single critical score lifts the composite to 80 *)
  let composite3 :=
    if (90 <=? c)%float || (90 <=? t)%float || (90 <=? b)%float
    then JS.Math_max composite2 80
    else composite2 in
  mkScore c t b composite3.

Definition scores_of (s : RiskScore) : RiskScores :=
  mkScores (Some (rs_context s)) (Some (rs_transaction s))
           (Some (rs_behavioral s)) (Some (rs_composite s)).

Definition riskAggregator_work (w : World) : Res :=
  let ctx := w_ctx w in
  let ctx1 := set_riskScores (scores_of (aggregate (riskScores ctx))) ctx in
  let estimatedValue :=
    match decoded ctx1 with
    | Some d => estimatedValueUsd d
    | None => 0%float
    end in
  let t :=
    determineTier (policy ctx1) estimatedValue (to (transaction ctx1))
      (match decoded ctx1 with
       | Some d => functionName d
       | None => None
       end) in
  let ctx2 :=
    match t with
    | Some _ => set_tier t ctx1
    | None => ctx1
    end in
  Ok (set_ctx ctx2 w).

Definition riskAggregator : Middleware := stage riskAggregator_work.

(** ** middleware/policy-engine.ts *)

Definition set_md_verdict (v : option SecurityVerdict) (m : Metadata)
  : Metadata := mkMetadata v (md_estimatedValueUsd m).

Definition has_code (c : string) (l : list SecurityReason) : bool :=
  existsb (fun r => String.eqb (code r) c) l.

Definition truthy_seconds (s : option Z) : bool :=
  match s with
  | Some n => negb (n =? 0)
  | None => false
  end.

(** The decision, required action and delay the tier's mode gives. *)
Definition mode_decision (enforcement : TierEnforcement) (composite : float)
  : Decision * RequiredAction * option Z :=
  match mode enforcement with
  | audit => (approve, act_none, None)
  | copilot =>
      if (50 <? composite)%float then (advise, act_none, None)
      else (approve, act_none, None)
  | guardian =>
      if (blockThreshold enforcement <=? composite)%float then
        (block, human_approval, None)
      else if (blockThreshold enforcement * 0.6 <=? composite)%float then
        (advise, act_none, None)
      else (approve, act_none, None)
  | fortress =>
      if truthy_seconds (timeLockSeconds enforcement) then
        (block, delay, timeLockSeconds enforcement)
      else (block, human_approval, None)
  end.

Definition block_suggestions (rs : list SecurityReason) : list string :=
  ((if has_code "INFINITE_APPROVAL" rs then
      ["Use a specific approval amount instead of infinite approval"]
    else [])
   ++
   (if has_code "DENYLISTED_ADDRESS" rs then
      ["Verify the target address - it appears on known threat lists"]
    else [])
   ++
   (if existsb (fun r => ReasonSource_eqb (source r) src_context) rs then
      ["Review the conversation context for potential prompt injection"]
    else [])
   ++
   (if has_code "NEW_ADDRESS" rs then
      ["The target address is very new - consider waiting or verifying through an independent channel"]
    else []))%list.

(** The last middleware: it stores the verdict and does not call [next]. *)
Definition policyEngine : Middleware :=
  fun w _next =>
    let ctx := w_ctx w in
    let scores :=
      mkScore (orElse (sc_context (riskScores ctx)) 0%float)
              (orElse (sc_transaction (riskScores ctx)) 0%float)
              (orElse (sc_behavioral (riskScores ctx)) 0%float)
              (orElse (sc_composite (riskScores ctx)) 0%float) in
    let evaluationId := uuid (w_env w) in
    let timestamp := now (w_env w) in
    let '(decision1, requiredAction1, delaySeconds) :=
      match tier ctx with
      | None =>
          (* No tier matched - conservative defaults *)
          if (70 <? rs_composite scores)%float then (block, act_none, None)
          else if (30 <? rs_composite scores)%float then (advise, act_none, None)
          else (approve, act_none, None)
      | Some t =>
          let enforcement := enforcement t in
          let '(d0, a0, delay0) :=
            mode_decision enforcement (rs_composite scores) in
          (* Override: any critical finding forces a block, audit excepted *)
          let hasCritical :=
            existsb (fun r => Severity_eqb (severity r) critical)
                    (ctx_reasons ctx) in
          let notAudit := negb (EnforcementMode_eqb (mode enforcement) audit) in
          let '(d1, a1) :=
            if hasCritical && notAudit then (block, human_approval)
            else (d0, a0) in
          (* High-severity context findings force at least an advisory *)
          let hasHighContext :=
            existsb
              (fun r =>
                 ReasonSource_eqb (source r) src_context
                 && (Severity_eqb (severity r) high
                     || Severity_eqb (severity r) critical))
              (ctx_reasons ctx) in
          let d2 :=
            if hasHighContext && Decision_eqb d1 approve && notAudit
            then advise else d1 in
          (d2, a1, delay0)
      end in
    (* Check global limits *)
    let limits := limits (policy ctx) in
    match JS.StringToBigInt (orElse (value (transaction ctx)) "0") with
    | None => Throw "SyntaxError: Cannot convert value to a BigInt" w
    | Some txValue =>
        match JS.StringToBigInt (maxTransactionValueWei limits) with
        | None => Throw "SyntaxError: Cannot convert limit to a BigInt" w
        | Some maxTx =>
            let exceeds := maxTx <? txValue in
            let decision2 := if exceeds then block else decision1 in
            let requiredAction2 :=
              if exceeds then human_approval else requiredAction1 in
            let ctx1 :=
              if exceeds then
                push_reason
                  (mkReason "EXCEEDS_TX_LIMIT"
                     "Transaction value exceeds maximum per-transaction limit"
                     high src_policy)
                  ctx
              else ctx in
            (* Generate suggestions for blocked transactions *)
            let suggestions :=
              if Decision_eqb decision2 block
              then block_suggestions (ctx_reasons ctx1) else [] in
            (* Build the verdict *)
            let verdict :=
              mkVerdict decision2 scores (ctx_reasons ctx1) suggestions
                        (Some requiredAction2) delaySeconds timestamp
                        evaluationId
                        (match tier ctx with
                         | Some t => tier_id t
                         | None => "unknown"
                         end) in
            Ok (set_ctx
                  (set_metadata (set_md_verdict (Some verdict) (metadata ctx1))
                                ctx1)
                  w)
        end
    end.

(** ** policy.ts *)

(** [Partial<SecurityPolicy>] *)
Record PolicyOverrides := mkOverrides {
  o_tiers : option (list SecurityTierConfig);
  o_allowlists : option Allowlists;
  o_denylists : option Denylists;
  o_limits : option Limits;
  o_behavioral : option BehavioralConfig;
  o_contextAnalysis : option ContextAnalysisConfig
}.

Definition is_blocking_tier (t : SecurityTierConfig) : bool :=
  match mode (enforcement t) with
  | guardian | fortress => true
  | _ => false
  end.

(** Modelled from the spec: [mergePolicy] of policy.ts, which shield.ts
    imports and which is not among the sources. The overrides replace the
    fields they give; the result must have at least one tier and at least one
    tier of mode guardian or fortress, otherwise the call raises ([inl] with
    the message the guardrail tests match). *)
Definition mergePolicy (base : SecurityPolicy) (overrides : PolicyOverrides)
  : string + SecurityPolicy :=
  let merged :=
    mkPolicy (orElse (o_tiers overrides) (tiers base))
             (orElse (o_allowlists overrides) (allowlists base))
             (orElse (o_denylists overrides) (denylists base))
             (orElse (o_limits overrides) (limits base))
             (orElse (o_behavioral overrides) (behavioral base))
             (orElse (o_contextAnalysis overrides) (contextAnalysis base)) in
  match tiers merged with
  | [] => inl "Policy must define at least one security tier"
  | _ =>
      if existsb is_blocking_tier (tiers merged) then inr merged
      else inl "Policy must keep at least one blocking tier (guardian or fortress)"
  end.

(** ** shield.ts *)

(** The behavioral comparator of the pipeline; its module is not among the
    sources. *)
Variable behavioralComparator : Middleware.

Record IntelligenceProvider := mkProvider {
  getAddressReputation : string -> ProviderResult AddressReputation;
  getContractAnalysis : string -> ProviderResult ContractAnalysis
}.

(** What the shield passes to an operator's handler. *)
Inductive Event :=
| onBlock (v : SecurityVerdict) (tx : TransactionRequest)
          (d : option DecodedTransaction)
| onAdvisory (v : SecurityVerdict) (tx : TransactionRequest)
| onFreeze (reason details : string) (ts : Z)
| onThreat (threatType : string) (sev : Severity) (details : string).

(** A handler of the operator. The shield calls it synchronously and
    without a [try]: [Some err] when the call throws [err], [None] when it
    returns. What it does may depend on the calls the handlers have received
    before (the first argument). A handler here only returns or throws: it
    does not change the objects it is given and does not call back into the
    shield. *)
Definition Handler : Type := list Event -> Event -> option string.

(** [intelligence]: whether the configuration has the key; [provider]: what
    loading the optional intelligence package yields, [None] when it is not
    installed; the four optional handlers. *)
Record WardexConfig := mkConfig {
  cfg_policy : SecurityPolicy;
  cfg_mode : string;
  cfg_intelligence : bool;
  cfg_provider : option IntelligenceProvider;
  cfg_onBlock : option Handler;
  cfg_onAdvisory : option Handler;
  cfg_onFreeze : option Handler;
  cfg_onThreat : option Handler
}.

(** The closure variables of [createShield], and the calls made to the
    operator's handlers so far, in order ([events]). A custom middleware is
    a function on the world of an evaluation; state of its own is not
    modelled. *)
Record Shield := mkShield {
  sh_policy : SecurityPolicy;
  frozen : bool;
  freezeReason : string;
  evaluationCount : Z;
  blockCount : Z;
  advisoryCount : Z;
  dailyVolumeWei : Z;
  dailyVolumeResetDate : string;
  signerHealthy : bool;
  intelligenceLastUpdated : option Z;
  auditLog : list AuditEntry;
  customMiddlewares : list Middleware;
  escalationTracker : list EscalationSample;
  baseline : Baseline;
  events : list Event
}.

Definition createShield (config : WardexConfig) (today0 : string)
    (baseline0 : Baseline) : Shield :=
  mkShield (cfg_policy config) false "" 0 0 0 0 today0 true None [] [] []
           baseline0 [].

Definition set_policy (p : SecurityPolicy) (s : Shield) : Shield :=
  mkShield p (frozen s) (freezeReason s) (evaluationCount s) (blockCount s)
    (advisoryCount s) (dailyVolumeWei s) (dailyVolumeResetDate s)
    (signerHealthy s) (intelligenceLastUpdated s) (auditLog s)
    (customMiddlewares s) (escalationTracker s) (baseline s) (events s).
Definition set_frozen (b : bool) (reason : string) (s : Shield) : Shield :=
  mkShield (sh_policy s) b reason (evaluationCount s) (blockCount s)
    (advisoryCount s) (dailyVolumeWei s) (dailyVolumeResetDate s)
    (signerHealthy s) (intelligenceLastUpdated s) (auditLog s)
    (customMiddlewares s) (escalationTracker s) (baseline s) (events s).
Definition set_evaluationCount (n : Z) (s : Shield) : Shield :=
  mkShield (sh_policy s) (frozen s) (freezeReason s) n (blockCount s)
    (advisoryCount s) (dailyVolumeWei s) (dailyVolumeResetDate s)
    (signerHealthy s) (intelligenceLastUpdated s) (auditLog s)
    (customMiddlewares s) (escalationTracker s) (baseline s) (events s).
Definition set_blockCount (n : Z) (s : Shield) : Shield :=
  mkShield (sh_policy s) (frozen s) (freezeReason s) (evaluationCount s) n
    (advisoryCount s) (dailyVolumeWei s) (dailyVolumeResetDate s)
    (signerHealthy s) (intelligenceLastUpdated s) (auditLog s)
    (customMiddlewares s) (escalationTracker s) (baseline s) (events s).
Definition set_advisoryCount (n : Z) (s : Shield) : Shield :=
  mkShield (sh_policy s) (frozen s) (freezeReason s) (evaluationCount s)
    (blockCount s) n (dailyVolumeWei s) (dailyVolumeResetDate s)
    (signerHealthy s) (intelligenceLastUpdated s) (auditLog s)
    (customMiddlewares s) (escalationTracker s) (baseline s) (events s).
Definition set_dailyVolume (v : Z) (d : string) (s : Shield) : Shield :=
  mkShield (sh_policy s) (frozen s) (freezeReason s) (evaluationCount s)
    (blockCount s) (advisoryCount s) v d
    (signerHealthy s) (intelligenceLastUpdated s) (auditLog s)
    (customMiddlewares s) (escalationTracker s) (baseline s) (events s).
Definition set_intelligenceLastUpdated (t : option Z) (s : Shield) : Shield :=
  mkShield (sh_policy s) (frozen s) (freezeReason s) (evaluationCount s)
    (blockCount s) (advisoryCount s) (dailyVolumeWei s)
    (dailyVolumeResetDate s) (signerHealthy s) t (auditLog s)
    (customMiddlewares s) (escalationTracker s) (baseline s) (events s).
Definition set_auditLog (l : list AuditEntry) (s : Shield) : Shield :=
  mkShield (sh_policy s) (frozen s) (freezeReason s) (evaluationCount s)
    (blockCount s) (advisoryCount s) (dailyVolumeWei s)
    (dailyVolumeResetDate s) (signerHealthy s) (intelligenceLastUpdated s) l
    (customMiddlewares s) (escalationTracker s) (baseline s) (events s).
Definition set_customMiddlewares (l : list Middleware) (s : Shield) : Shield :=
  mkShield (sh_policy s) (frozen s) (freezeReason s) (evaluationCount s)
    (blockCount s) (advisoryCount s) (dailyVolumeWei s)
    (dailyVolumeResetDate s) (signerHealthy s) (intelligenceLastUpdated s)
    (auditLog s) l (escalationTracker s) (baseline s) (events s).
Definition set_closures (t : list EscalationSample) (b : Baseline)
    (s : Shield) : Shield :=
  mkShield (sh_policy s) (frozen s) (freezeReason s) (evaluationCount s)
    (blockCount s) (advisoryCount s) (dailyVolumeWei s)
    (dailyVolumeResetDate s) (signerHealthy s) (intelligenceLastUpdated s)
    (auditLog s) (customMiddlewares s) t b (events s).
Definition emit (e : Event) (s : Shield) : Shield :=
  mkShield (sh_policy s) (frozen s) (freezeReason s) (evaluationCount s)
    (blockCount s) (advisoryCount s) (dailyVolumeWei s)
    (dailyVolumeResetDate s) (signerHealthy s) (intelligenceLastUpdated s)
    (auditLog s) (customMiddlewares s) (escalationTracker s) (baseline s)
    (events s ++ [e]).

(** [handler?.(e)]: nothing happens without a handler; a handler is called,
    and what it throws comes back. *)
Definition notify (handler : option Handler) (e : Event) (s : Shield)
  : option string * Shield :=
  match handler with
  | Some h => (h (events s) e, emit e s)
  | None => (None, s)
  end.

(** The address and contract checkers the shield wires at construction. *)
Definition addressChecker (config : WardexConfig) : Middleware :=
  match cfg_intelligence config, cfg_provider config with
  | true, Some intel =>
      createAddressChecker
        (Some (fun address _chainId => getAddressReputation intel address))
  | _, _ => createAddressChecker None
  end.

Definition contractChecker (config : WardexConfig) : Middleware :=
  match cfg_intelligence config, cfg_provider config with
  | true, Some intel =>
      createContractChecker
        (Some (fun address _chainId => getContractAnalysis intel address))
  | _, _ => createContractChecker None
  end.

Definition buildPipeline (config : WardexConfig) (s : Shield) : Middleware :=
  compose
    ([ contextAnalyzer;
       transactionDecoder;
       createValueAssessor None;
       addressChecker config;
       contractChecker config;
       behavioralComparator ]
     ++ customMiddlewares s
     ++ [ riskAggregator; policyEngine ]).

Definition checkDailyReset (env : Env) (s : Shield) : Shield :=
  if negb (String.eqb (today env) (dailyVolumeResetDate s))
  then set_dailyVolume 0 (today env) s
  else s.

Definition AUDIT_CAPACITY : Z := 10000.

(** The entry [recordAudit] pushes. *)
Definition auditEntry (tx : TransactionRequest) (verdict : SecurityVerdict)
    (context : option ConversationContext) (executed : option bool)
  : AuditEntry :=
  mkAudit (evaluationId verdict) (timestamp verdict) tx verdict
    (match context with
     | Some c =>
         Some (JS.nat_toString (List.length (messages c))
               ++ " messages, source: " ++ identifier (conv_source c))
     | None => None
     end)
    (orElse executed (Decision_eqb (decision verdict) approve)).

Definition recordAudit (tx : TransactionRequest) (verdict : SecurityVerdict)
    (context : option ConversationContext) (executed : option bool)
    (s : Shield) : Shield :=
  let pushed := (auditLog s ++ [auditEntry tx verdict context executed])%list in
  (* Keep audit log bounded (last 10,000 entries) *)
  set_auditLog
    (if AUDIT_CAPACITY <? Z.of_nat (List.length pushed)
     then skipn (Z.to_nat (Z.of_nat (List.length pushed) - AUDIT_CAPACITY))
                pushed
     else pushed)
    s.

Definition is_block_or_freeze (d : Decision) : bool :=
  Decision_eqb d block || Decision_eqb d freeze.

Definition frozenVerdict (s : Shield) (env : Env) : SecurityVerdict :=
  mkVerdict freeze (mkScore 0 0 0 100)
    [mkReason "SYSTEM_FROZEN"
       ("System is in emergency freeze: " ++ freezeReason s)
       critical src_policy]
    ["Contact operator to unfreeze the system"]
    (Some human_approval) None (now env) (uuid env) "frozen".

Definition fallbackVerdict (env : Env) : SecurityVerdict :=
  mkVerdict block (mkScore 0 0 0 50)
    [mkReason "PIPELINE_ERROR"
       "Evaluation pipeline did not produce a verdict" high src_policy]
    ["Check Wardex configuration"]
    None None (now env) (uuid env) "error".

Definition set_decision (d : Decision) (a : RequiredAction)
    (rs : list SecurityReason) (v : SecurityVerdict) : SecurityVerdict :=
  mkVerdict d (riskScore v) rs (suggestions v) (Some a) (delaySeconds v)
            (timestamp v) (evaluationId v) (tierId v).

(** What the caller of [evaluate] gets: a verdict, or a rejected promise. *)
Inductive Outcome :=
| Returned (v : SecurityVerdict)
| Raised (err : string).

(** The auto-freeze check that follows the audit entry of a verdict: the
    error of a handler that throws, and the shield after. The shield is
    frozen before the handlers are called. *)
Definition autoFreeze (config : WardexConfig) (verdict : SecurityVerdict)
    (env : Env) (s : Shield) : option string * Shield :=
  if is_block_or_freeze (decision verdict) then
    let recentEntries := JS.lastn 10 (auditLog s) in
    let recentBlocks :=
      filter (fun e => is_block_or_freeze (decision (au_verdict e)))
             recentEntries in
    if (5 <=? List.length recentBlocks)%nat then
      let reason :=
        "Auto-freeze: " ++ JS.nat_toString (List.length recentBlocks)
        ++ " blocked transactions in last "
        ++ JS.nat_toString (List.length recentEntries) ++ " evaluations" in
      match notify (cfg_onFreeze config)
                   (onFreeze reason
                      ("Blocked evaluations: "
                       ++ JS.join ", " (map au_evaluationId recentBlocks))
                      (now env))
                   (set_frozen true reason s) with
      | (Some err, s1) => (Some err, s1)
      | (None, s1) =>
          notify (cfg_onThreat config)
                 (onThreat "AUTO_FREEZE" critical reason) s1
      end
    else (None, s)
  else (None, s).

(** The steps of [evaluateInternal] that precede the pipeline: daily reset,
    evaluation counter, intelligence timestamp. *)
Definition beginEvaluation (config : WardexConfig) (env : Env) (s : Shield)
  : Shield :=
  let s1 := checkDailyReset env s in
  let s2 := set_evaluationCount (evaluationCount s1 + 1) s1 in
  if cfg_intelligence config
  then set_intelligenceLastUpdated (Some (now env)) s2 else s2.

(** Build and run the middleware pipeline on a fresh context. *)
Definition runPipeline (config : WardexConfig) (env : Env)
    (tx : TransactionRequest) (context : option ConversationContext)
    (s : Shield) : Res :=
  let pipeline := buildPipeline config s in
  let ctx := createMiddlewareContext (Some tx) context (Some (sh_policy s)) in
  pipeline (mkWorld ctx (-1) (escalationTracker s) (baseline s) env)
           (fun w => Ok w).

(** The steps that follow a verdict of the pipeline: counters and handlers,
    daily volume, audit entry, auto-freeze. *)
Definition settleVerdict (config : WardexConfig) (env : Env)
    (tx : TransactionRequest) (context : option ConversationContext)
    (verdict : SecurityVerdict) (decoded : option DecodedTransaction)
    (s4 : Shield) : Outcome * Shield :=
  (* Update counters *)
  let counted :=
    if is_block_or_freeze (decision verdict) then
      notify (cfg_onBlock config) (onBlock verdict tx decoded)
             (set_blockCount (blockCount s4 + 1) s4)
    else if Decision_eqb (decision verdict) advise then
      notify (cfg_onAdvisory config) (onAdvisory verdict tx)
             (set_advisoryCount (advisoryCount s4 + 1) s4)
    else (None, s4) in
  match counted with
  | (Some err, s5) => (Raised err, s5)
  | (None, s5) =>
      (* Track daily volume for approved transactions *)
      let tracked : Shield + SecurityVerdict * Shield :=
        if Decision_eqb (decision verdict) approve then
          match JS.StringToBigInt (orElse (value tx) "0") with
          | None => inl s5
          | Some txValue =>
              let s6 :=
                set_dailyVolume (dailyVolumeWei s5 + txValue)
                                (dailyVolumeResetDate s5) s5 in
              match JS.StringToBigInt
                      (maxDailyVolumeWei (limits (sh_policy s6))) with
              | None => inl s6
              | Some maxDaily =>
                  if maxDaily <? dailyVolumeWei s6 then
                    inr
                      (set_decision block human_approval
                         (reasons verdict
                          ++ [mkReason "DAILY_VOLUME_EXCEEDED"
                                "Daily transaction volume limit exceeded"
                                high src_policy])
                         verdict,
                       set_blockCount (blockCount s6 + 1) s6)
                  else inr (verdict, s6)
              end
          end
        else inr (verdict, s5) in
      match tracked with
      | inl s' => (Raised "SyntaxError: Cannot convert value to a BigInt", s')
      | inr (verdict', s7) =>
          (* Record the audit entry BEFORE freeze check *)
          let s8 := recordAudit tx verdict' context None s7 in
          (* Auto-freeze on multiple consecutive blocks *)
          match autoFreeze config verdict' env s8 with
          | (Some err, s9) => (Raised err, s9)
          | (None, s9) => (Returned verdict', s9)
          end
      end
  end.

Definition evaluateInternal (config : WardexConfig) (env : Env)
    (tx : TransactionRequest) (context : option ConversationContext)
    (s : Shield) : Outcome * Shield :=
  (* Check if frozen *)
  if frozen s then
    let v := frozenVerdict s env in
    (Returned v, recordAudit tx v context (Some false) s)
  else
    let s3 := beginEvaluation config env s in
    match runPipeline config env tx context s3 with
    | Throw err w =>
        (Raised err, set_closures (w_tracker w) (w_baseline w) s3)
    | Ok w =>
        let s4 := set_closures (w_tracker w) (w_baseline w) s3 in
        (* Extract verdict from pipeline *)
        match md_verdict (metadata (w_ctx w)) with
        | None =>
            (* Pipeline didn't produce a verdict *)
            let v := fallbackVerdict env in
            (Returned v, recordAudit tx v context (Some false) s4)
        | Some verdict =>
            settleVerdict config env tx context verdict (decoded (w_ctx w))
                          s4
        end
    end.

(** *** The shield object *)

Definition evaluate (config : WardexConfig) (env : Env)
    (tx : TransactionRequest) (s : Shield) : Outcome * Shield :=
  evaluateInternal config env tx None s.

Definition evaluateWithContext (config : WardexConfig) (env : Env)
    (tx : TransactionRequest) (context : ConversationContext) (s : Shield)
  : Outcome * Shield :=
  evaluateInternal config env tx (Some context) s.



(** [policy = mergePolicy(policy, overrides)]: when [mergePolicy] throws the
    assignment does not happen. *)
Definition updatePolicy (overrides : PolicyOverrides) (s : Shield)
  : option string * Shield :=
  match mergePolicy (sh_policy s) overrides with
  | inr p => (None, set_policy p s)
  | inl err => (Some err, s)
  end.

Definition getAuditLog (limit : option nat) (s : Shield) : list AuditEntry :=
  match limit with
  | Some (S n) => JS.lastn (S n) (auditLog s)
  | _ => auditLog s
  end.

Definition use (middleware : Middleware) (s : Shield) : Shield :=
  set_customMiddlewares (customMiddlewares s ++ [middleware]) s.

Definition isFrozen (s : Shield) : bool := frozen s.

(** [freeze(reason)]: what the handler throws, if it does, and the shield
    after, frozen either way. *)
Definition freeze_shield (config : WardexConfig) (env : Env) (reason : string)
    (s : Shield) : option string * Shield :=
  notify (cfg_onFreeze config)
         (onFreeze reason "Manual freeze triggered" (now env))
         (set_frozen true reason s).

Definition unfreeze (s : Shield) : Shield := set_frozen false "" s.

End Engine.

Arguments Ok {Baseline} w.
Arguments Throw {Baseline} err w.
Arguments mkWorld {Baseline} w_ctx w_index w_tracker w_baseline w_env.
Arguments w_ctx {Baseline} w.
Arguments w_index {Baseline} w.
Arguments w_tracker {Baseline} w.
Arguments w_baseline {Baseline} w.
Arguments w_env {Baseline} w.
Arguments set_ctx {Baseline} c w.
Arguments upd_ctx {Baseline} f w.
Arguments stage {Baseline} work w next.
Arguments frozen {Baseline} s.
Arguments freezeReason {Baseline} s.
Arguments sh_policy {Baseline} s.
Arguments evaluationCount {Baseline} s.
Arguments blockCount {Baseline} s.
Arguments advisoryCount {Baseline} s.
Arguments dailyVolumeWei {Baseline} s.
Arguments dailyVolumeResetDate {Baseline} s.
Arguments auditLog {Baseline} s.
Arguments customMiddlewares {Baseline} s.
Arguments escalationTracker {Baseline} s.
Arguments baseline {Baseline} s.
Arguments events {Baseline} s.

(* ====================================================================== *)
(** * The isolated signer: approval tokens (signer/isolated-process.ts)    *)
(* ====================================================================== *)

Module Signer.
Section Tokens.

(** [crypto.createHmac('sha256', key).update(message).digest('hex')] *)
Variable hmac_sha256_hex : string -> string -> string.

(** [ts] is the [timestamp] argument, or the clock when it is omitted. *)
Definition generateApprovalToken (transactionHash sharedSecret : string)
    (ts : Z) : string :=
  let mac := hmac_sha256_hex sharedSecret (transactionHash ++ JS.toString ts) in
  let tsHex := JS.padStart 16 "0" (JS.toStringRadix 16 ts) in
  mac ++ tsHex.

Definition APPROVAL_TOKEN_MAX_AGE_MS : Z := 5 * 60 * 1000.

(** /^[0-9a-f]{80}$/i *)
Definition token_format (token : string) : bool :=
  (String.length token =? 80)%nat && JS.string_forallb JS.is_hex_digit token.

(** [now_ms] is the clock at verification. The parsed timestamp is exact
    here; in the source it is a binary64 number, which differs only from
    [2^53] on, where the age is negative for every clock a [Date] can
    hold. *)
Definition verifyApprovalToken (now_ms : Z)
    (token transactionHash sharedSecret : string) : bool :=
  if negb (token_format token) then false
  else
    let receivedMac := JS.slice 0 64 token in
    let tsHex := JS.slice_from 64 token in
    let timestamp := JS.parseInt16 tsHex in
    (* Check token age (reject expired tokens); no comparison holds of NaN *)
    let expired :=
      match timestamp with
      | Some ts =>
          let age := now_ms - ts in
          (APPROVAL_TOKEN_MAX_AGE_MS <? age) || (age <? 0)
      | None => false
      end in
    if expired then false
    else
      (* Recompute the expected HMAC *)
      let expectedMac :=
        hmac_sha256_hex sharedSecret
          (transactionHash
           ++ match timestamp with
              | Some ts => JS.toString ts
              | None => "NaN"
              end) in
      (* Timing-safe comparison; a RangeError is caught *)
      match JS.timingSafeEqual (JS.bufferFromHex receivedMac)
                               (JS.bufferFromHex expectedMac) with
      | Some b => b
      | None => false
      end.

(** *** The signer server *)

(** The requests of the protocol; [unknown_request] is any other [type]. *)
Inductive SignerRequest :=
| sign_transaction (transactionHash serializedTx approvalToken : string)
| sign_message (payload approvalToken : string)
| get_address
| health_check
| unknown_request.

Record SignerResponse := mkResponse {
  success : bool;
  resp_data : option string;
  resp_error : option string
}.

(** What awaiting [signFn] gives: a signature, a thrown [Error] with its
    message, or a thrown value that is not an [Error]. *)
Inductive SignOutcome :=
| Signed (signature : string)
| SignError (msg : string)
| SignThrown.

Definition sign_response (o : SignOutcome) : SignerResponse :=
  match o with
  | Signed signature => mkResponse true (Some signature) None
  | SignError msg => mkResponse false None (Some msg)
  | SignThrown => mkResponse false None (Some "Signing failed")
  end.

(** [handleRequest] of the server that holds [privateKey]; [now_ms] is the
    clock, [signFn] and [getAddressFn] are the functions of the
    configuration. *)
Definition handleRequest (now_ms : Z) (sharedSecret privateKey : string)
    (signFn : string -> string -> SignOutcome)
    (getAddressFn : string -> string) (request : SignerRequest)
  : SignerResponse :=
  match request with
  | health_check => mkResponse true (Some "healthy") None
  | get_address => mkResponse true (Some (getAddressFn privateKey)) None
  | sign_transaction transactionHash serializedTx approvalToken =>
      if negb (verifyApprovalToken now_ms approvalToken transactionHash
                                   sharedSecret)
      then mkResponse false None
             (Some "Invalid approval token - transaction was not approved by Wardex")
      else sign_response (signFn serializedTx privateKey)
  | sign_message payload approvalToken =>
      if negb (verifyApprovalToken now_ms approvalToken payload sharedSecret)
      then mkResponse false None
             (Some "Invalid approval token - message signing was not approved by Wardex")
      else sign_response (signFn payload privateKey)
  | unknown_request => mkResponse false None (Some "Unknown request type")
  end.

End Tokens.
End Signer.

(* ====================================================================== *)
(** * The contract bytecode analyzer                                       *)
(* ====================================================================== *)

(** [hay.indexOf(needle)]; [None] is [-1]. *)
Fixpoint indexOf (needle hay : string) : option nat :=
  if prefix needle hay then Some 0%nat
  else
    match hay with
    | EmptyString => None
    | String _ r => option_map S (indexOf needle r)
    end.

Definition OPCODE_DELEGATECALL : string := "f4".
Definition OPCODE_SELFDESTRUCT : string := "ff".
Definition OPCODE_CREATE : string := "f0".
Definition OPCODE_CREATE2 : string := "f5".
Definition OPCODE_CALLCODE : string := "f2".

Definition SELECTOR_APPROVE : string := "095ea7b3".
Definition SELECTOR_TRANSFER : string := "a9059cbb".

Definition EIP_1967_IMPL_SLOT : string :=
  "360894a13ba1a3210667c828492db98dca3e2076cc3735a920a3ca505d382bbc".
Definition MINIMAL_PROXY_PREFIX : string := "363d3d373d3d3d363d73".

Record BytecodeAnalysis := mkBytecodeAnalysis {
  bc_hasSelfDestruct : bool;
  bc_hasDelegatecall : bool;
  bc_hasCallcode : bool;
  bc_isProxy : bool;
  bc_implementationAddress : option string;
  bc_hasFactoryCapability : bool;
  bc_hasApproveFunction : bool;
  bc_patterns : list ContractPattern
}.

Definition isStandardProxy (code : string) : bool :=
  JS.includes MINIMAL_PROXY_PREFIX code
  || JS.includes EIP_1967_IMPL_SLOT code
  || JS.includes "5c60da1b" code.

Definition analyzeContractBytecode (bytecode : string) : BytecodeAnalysis :=
  let code := strip0x (JS.toLowerCase bytecode) in
  if (String.length code <? 2)%nat then
    mkBytecodeAnalysis false false false false None false false []
  else
    let hasSelfDestruct := JS.includes OPCODE_SELFDESTRUCT code in
    let patterns1 :=
      if hasSelfDestruct then
        [mkPattern "SELFDESTRUCT" OPCODE_SELFDESTRUCT critical
           "Contract contains SELFDESTRUCT opcode - can be permanently destroyed, potentially sending all ETH to an arbitrary address"]
      else [] in
    let hasDelegatecall := JS.includes OPCODE_DELEGATECALL code in
    let patterns2 :=
      if hasDelegatecall && negb (isStandardProxy code) then
        [mkPattern "DELEGATECALL" OPCODE_DELEGATECALL high
           "Contract uses DELEGATECALL to execute code from another contract. This can execute arbitrary code in the context of this contract."]
      else [] in
    let hasCallcode := JS.includes OPCODE_CALLCODE code in
    let patterns3 :=
      if hasCallcode then
        [mkPattern "CALLCODE" OPCODE_CALLCODE high
           "Contract uses deprecated CALLCODE opcode - may indicate outdated or intentionally obfuscated code"]
      else [] in
    let hasFactoryCapability :=
      JS.includes OPCODE_CREATE code || JS.includes OPCODE_CREATE2 code in
    let minimal := JS.includes MINIMAL_PROXY_PREFIX code in
    let implementationAddress :=
      if minimal then
        match indexOf MINIMAL_PROXY_PREFIX code with
        | Some prefixIndex =>
            let addrStart :=
              (prefixIndex + String.length MINIMAL_PROXY_PREFIX)%nat in
            let addrHex := JS.slice addrStart (addrStart + 40) code in
            if (String.length addrHex =? 40)%nat
            then Some ("0x" ++ addrHex) else None
        | None => None
        end
      else None in
    let eip1967 := JS.includes EIP_1967_IMPL_SLOT code in
    let patterns4 :=
      if eip1967 then
        [mkPattern "EIP_1967_PROXY" EIP_1967_IMPL_SLOT medium
           "Contract is an EIP-1967 proxy - the implementation can be changed by the proxy admin, potentially altering contract behavior"]
      else [] in
    let hasApproveFunction := JS.includes SELECTOR_APPROVE code in
    let patterns5 :=
      if JS.includes SELECTOR_TRANSFER code
         && (String.length code <? 200)%nat
         && JS.includes SELECTOR_APPROVE code
      then
        [mkPattern "SUSPICIOUS_TOKEN_SIZE" "small-bytecode-with-token-selectors"
           high
           "Contract has token function selectors but unusually small bytecode - may be a honeypot or stripped implementation"]
      else [] in
    mkBytecodeAnalysis hasSelfDestruct hasDelegatecall hasCallcode
      (minimal || eip1967) implementationAddress hasFactoryCapability
      hasApproveFunction
      (patterns1 ++ patterns2 ++ patterns3 ++ patterns4 ++ patterns5).

(* ====================================================================== *)
(** * Specification-side definitions, checkers and sample data             *)
(* ====================================================================== *)

(** ** The composite score as the specification writes it *)

Definition critical_component (context transaction behavioral : float) : bool :=
  (90 <=? context)%float || (90 <=? transaction)%float
  || (90 <=? behavioral)%float.

Definition spec_composite (context transaction behavioral : float) : float :=
  let rounded :=
    JS.Math_round
      (0.40 * context + 0.35 * transaction + 0.25 * behavioral)%float in
  let clamped := JS.Math_max 0 (JS.Math_min 100 rounded) in
  if critical_component context transaction behavioral
  then JS.Math_max clamped 80 else clamped.

Definition in_range (lo hi x : float) : Prop :=
  (lo <=? x)%float = true /\ (x <=? hi)%float = true.

(** The composite of three given component scores. *)
Definition composite_of (c t b : float) : float :=
  rs_composite (aggregate (mkScores (Some c) (Some t) (Some b) None)).

(** A checker for integer component scores: the composite of [c], [t], [b]
    is the integer [k] (lifted to 80 for a critical component), and [k] is
    within one half of the exact weighted sum [(40c + 35t + 25b) / 100]. *)
Definition grid_candidate (c t b k : int) : bool :=
  let S := (40 * c + 35 * t + 25 * b)%uint63 in
  let crit := ((90 <=? c) || (90 <=? t) || (90 <=? b))%uint63 in
  ((100 * k <=? S + 50) && (S <=? 100 * k + 50))%uint63
  && PrimFloat.Leibniz.eqb
       (composite_of (of_uint63 c) (of_uint63 t) (of_uint63 b))
       (of_uint63
          (if crit then (if (k <? 80)%uint63 then 80%uint63 else k) else k)).

Definition grid_point (c t b : int) : bool :=
  let S := (40 * c + 35 * t + 25 * b)%uint63 in
  grid_candidate c t b (S / 100)%uint63
  || grid_candidate c t b (S / 100 + 1)%uint63.

Definition grid_axis : list int :=
  map (fun n => Uint63.of_Z (Z.of_nat n)) (seq 0 101).

(** A context whose component scores are the integers [c], [t], [b]. *)
Definition scored_world (c t b : Z) : World unit :=
  mkWorld
    (set_riskScores
       (mkScores (Some (JS.num c)) (Some (JS.num t)) (Some (JS.num b)) None)
       (createMiddlewareContext None None None))
    0 [] tt (mkEnv 0 "" "").

(** ** The order of tier resolution *)

Definition min_ge (x y : SecurityTierConfig) : Prop :=
  (tier_min y <= tier_min x)%Q.

(** ** Sample policies and requests *)

Definition sample_tier (id : string) (m : EnforcementMode)
    (minUsd maxUsd : option Q) (addresses functions : option (list string))
  : SecurityTierConfig :=
  mkTier id id (mkTriggers minUsd maxUsd addresses functions)
    (mkEnforcement m
       (match m with fortress => 30 | guardian => 70 | _ => 100 end)%float
       (EnforcementMode_eqb m fortress)
       (EnforcementMode_eqb m guardian || EnforcementMode_eqb m fortress)
       (EnforcementMode_eqb m fortress)
       (match m with fortress => Some 900 | _ => None end)).

Definition sample_policy (ts : list SecurityTierConfig) (maxTx maxDaily : string)
  : SecurityPolicy :=
  mkPolicy ts (mkAllowlists [] [] []) (mkDenylists [] [])
    (mkLimits maxTx maxDaily "0" 100)
    (mkBehavioral false 7 sens_medium)
    (mkContextAnalysis true true [] true true).

Definition ADDRESS_1 : string := "0x1111111111111111111111111111111111111111".
Definition ADDRESS_2 : string := "0x2222222222222222222222222222222222222222".
Definition ADDRESS_3 : string := "0x3333333333333333333333333333333333333333".

(** A value tier from $1000 up and a tier for one target address with no
    minimum of its own. *)
Definition value_tier : SecurityTierConfig :=
  sample_tier "tier-guardian" guardian (Some 1000%Q) None None None.
Definition address_tier : SecurityTierConfig :=
  sample_tier "tier-address-override" fortress None None
              (Some [ADDRESS_2]) None.
Definition function_tier : SecurityTierConfig :=
  sample_tier "tier-function-override" fortress None None
              None (Some ["approve"]).
Definition function_tier_high : SecurityTierConfig :=
  sample_tier "tier-function-high" guardian (Some 2000%Q) None
              None (Some ["approve"]).

Definition override_policy : SecurityPolicy :=
  sample_policy [address_tier; value_tier]
                "100000000000000000000" "1000000000000000000000".
Definition function_policy : SecurityPolicy :=
  sample_policy [function_tier; value_tier]
                "100000000000000000000" "1000000000000000000000".
Definition mixed_policy : SecurityPolicy :=
  sample_policy [address_tier; function_tier_high]
                "100000000000000000000" "1000000000000000000000".

(** An audit-only tier, a per-transaction limit of 1 wei, and a request of
    2 wei that reaches the policy engine with that tier matched. *)
Definition audit_tier : SecurityTierConfig :=
  sample_tier "tier-audit" audit (Some 0%Q) None None None.
Definition tight_policy : SecurityPolicy :=
  sample_policy [audit_tier; value_tier] "1" "1000".
Definition over_limit_world : World unit :=
  mkWorld
    (set_tier (Some audit_tier)
       (createMiddlewareContext
          (Some (mkTx ADDRESS_1 (Some "2") None 1)) None (Some tight_policy)))
    0 [] tt (mkEnv 0 "" "id-1").

(** ** Approval tokens *)

(** What the round trip needs of HMAC-SHA256 in hexadecimal: a digest is 64
    hexadecimal digits. *)
Definition hmac_well_formed (hmac : string -> string -> string) : Prop :=
  forall key msg,
    String.length (hmac key msg) = 64%nat /\
    JS.string_forallb JS.is_hex_digit (hmac key msg) = true.

(** A stand-in digest for closed examples: 64 digits that depend on the
    lengths of key and message only. *)
Definition sample_hmac (key msg : string) : string :=
  JS.repeat_char "0" 60
  ++ JS.padStart 4 "0"
       (JS.toStringRadix 16
          ((Z.of_nat (String.length key) * 256 + Z.of_nat (String.length msg))
           mod 65536)).

(** ** Calls on a shield *)

(** The calls of the shield interface other than [unfreeze()]. *)
Inductive ShieldCall (Baseline : Type) :=
| CallEvaluate (env : Env) (tx : TransactionRequest)
| CallEvaluateWithContext (env : Env) (tx : TransactionRequest)
                          (context : ConversationContext)
| CallUpdatePolicy (overrides : PolicyOverrides)
| CallUse (middleware : Middleware Baseline)
| CallFreeze (env : Env) (reason : string)
| CallGetStatus
| CallGetAuditLog (limit : option nat)
| CallIsFrozen.
Arguments CallEvaluate {Baseline} env tx.
Arguments CallEvaluateWithContext {Baseline} env tx context.
Arguments CallUpdatePolicy {Baseline} overrides.
Arguments CallUse {Baseline} middleware.
Arguments CallFreeze {Baseline} env reason.
Arguments CallGetStatus {Baseline}.
Arguments CallGetAuditLog {Baseline} limit.
Arguments CallIsFrozen {Baseline}.

Section Calls.

Variable Baseline : Type.
Variable regex_test : string -> string -> string -> bool.
Variable regex_valid : string -> bool.
Variable behavioralComparator : Middleware Baseline.
Variable config : WardexConfig.

(** One call: the outcome when it is an evaluation, and the shield after. *)
Definition call_step (c : ShieldCall Baseline) (s : Shield Baseline)
  : option Outcome * Shield Baseline :=
  match c with
  | CallEvaluate env tx =>
      let '(o, s') :=
        evaluate Baseline regex_test regex_valid behavioralComparator
                 config env tx s in
      (Some o, s')
  | CallEvaluateWithContext env tx context =>
      let '(o, s') :=
        evaluateWithContext Baseline regex_test regex_valid
                            behavioralComparator config env tx context s in
      (Some o, s')
  | CallUpdatePolicy overrides => (None, snd (updatePolicy Baseline overrides s))
  | CallUse middleware => (None, use Baseline middleware s)
  | CallFreeze env reason =>
      (None, snd (freeze_shield Baseline config env reason s))
  | CallGetStatus | CallGetAuditLog _ | CallIsFrozen => (None, s)
  end.

(** A sequence of calls: the outcomes of its evaluations, in order. *)
Fixpoint run_calls (cs : list (ShieldCall Baseline)) (s : Shield Baseline)
  : list Outcome * Shield Baseline :=
  match cs with
  | [] => ([], s)
  | c :: r =>
      let '(o, s1) := call_step c s in
      let '(os, s2) := run_calls r s1 in
      (match o with Some x => x :: os | None => os end, s2)
  end.

End Calls.

Definition is_freeze_outcome (o : Outcome) : Prop :=
  exists v, o = Returned v /\ decision v = freeze.

Definition blocked_entry (e : AuditEntry) : bool :=
  is_block_or_freeze (decision (au_verdict e)).

(** The number of block or freeze decisions among the 10 most recent audit
    entries. *)
Definition recent_blocks {Baseline} (s : Shield Baseline) : nat :=
  List.length (filter blocked_entry (JS.lastn 10 (auditLog s))).

(** ** A runtime for closed examples

    No pattern matches, every pattern compiles, the behavioral comparator
    passes the context on unchanged. *)
Definition no_match (source flags subject : string) : bool := false.
Definition all_valid (source : string) : bool := true.
Definition passthrough : Middleware unit := fun w next => next w.

(** The four tiers of the documentation: audit below $1, co-pilot to $100,
    guardian to $10,000, fortress above; limits of 100 ETH per transaction
    and 1000 ETH per day. *)
Definition documented_tiers : list SecurityTierConfig :=
  [ sample_tier "tier-0-audit" audit (Some 0%Q) (Some 1%Q) None None;
    sample_tier "tier-1-copilot" copilot (Some 1%Q) (Some 100%Q) None None;
    sample_tier "tier-2-guardian" guardian (Some 100%Q) (Some 10000%Q)
                None None;
    sample_tier "tier-3-fortress" fortress (Some 10000%Q) None None None ].

Definition sample_config : WardexConfig :=
  mkConfig (sample_policy documented_tiers
                          "100000000000000000000" "1000000000000000000000")
           "adaptive" false None None None None None.
Definition sample_shield : Shield unit :=
  createShield unit sample_config "Fri Feb 13 2026" tt.
Definition sample_env (n : Z) : Env :=
  mkEnv (1770940800000 + n) "Fri Feb 13 2026"
        ("00000000-0000-4000-8000-" ++ JS.padStart 12 "0" (JS.toString n)).

(** A shield whose policy is [tight_policy]. *)
Definition tight_config : WardexConfig :=
  mkConfig tight_policy "adaptive" false None None None None None.
Definition tight_shield : Shield unit :=
  createShield unit tight_config "Fri Feb 13 2026" tt.

(** [sample_config] with an [onBlock] handler that throws. *)
Definition throwing_config : WardexConfig :=
  mkConfig (cfg_policy sample_config) "adaptive" false None
           (Some (fun _ _ => Some "Error: handler failed")) None None None.

(** [sample_shield] after [freeze("manual")]. *)
Definition frozen_sample_shield : Shield unit :=
  snd (freeze_shield unit sample_config (sample_env 6) "manual" sample_shield).

(** A custom middleware that returns without calling [next()]. *)
Definition swallow : Middleware unit := fun w _next => Ok w.

Definition sample_evaluate (n : Z) (tx : TransactionRequest)
    (s : Shield unit) : Outcome * Shield unit :=
  evaluate unit no_match all_valid passthrough sample_config
           (sample_env n) tx s.

Definition small_transfer : TransactionRequest :=
  mkTx ADDRESS_1 (Some "1") None 1.

Definition swallowing_shield : Shield unit := use unit swallow sample_shield.

(** Five evaluations in a row on [s]. *)
Definition five_evaluations (s : Shield unit) : list Outcome * Shield unit :=
  run_calls unit no_match all_valid passthrough sample_config
    (map (fun n => CallEvaluate (sample_env n) small_transfer)
         [1; 2; 3; 4; 5])
    s.

(** ** The infinite-approval finding *)



(** [approve(spender, 2^256 - 1)] sent to a token contract. *)
Definition max_approval_data : string :=
  "0x095ea7b3"
  ++ "0000000000000000000000001111111111111111111111111111111111111111"
  ++ MAX_UINT256.

Definition max_approval_world : World unit :=
  mkWorld
    (createMiddlewareContext
       (Some (mkTx ADDRESS_3 (Some "0") (Some max_approval_data) 1)) None
       (Some (cfg_policy sample_config)))
    1 [] tt (sample_env 1).




(** ** Requests for the auto-freeze and validation examples *)

(** 200 ETH: above the per-transaction limit of [sample_config]. *)
Definition big_transfer : TransactionRequest :=
  mkTx ADDRESS_1 (Some "200000000000000000000") None 1.

(** Four blocked evaluations on a fresh shield. *)
Definition four_blocks : Shield unit :=
  snd (run_calls unit no_match all_valid passthrough sample_config
         (map (fun n => CallEvaluate (sample_env n) big_transfer)
              [1; 2; 3; 4])
         sample_shield).


Definition decision_of (o : Outcome) : option Decision :=
  match o with
  | Returned v => Some (decision v)
  | Raised _ => None
  end.

Definition reason_codes (o : Outcome) : list string :=
  match o with
  | Returned v => map code (reasons v)
  | Raised _ => []
  end.

(** Requests that fail the validation of pipeline.ts. *)
Definition bad_value_request : TransactionRequest :=
  mkTx ADDRESS_1 (Some "abc") None 1.
Definition bad_address_request : TransactionRequest :=
  mkTx "0x12" (Some "1") None 1.
Definition bad_data_request : TransactionRequest :=
  mkTx ADDRESS_3 (Some "0")
       (Some ("0xa22cb465"
              ++ "0000000000000000000000001111111111111111111111111111111111111111"
              ++ "zzzzzzzzzzzzzzzzzzzzzzzzzzzzzzzzzzzzzzzzzzzzzzzzzzzzzzzzzzzzzzzz"))
       1.

(** ** The escalation scenario: $10.50, $31.50 and $63 within 20 minutes *)

Definition payment_context : ConversationContext :=
  mkConversation
    [mkMessage "user" "Please transfer ETH for this payment flow."]
    (mkSource st_user "direct" trust_high) None.

Definition eth_transfer (wei : string) : TransactionRequest :=
  mkTx ADDRESS_1 (Some wei) None 1.

Definition minutes (n : Z) : Z := n * 60 * 1000.

Definition escalation_run : list Outcome * Shield unit :=
  run_calls unit no_match all_valid passthrough sample_config
    [ CallEvaluateWithContext (sample_env (minutes 0))
        (eth_transfer "3000000000000000") payment_context;
      CallEvaluateWithContext (sample_env (minutes 10))
        (eth_transfer "9000000000000000") payment_context;
      CallEvaluateWithContext (sample_env (minutes 20))
        (eth_transfer "18000000000000000") payment_context ]
    sample_shield.

(** The samples the tracker would hold had the first two evaluations been
    recorded. *)
Definition earlier_samples : list EscalationSample :=
  [ mkSample (21 # 2) (now (sample_env (minutes 0)));
    mkSample (63 # 2) (now (sample_env (minutes 10))) ].

(** ** Definitions for the further properties *)

(** An earlier score that is undefined or an integer from 0 to 100. *)
Definition score_on_grid (s : option float) (z : Z) : Prop :=
  0 <= z <= 100 /\ orElse s 0%float = JS.num z.

(** The samples of [tracker] that are within the window at [now_ms]. *)
Definition in_window (now_ms : Z) (tracker : list EscalationSample)
  : list EscalationSample :=
  filter (fun t => now_ms - sample_timestamp t <? ESCALATION_WINDOW_MS) tracker.

(** Whether the findings hold a critical one, or a context finding of
    severity high or critical. *)
Definition has_critical (rs : list SecurityReason) : bool :=
  existsb (fun r => Severity_eqb (severity r) critical) rs.

Definition has_high_context (rs : list SecurityReason) : bool :=
  existsb (fun r => ReasonSource_eqb (source r) src_context
                    && (Severity_eqb (severity r) high
                        || Severity_eqb (severity r) critical)) rs.

(** [err] is what the handler threw on some event; a handler that throws
    on none, or no handler at all, is quiet. *)
Definition thrown_by (handler : option Handler) (err : string) : Prop :=
  exists h before e, handler = Some h /\ h before e = Some err.

Definition quiet (handler : option Handler) : Prop :=
  forall h before e, handler = Some h -> h before e = None.

(** What every sequence of calls keeps: the audit log within its capacity,
    and the block and advisory counters within the evaluation counter. *)
Definition shield_invariant {Baseline} (s : Shield Baseline) : Prop :=
  Z.of_nat (List.length (auditLog s)) <= AUDIT_CAPACITY /\
  0 <= blockCount s /\ 0 <= advisoryCount s /\
  blockCount s + advisoryCount s <= evaluationCount s.

(** A call of the shield interface, [unfreeze()] included. *)
Inductive ShieldOp (Baseline : Type) :=
| OpCall (c : ShieldCall Baseline)
| OpUnfreeze.
Arguments OpCall {Baseline} c.
Arguments OpUnfreeze {Baseline}.

Section Ops.

Variable Baseline : Type.
Variable regex_test : string -> string -> string -> bool.
Variable regex_valid : string -> bool.
Variable behavioralComparator : Middleware Baseline.
Variable config : WardexConfig.

Definition op_step (o : ShieldOp Baseline) (s : Shield Baseline)
  : Shield Baseline :=
  match o with
  | OpCall c =>
      snd (call_step Baseline regex_test regex_valid behavioralComparator
                     config c s)
  | OpUnfreeze => unfreeze Baseline s
  end.

(** The shield after a sequence of calls. *)
Definition run_ops (os : list (ShieldOp Baseline)) (s : Shield Baseline)
  : Shield Baseline :=
  fold_left (fun s o => op_step o s) os s.

End Ops.







(** The works of a chain of stages run one after the other from position
    [i]: each on the world its predecessor left, until one throws. *)
Fixpoint run_works {Baseline} (works : list (World Baseline -> Res Baseline))
    (i : Z) (w : World Baseline) : Res Baseline :=
  match works with
  | [] => Ok (set_index Baseline i w)
  | work :: rest =>
      match work (set_index Baseline i w) with
      | Ok w' => run_works rest (i + 1) w'
      | Throw e w' => Throw e w'
      end
  end.

(** A step that leaves the position of the running [compose] alone, as
    every JavaScript middleware must (the variable is private to
    [compose]). *)
Definition keeps_index {Baseline} (work : World Baseline -> Res Baseline)
  : Prop :=
  forall w w', work w = Ok w' -> w_index w' = w_index w.

(** A middleware that awaits [next()] twice. *)
Definition next_twice {Baseline} : Middleware Baseline :=
  fun w next =>
    match next w with
    | Ok w' => next w'
    | Throw e w' => Throw e w'
    end.

(** What a signing request is signed for, and its token. *)
Definition signed_subject (request : Signer.SignerRequest)
  : option (string * string) :=
  match request with
  | Signer.sign_transaction transactionHash _ approvalToken =>
      Some (transactionHash, approvalToken)
  | Signer.sign_message payload approvalToken => Some (payload, approvalToken)
  | _ => None
  end.

(** The names of the patterns an analysis reports. *)
Definition pattern_names (a : BytecodeAnalysis) : list string :=
  map pat_name (bc_patterns a).

(** ** Worlds for closed examples *)

(** [approve(spender, 2^256 - 1)] sent with 1 wei. *)
Definition paid_approval_world : World unit :=
  mkWorld
    (createMiddlewareContext
       (Some (mkTx ADDRESS_3 (Some "1") (Some max_approval_data) 1)) None
       (Some (cfg_policy sample_config)))
    1 [] tt (sample_env 1).

(** The small transfer to [ADDRESS_1] under the documented tiers with the
    given denylist and address allowlist. *)
Definition listed_world (deny allow : list string) : World unit :=
  mkWorld
    (createMiddlewareContext (Some small_transfer) None
       (Some (mkPolicy documented_tiers (mkAllowlists allow [] [])
                (mkDenylists deny [])
                (mkLimits "100000000000000000000" "1000000000000000000000"
                          "0" 100)
                (mkBehavioral false 7 sens_medium)
                (mkContextAnalysis true true [] true true))))
    3 [] tt (sample_env 1).

(** [ADDRESS_1] as an operator may list it: without the prefix. *)
Definition ADDRESS_1_BARE : string :=
  "1111111111111111111111111111111111111111".

(** The small transfer as it reaches the policy engine: a resolved tier (or
    none), the findings so far and an integer composite score. *)
Definition engine_world (t : option SecurityTierConfig)
    (rs : list SecurityReason) (composite : Z) : World unit :=
  mkWorld
    (set_reasons rs
       (set_tier t
          (set_riskScores
             (mkScores None None None (Some (JS.num composite)))
             (createMiddlewareContext (Some small_transfer) None
                (Some (cfg_policy sample_config))))))
    7 [] tt (sample_env 1).

Definition copilot_tier : SecurityTierConfig :=
  sample_tier "tier-1-copilot" copilot (Some 1%Q) (Some 100%Q) None None.
Definition fortress_tier : SecurityTierConfig :=
  sample_tier "tier-3-fortress" fortress (Some 10000%Q) None None None.

Definition untrusted_finding : SecurityReason :=
  mkReason "UNTRUSTED_SOURCE"
    "Transaction originated from untrusted source: web" critical src_context.
Definition unknown_source_finding : SecurityReason :=
  mkReason "UNKNOWN_SOURCE" "Transaction source could not be identified"
    high src_context.

(** An approving verdict of the pipeline. *)
Definition approving_verdict : SecurityVerdict :=
  mkVerdict approve (mkScore 0 0 0 0) [] [] (Some act_none) None
            (now (sample_env 1)) (uuid (sample_env 1)) "tier-audit".

(* ====================================================================== *)
(** * Properties                                                           *)
(* ====================================================================== *)

(** ** binary64 order and product *)

Module FloatFacts.

Import SpecFloat FloatOps.

Lemma SFcompare_antisym (x y : spec_float) :
  SFcompare y x = option_map CompOpp (SFcompare x y).
Proof.
  destruct x as [sx | sx | | sx mx ex], y as [sy | sy | | sy my ey]; simpl;
    try reflexivity;
    try (destruct sx; reflexivity); try (destruct sy; reflexivity);
    try (destruct sx, sy; reflexivity).
  destruct sx, sy; simpl; try reflexivity;
    rewrite (Z.compare_antisym ex ey); destruct (ex ?= ey); simpl;
    try reflexivity;
    rewrite (Pos.compare_cont_antisym); simpl; try reflexivity.
  all: rewrite ?CompOpp_involutive; reflexivity.
Qed.

Lemma ltb_leb (x y : float) : (x <? y)%float = true -> (x <=? y)%float = true.
Proof.
  rewrite FloatAxioms.ltb_spec, FloatAxioms.leb_spec. unfold SFltb, SFleb.
  destruct (SFcompare (Prim2SF x) (Prim2SF y)) as [[]|]; congruence.
Qed.

Lemma is_nan_false (x : float) : is_nan x = false -> Prim2SF x <> S754_nan.
Proof.
  unfold is_nan. rewrite FloatAxioms.eqb_spec. unfold SFeqb.
  intros H E. rewrite E in H. simpl in H. discriminate.
Qed.

Lemma ltb_false_leb (x y : float) :
  is_nan x = false -> is_nan y = false ->
  (x <? y)%float = false -> (y <=? x)%float = true.
Proof.
  intros Hx Hy. apply is_nan_false in Hx. apply is_nan_false in Hy.
  rewrite FloatAxioms.ltb_spec, FloatAxioms.leb_spec. unfold SFltb, SFleb.
  rewrite (SFcompare_antisym (Prim2SF x) (Prim2SF y)).
  destruct (Prim2SF x) eqn:Ex, (Prim2SF y) eqn:Ey; try congruence;
    destruct (SFcompare _ _) as [[]|] eqn:Ec; simpl; try congruence;
    simpl in Ec; try discriminate.
Qed.

Lemma SFcompare_refl (x : spec_float) :
  x <> S754_nan -> SFcompare x x = Some Eq.
Proof.
  destruct x as [s | s | | s m e]; cbn; try congruence; intros _.
  - destruct s; reflexivity.
  - destruct s; rewrite Z.compare_refl, Pos.compare_cont_refl; reflexivity.
Qed.

Lemma not_nan_is_nan (x : float) : Prim2SF x <> S754_nan -> is_nan x = false.
Proof.
  intros H. unfold is_nan. rewrite FloatAxioms.eqb_spec. unfold SFeqb.
  now rewrite (SFcompare_refl _ H).
Qed.

Lemma is_nan_true (x : float) : is_nan x = true -> Prim2SF x = S754_nan.
Proof.
  intros H. destruct (Prim2SF x) eqn:E; try reflexivity;
    rewrite not_nan_is_nan in H by (rewrite E; discriminate); discriminate.
Qed.

Section Rounding.

Variables prec emax : Z.












End Rounding.







Lemma Math_max_nan (x y : float) :
  is_nan x = true -> JS.Math_max x y = nan.
Proof. intros H. unfold JS.Math_max. now rewrite H. Qed.

Lemma mul_comm (x y : float) : (x * y)%float = (y * x)%float.
Proof.
  apply Prim2SF_inj. rewrite !FloatAxioms.mul_spec. unfold SF64mul, SFmul.
  destruct (Prim2SF x) as [sx | sx | | sx mx ex],
           (Prim2SF y) as [sy | sy | | sy my ey];
    try reflexivity; rewrite ?(xorb_comm sx sy); try reflexivity.
  now rewrite Pos.mul_comm, Z.add_comm.
Qed.

End FloatFacts.

(** ** Number *)

Example Number_rounds :
  map JS.Number
      [0; -5; 10 ^ 18; 2 ^ 53 + 1; 2 ^ 53 + 3; 2 ^ 1024 - 1; 2 ^ 1024]
  = [0; -5; 1e18; 9007199254740992; 9007199254740996; infinity;
     infinity]%float.
Proof. vm_compute. reflexivity. Qed.

(** The USD value of 0.003 ETH and of 10000/3500 ETH at the default
    price. *)
Example ethValueUsd_default :
  map (ethValueUsd DEFAULT_ETH_PRICE_USD)
      [3000000000000000; 2857142857142857143; 0]
  = [10.5; 10000; 0]%float.
Proof. vm_compute. reflexivity. Qed.

(** ** The composite score (risk aggregator) *)

Example Math_round_ties :
  map JS.Math_round
      [2.5; 2.4999999999999996; 0.49999999999999994; -0.5; -1.5; -2.6]%float
  = [3; 2; 0; -0; -1; -3]%float.
Proof. vm_compute. reflexivity. Qed.

Lemma aggregate_spec (rs : RiskScores) :
  rs_composite (aggregate rs)
  = spec_composite (orElse (sc_context rs) 0%float)
                   (orElse (sc_transaction rs) 0%float)
                   (orElse (sc_behavioral rs) 0%float).
Proof.
  unfold aggregate, spec_composite, critical_component.
  unfold weight_context, weight_transaction, weight_behavioral.
  cbn [rs_composite].
  rewrite (FloatFacts.mul_comm 0.40), (FloatFacts.mul_comm 0.35),
          (FloatFacts.mul_comm 0.25).
  reflexivity.
Qed.

Lemma clamp_range (r : float) :
  let m := JS.Math_max 0 (JS.Math_min 100 r) in
  is_nan m = true \/ in_range 0 100 m.
Proof.
  cbv zeta. unfold JS.Math_max, JS.Math_min.
  change (is_nan 100) with false. change (is_nan 0) with false. cbn [orb].
  destruct (is_nan r) eqn:Hr.
  - left. reflexivity.
  - destruct (r <? 100)%float eqn:H100.
    + rewrite Hr. destruct (0 <? r)%float eqn:H0.
      * right. split; now apply FloatFacts.ltb_leb.
      * right. split; reflexivity.
    + change (is_nan 100) with false. change (0 <? 100)%float with true.
      right. split; reflexivity.
Qed.

Lemma raise_range (m : float) :
  is_nan m = true \/ in_range 0 100 m ->
  let r := JS.Math_max m 80 in
  is_nan r = true \/ in_range 80 100 r.
Proof.
  intros [Hn | [H0 H1]]; cbv zeta; unfold JS.Math_max.
  - rewrite Hn. left. reflexivity.
  - destruct (is_nan m) eqn:Hn; [left; reflexivity|].
    change (is_nan 80) with false. cbn [orb].
    destruct (m <? 80)%float eqn:H80.
    + right. split; reflexivity.
    + right. split; [|exact H1]. apply FloatFacts.ltb_false_leb; auto.
Qed.

Lemma leb_80_0 (x : float) :
  (80 <=? x)%float = true -> (0 <=? x)%float = true.
Proof.
  rewrite !FloatAxioms.leb_spec. unfold SpecFloat.SFleb.
  replace (FloatOps.Prim2SF 80)
    with (SpecFloat.S754_finite false 5629499534213120 (-46))
    by (vm_compute; reflexivity).
  replace (FloatOps.Prim2SF 0) with (SpecFloat.S754_zero false)
    by (vm_compute; reflexivity).
  destruct (FloatOps.Prim2SF x) as [s | s | | s m e]; simpl;
    try discriminate; try reflexivity; destruct s; simpl;
    try discriminate; reflexivity.
Qed.

Lemma spec_composite_range (c t b : float) :
  is_nan (spec_composite c t b) = true
  \/ in_range 0 100 (spec_composite c t b).
Proof.
  unfold spec_composite.
  destruct (critical_component c t b).
  - destruct (raise_range _ (clamp_range
               (JS.Math_round (0.40 * c + 0.35 * t + 0.25 * b)%float)))
      as [H | [H0 H1]]; [now left | right].
    split; [now apply leb_80_0 | exact H1].
  - apply clamp_range.
Qed.

Lemma spec_composite_critical (c t b : float) :
  critical_component c t b = true ->
  is_nan (spec_composite c t b) = true
  \/ in_range 80 100 (spec_composite c t b).
Proof.
  intros H. unfold spec_composite. rewrite H.
  apply raise_range, clamp_range.
Qed.

Lemma grid_check_ok :
  forallb
    (fun c =>
       forallb (fun t => forallb (fun b => grid_point c t b) grid_axis)
               grid_axis)
    grid_axis = true.
Proof. vm_compute. reflexivity. Qed.

Lemma in_grid_axis (z : Z) : 0 <= z <= 100 -> In (Uint63.of_Z z) grid_axis.
Proof.
  intros H. unfold grid_axis.
  apply in_map_iff. exists (Z.to_nat z). split.
  - now rewrite Z2Nat.id by lia.
  - apply in_seq. lia.
Qed.

Lemma grid_point_ok (c t b : int) :
  In c grid_axis -> In t grid_axis -> In b grid_axis -> grid_point c t b = true.
Proof.
  intros Hc Ht Hb. pose proof grid_check_ok as G.
  rewrite forallb_forall in G. specialize (G _ Hc).
  rewrite forallb_forall in G. specialize (G _ Ht).
  rewrite forallb_forall in G. exact (G _ Hb).
Qed.

Lemma to_Z_small (z : Z) : 0 <= z <= 100 -> Uint63.to_Z (Uint63.of_Z z) = z.
Proof.
  intros H. rewrite Uint63.of_Z_spec. apply Z.mod_small.
  change wB with 9223372036854775808. lia.
Qed.

Lemma num_nonneg (z : Z) : 0 <= z -> JS.num z = of_uint63 (Uint63.of_Z z).
Proof. intros Hz. unfold JS.num. destruct (z <? 0) eqn:E; [lia | reflexivity]. Qed.

Lemma leb90 (x : int) (z : Z) :
  Uint63.to_Z x = z -> (90 <=? x)%uint63 = (90 <=? z).
Proof.
  intros E. destruct (90 <=? x)%uint63 eqn:E1.
  - apply Uint63.leb_spec in E1. change (Uint63.to_Z 90) with 90 in E1.
    symmetry. apply Z.leb_le. lia.
  - symmetry. apply Z.leb_gt.
    destruct (Z.lt_ge_cases z 90) as [|G']; [lia|].
    assert ((90 <=? x)%uint63 = true)
      by (apply Uint63.leb_spec; change (Uint63.to_Z 90) with 90; lia).
    congruence.
Qed.

Lemma weighted_sum_spec (ci ti bi : int) (c t b : Z) :
  Uint63.to_Z ci = c -> Uint63.to_Z ti = t -> Uint63.to_Z bi = b ->
  0 <= c <= 100 -> 0 <= t <= 100 -> 0 <= b <= 100 ->
  Uint63.to_Z (40 * ci + 35 * ti + 25 * bi)%uint63 = 40 * c + 35 * t + 25 * b.
Proof.
  intros Ec Et Eb Hc Ht Hb.
  rewrite !Uint63.add_spec, !Uint63.mul_spec, Ec, Et, Eb.
  change wB with 9223372036854775808.
  change (Uint63.to_Z 40) with 40. change (Uint63.to_Z 35) with 35.
  change (Uint63.to_Z 25) with 25.
  rewrite (Z.mod_small (40 * c)), (Z.mod_small (35 * t)),
          (Z.mod_small (25 * b)) by lia.
  rewrite (Z.mod_small (40 * c + 35 * t)) by lia.
  rewrite Z.mod_small by lia. reflexivity.
Qed.

Lemma grid_candidate_sound (ci ti bi k : int) (c t b : Z) :
  Uint63.to_Z ci = c -> Uint63.to_Z ti = t -> Uint63.to_Z bi = b ->
  0 <= c <= 100 -> 0 <= t <= 100 -> 0 <= b <= 100 ->
  Uint63.to_Z k <= 101 ->
  grid_candidate ci ti bi k = true ->
  0 <= Uint63.to_Z k <= 100 /\
  100 * Uint63.to_Z k - 50 <= 40 * c + 35 * t + 25 * b
    <= 100 * Uint63.to_Z k + 50 /\
  composite_of (of_uint63 ci) (of_uint63 ti) (of_uint63 bi)
  = JS.num (if (90 <=? c) || (90 <=? t) || (90 <=? b)
            then Z.max (Uint63.to_Z k) 80 else Uint63.to_Z k).
Proof.
  intros Ec Et Eb Hc Ht Hb Hk Hcand.
  pose proof (weighted_sum_spec ci ti bi c t b Ec Et Eb Hc Ht Hb) as ES.
  unfold grid_candidate in Hcand.
  apply andb_prop in Hcand as [Hb1 Heq]. apply andb_prop in Hb1 as [H1 H2].
  apply Uint63.leb_spec in H1, H2.
  pose proof (Uint63.to_Z_bounded k) as Bk.
  rewrite Uint63.add_spec, ES, Uint63.mul_spec in H1.
  rewrite ES, Uint63.add_spec, Uint63.mul_spec in H2.
  change wB with 9223372036854775808 in *.
  change (Uint63.to_Z 100) with 100 in *. change (Uint63.to_Z 50) with 50 in *.
  rewrite (Z.mod_small (100 * Uint63.to_Z k)) in H1, H2 by lia.
  rewrite Z.mod_small in H1 by lia. rewrite Z.mod_small in H2 by lia.
  split; [lia|]. split; [lia|].
  apply FloatAxioms.Leibniz.eqb_spec in Heq. rewrite Heq.
  rewrite (leb90 _ _ Ec), (leb90 _ _ Et), (leb90 _ _ Eb).
  destruct ((90 <=? c) || (90 <=? t) || (90 <=? b)).
  - destruct (k <? 80)%uint63 eqn:E80.
    + apply Uint63.ltb_spec in E80. change (Uint63.to_Z 80) with 80 in E80.
      rewrite Z.max_r by lia. rewrite num_nonneg by lia. reflexivity.
    + assert (80 <= Uint63.to_Z k).
      { destruct (Z.lt_ge_cases (Uint63.to_Z k) 80) as [L|]; [|lia].
        assert ((k <? 80)%uint63 = true)
          by (apply Uint63.ltb_spec; change (Uint63.to_Z 80) with 80; lia).
        congruence. }
      rewrite Z.max_l by lia. rewrite num_nonneg by lia.
      now rewrite Uint63.of_to_Z.
  - rewrite num_nonneg by lia. now rewrite Uint63.of_to_Z.
Qed.

(** On integer component scores the composite is an integer nearest to the
    exact weighted sum (binary64 rounding of the products decides the ties),
    lifted to 80 when a component is critical. *)
Lemma composite_nearest_integer (c t b : Z) :
  0 <= c <= 100 -> 0 <= t <= 100 -> 0 <= b <= 100 ->
  exists k : Z,
    0 <= k <= 100 /\
    100 * k - 50 <= 40 * c + 35 * t + 25 * b <= 100 * k + 50 /\
    composite_of (JS.num c) (JS.num t) (JS.num b)
    = JS.num (if (90 <=? c) || (90 <=? t) || (90 <=? b)
              then Z.max k 80 else k).
Proof.
  intros Hc Ht Hb.
  pose proof (grid_point_ok _ _ _ (in_grid_axis c Hc) (in_grid_axis t Ht)
                            (in_grid_axis b Hb)) as G.
  rewrite !num_nonneg by lia.
  assert (Ec := to_Z_small c Hc). assert (Et := to_Z_small t Ht).
  assert (Eb := to_Z_small b Hb).
  pose proof (weighted_sum_spec _ _ _ c t b Ec Et Eb Hc Ht Hb) as ES.
  assert (Hq : 0 <= (40 * c + 35 * t + 25 * b) / 100 <= 100).
  { split; [apply Z.div_pos; lia | apply Z.div_le_upper_bound; lia]. }
  unfold grid_point in G. apply orb_prop in G.
  destruct G as [G | G];
    (eapply grid_candidate_sound in G; [eexists; exact G | eauto ..]).
  - rewrite Uint63.div_spec, ES. change (Uint63.to_Z 100) with 100. lia.
  - rewrite Uint63.add_spec, Uint63.div_spec, ES.
    change (Uint63.to_Z 1) with 1. change (Uint63.to_Z 100) with 100.
    change wB with 9223372036854775808. rewrite Z.mod_small by lia. lia.
Qed.

(** The risk aggregator always completes, and the composite it stores
    is [round(0.40*context + 0.35*transaction + 0.25*behavioral)] clamped to
    [0, 100] and raised to at least 80 when a component is at least 90
    ([spec_composite], in the binary64 arithmetic of the runtime; missing
    components count as 0). Unless it is NaN the composite lies in [0, 100],
    and in [80, 100] when a component is at least 90. For integer components
    in [0, 100] it is an integer [k] within one half of the exact weighted
    sum, lifted to 80 for a critical component. *)
Theorem riskAggregator_composite_correct (Baseline : Type)
    (w : World Baseline) :
  let rs := riskScores (w_ctx w) in
  let c := orElse (sc_context rs) 0%float in
  let t := orElse (sc_transaction rs) 0%float in
  let b := orElse (sc_behavioral rs) 0%float in
  exists w',
    riskAggregator_work Baseline w = Ok w' /\
    sc_composite (riskScores (w_ctx w')) = Some (spec_composite c t b) /\
    (is_nan (spec_composite c t b) = true
     \/ in_range 0 100 (spec_composite c t b)) /\
    (critical_component c t b = true ->
     is_nan (spec_composite c t b) = true
     \/ in_range 80 100 (spec_composite c t b)) /\
    (forall zc zt zb : Z,
        0 <= zc <= 100 -> 0 <= zt <= 100 -> 0 <= zb <= 100 ->
        c = JS.num zc -> t = JS.num zt -> b = JS.num zb ->
        exists k : Z,
          0 <= k <= 100 /\
          100 * k - 50 <= 40 * zc + 35 * zt + 25 * zb <= 100 * k + 50 /\
          spec_composite c t b
          = JS.num (if (90 <=? zc) || (90 <=? zt) || (90 <=? zb)
                    then Z.max k 80 else k)).
Proof.
  cbv zeta. eexists. split; [reflexivity|].
  split.
  { cbn. destruct (determineTier _ _ _ _); cbn; f_equal; apply aggregate_spec. }
  split; [apply spec_composite_range|].
  split; [apply spec_composite_critical|].
  intros zc zt zb Hc Ht Hb Ec Et Eb.
  destruct (composite_nearest_integer zc zt zb Hc Ht Hb) as [k [Hk [Hs He]]].
  exists k. split; [exact Hk|]. split; [exact Hs|].
  rewrite <- He. unfold composite_of. rewrite aggregate_spec. cbn [orElse sc_context sc_transaction sc_behavioral].
  now rewrite Ec, Et, Eb.
Qed.

Lemma riskAggregator_composite_witness :
  exists w',
    riskAggregator_work unit (scored_world 95 6 0) = Ok w' /\
    sc_composite (riskScores (w_ctx w')) = Some 80%float /\
    in_range 80 100 (spec_composite (JS.num 95) (JS.num 6) (JS.num 0)).
Proof.
  destruct (riskAggregator_composite_correct unit (scored_world 95 6 0))
    as [w' [Hrun [Hcomp [_ [Hcrit Hint]]]]].
  exists w'. split; [exact Hrun|]. split.
  - rewrite Hcomp. vm_compute. reflexivity.
  - destruct (Hint 95 6 0) as [k [Hk [Hs He]]];
      try lia; try reflexivity.
    destruct Hcrit as [Hn | Hr]; [reflexivity | | exact Hr].
    vm_compute in Hn. discriminate Hn.
Defined.

(** ** Tier resolution *)

(** The loop returns the first tier, in the sorted order, that matches by
    any of its triggers. *)
Lemma first_match_find (v : float) (a : string) (f : option string)
    (l : list SecurityTierConfig) :
  first_match v a f l = find (tier_matches v a f) l.
Proof.
  induction l as [| t r IH]; [reflexivity|].
  cbn [first_match find]. unfold tier_matches.
  destruct (address_trigger a t); [reflexivity|].
  destruct (function_trigger f t); [reflexivity|].
  destruct (value_trigger v t); [reflexivity | exact IH].
Qed.

Lemma insert_tier_perm (x : SecurityTierConfig) (l : list SecurityTierConfig) :
  Permutation (x :: l) (insert_tier x l).
Proof.
  induction l as [| y r IH]; [apply Permutation_refl|].
  cbn [insert_tier]. destruct (Qle_bool _ _); [apply Permutation_refl|].
  eapply Permutation_trans; [apply perm_swap|]. now apply perm_skip.
Qed.

Lemma sortTiers_perm (l : list SecurityTierConfig) :
  Permutation l (sortTiers l).
Proof.
  induction l as [| x r IH]; [constructor|].
  cbn [sortTiers fold_right].
  eapply Permutation_trans; [apply perm_skip, IH | apply insert_tier_perm].
Qed.

Lemma insert_tier_sorted (x : SecurityTierConfig) (l : list SecurityTierConfig) :
  StronglySorted min_ge l -> StronglySorted min_ge (insert_tier x l).
Proof.
  induction l as [| y r IH]; intros Hs.
  - repeat constructor.
  - cbn [insert_tier]. inversion Hs as [| ? ? Hr Hy]; subst.
    destruct (Qle_bool (tier_min y) (tier_min x)) eqn:E.
    + apply Qle_bool_iff in E. constructor; [exact Hs|].
      constructor; [exact E|].
      eapply Forall_impl; [|exact Hy].
      intros z Hz. unfold min_ge in *. eapply Qle_trans; eassumption.
    + constructor; [now apply IH|].
      assert (Hxy : min_ge y x).
      { unfold min_ge. apply Qlt_le_weak, Qnot_le_lt.
        intros H. apply Qle_bool_iff in H. congruence. }
      eapply Permutation_Forall; [apply insert_tier_perm|].
      constructor; assumption.
Qed.

Lemma sortTiers_sorted (l : list SecurityTierConfig) :
  StronglySorted min_ge (sortTiers l).
Proof.
  induction l as [| x r IH]; [constructor|].
  cbn [sortTiers fold_right]. now apply insert_tier_sorted.
Qed.

Lemma find_sorted_highest (p : SecurityTierConfig -> bool)
    (l : list SecurityTierConfig) (t t' : SecurityTierConfig) :
  StronglySorted min_ge l ->
  find p l = Some t -> In t' l -> p t' = true -> min_ge t t'.
Proof.
  induction 1 as [| x r Hr IH Hx]; intros Hf Hin Hp; [contradiction|].
  cbn [find] in Hf. destruct (p x) eqn:E.
  - injection Hf as <-. destruct Hin as [<- | Hin]; [apply Qle_refl|].
    rewrite Forall_forall in Hx. now apply Hx.
  - destruct Hin as [<- | Hin]; [congruence|]. now apply IH.
Qed.

(** What tier resolution does guarantee: the tier it returns for a request
    that some tier matches (by address, function or value range) is itself a
    matching tier of the policy, and no matching tier has a higher minimum;
    so at an exact minimum boundary the higher of two adjacent value tiers
    is taken. *)
Lemma determineTier_highest_match (policy : SecurityPolicy) (v : float)
    (a : string) (f : option string) (t t' : SecurityTierConfig) :
  determineTier policy v a f = Some t ->
  In t' (tiers policy) ->
  tier_matches v a f t' = true ->
  In t (tiers policy) /\ tier_matches v a f t = true /\
  (tier_min t' <= tier_min t)%Q.
Proof.
  intros Hd Hin Hm. unfold determineTier in Hd.
  assert (Hin' : In t' (sortTiers (tiers policy)))
    by (eapply Permutation_in; [apply sortTiers_perm | exact Hin]).
  destruct (first_match v a f (sortTiers (tiers policy))) as [t0|] eqn:E.
  - injection Hd as <-. 
    assert (E' := E). rewrite first_match_find in E'.
    apply find_some in E' as Hfs. destruct Hfs as [Hin0 Hm0].
    split; [eapply Permutation_in; [apply Permutation_sym, sortTiers_perm | exact Hin0]|].
    split; [exact Hm0|].
    exact (find_sorted_highest _ _ _ _ (sortTiers_sorted _) E' Hin' Hm).
  - exfalso.
    assert (E' := E). rewrite first_match_find in E'.
    eapply find_none in E'; [|exact Hin']. congruence.
Qed.

(** C2 (the code departs from the claim). A tier that lists the target
    address does not override a value match of a tier with a higher minimum:
    for a $5000 request to [ADDRESS_2] the value tier (from $1000) is chosen
    although [address_tier] lists the address. The same holds for a tier
    that lists the decoded function; and a function trigger of a tier with a
    higher minimum is taken before the address trigger of a lower one. *)
Theorem determineTier_value_match_before_address_trigger :
  (address_trigger ADDRESS_2 address_tier = true /\
   determineTier override_policy 5000 ADDRESS_2 None = Some value_tier) /\
  (function_trigger (Some "approve") function_tier = true /\
   determineTier function_policy 5000 ADDRESS_3 (Some "approve")
   = Some value_tier) /\
  (address_trigger ADDRESS_2 address_tier = true /\
   determineTier mixed_policy 0 ADDRESS_2 (Some "approve")
   = Some function_tier_high).
Proof. repeat split; vm_compute; reflexivity. Qed.

(** ** The policy engine *)

(** C3 as stated fails: with an audit tier matched, a request above
    [maxTransactionValueWei] is blocked, by the policy engine on a context
    with that tier, and so by a whole evaluation on a shield whose policy
    gives the request the audit tier. *)
Lemma audit_tier_blocks_over_limit :
  (tier (w_ctx over_limit_world) = Some audit_tier /\
   mode (enforcement audit_tier) = audit /\
   exists w' v,
     policyEngine unit over_limit_world (fun w => Ok w) = Ok w' /\
     md_verdict (metadata (w_ctx w')) = Some v /\
     decision v = block /\ decision v <> approve) /\
  (exists v s',
     evaluate unit no_match all_valid passthrough tight_config (sample_env 1)
              (mkTx ADDRESS_1 (Some "2") None 1) tight_shield
     = (Returned v, s') /\
     tierId v = tier_id audit_tier /\
     decision v = block /\
     map code (reasons v) = ["EXCEEDS_TX_LIMIT"]).
Proof.
  split.
  - split; [reflexivity|]. split; [reflexivity|].
    eexists. eexists. split; [vm_compute; reflexivity|].
    split; [reflexivity|]. split; [reflexivity | discriminate].
  - eexists. eexists. split; [vm_compute; reflexivity|].
    repeat split.
Qed.

(** C3 (amended). With an audit tier matched, the policy engine completes
    and its decision is [approve] whatever the accumulated reasons are,
    unless the transaction value exceeds [limits.maxTransactionValueWei]:
    then the decision is [block] and [EXCEEDS_TX_LIMIT] is added. *)
Theorem policyEngine_audit_decision (Baseline : Type) (w : World Baseline)
    (next : Next Baseline) (t : SecurityTierConfig) (txValue maxTx : Z) :
  tier (w_ctx w) = Some t ->
  mode (enforcement t) = audit ->
  JS.StringToBigInt (orElse (value (transaction (w_ctx w))) "0")
  = Some txValue ->
  JS.StringToBigInt (maxTransactionValueWei (limits (policy (w_ctx w))))
  = Some maxTx ->
  exists w' v,
    policyEngine Baseline w next = Ok w' /\
    md_verdict (metadata (w_ctx w')) = Some v /\
    tierId v = tier_id t /\
    (txValue <= maxTx ->
     decision v = approve /\ reasons v = ctx_reasons (w_ctx w)) /\
    (maxTx < txValue ->
     decision v = block /\ has_code "EXCEEDS_TX_LIMIT" (reasons v) = true).
Proof.
  intros Ht Hm Hv Hl.
  unfold policyEngine. rewrite Ht, Hv, Hl. unfold mode_decision. rewrite Hm.
  cbn [EnforcementMode_eqb negb andb].
  rewrite !andb_false_r.
  destruct (maxTx <? txValue) eqn:E.
  - apply Z.ltb_lt in E.
    eexists. eexists. split; [reflexivity|]. split; [reflexivity|].
    split; [reflexivity|]. split; [lia|]. intros _. split; [reflexivity|].
    cbn. unfold has_code. rewrite existsb_app. cbn. apply orb_true_r.
  - apply Z.ltb_ge in E.
    eexists. eexists. split; [reflexivity|]. split; [reflexivity|].
    split; [reflexivity|]. split; [|lia]. intros _. split; reflexivity.
Qed.

Lemma policyEngine_audit_decision_witness :
  exists w' v,
    policyEngine unit over_limit_world (fun w => Ok w) = Ok w' /\
    md_verdict (metadata (w_ctx w')) = Some v /\
    decision v = block.
Proof.
  destruct (policyEngine_audit_decision unit over_limit_world (fun w => Ok w)
              audit_tier 2 1 eq_refl eq_refl eq_refl eq_refl)
    as [w' [v [Hrun [Hv [_ [_ Hover]]]]]].
  exists w', v. split; [exact Hrun|]. split; [exact Hv|].
  apply Hover. lia.
Defined.

(** ** Strings and hexadecimal numerals *)

Import JS.

Lemma length_app (a b : string) : String.length (a ++ b) = (String.length a + String.length b)%nat.
Proof. induction a; simpl; congruence. Qed.

Lemma forallb_app p (a b : string) :
  string_forallb p (a ++ b) = string_forallb p a && string_forallb p b.
Proof. induction a; simpl; [reflexivity|]. rewrite IHa. now rewrite andb_assoc. Qed.

Lemma substring_all (s : string) : substring 0 (String.length s) s = s.
Proof. induction s; simpl; congruence. Qed.

Lemma slice_app_l (a b : string) : slice 0 (String.length a) (a ++ b) = a.
Proof.
  unfold slice. rewrite Nat.sub_0_r. induction a; simpl.
  - destruct b; reflexivity.
  - now rewrite IHa.
Qed.

Lemma slice_from_app_r (a b : string) : slice_from (String.length a) (a ++ b) = b.
Proof.
  unfold slice_from. rewrite length_app.
  replace (String.length a + String.length b - String.length a)%nat with (String.length b) by lia.
  induction a; simpl; [apply substring_all | exact IHa].
Qed.

Lemma digit_char_hex (d : Z) : 0 <= d < 16 -> digit_in 16 (digit_char d) = Some d.
Proof.
  intros H.
  assert (d = 0 \/ d = 1 \/ d = 2 \/ d = 3 \/ d = 4 \/ d = 5 \/ d = 6 \/ d = 7 \/
          d = 8 \/ d = 9 \/ d = 10 \/ d = 11 \/ d = 12 \/ d = 13 \/ d = 14 \/ d = 15) as C by lia.
  repeat (destruct C as [-> | C]; [reflexivity|]). subst. reflexivity.
Qed.

(** what [digits_of] writes in front of [rest] *)
Lemma digits_of_spec (fuel : nat) : forall (n : Z) (rest : string),
  (1 <= fuel)%nat ->
  0 <= n < 2 ^ Z.of_nat fuel ->
  exists ds : string,
    digits_of 16 fuel n rest = ds ++ rest /\
    string_forallb is_hex_digit ds = true /\
    (1 <= String.length ds)%nat /\
    16 ^ (Z.of_nat (String.length ds) - 1) <= Z.max n 1 /\
    forall (tail : string) (a : Z),
      parse_prefix 16 (ds ++ tail) a
      = parse_prefix 16 tail (a * 16 ^ Z.of_nat (String.length ds) + n).
Proof.
  induction fuel as [| f IH]; intros n rest Hfuel Hn.
  - lia.
  - cbn [digits_of].
    assert (Hd : 0 <= n mod 16 < 16) by (apply Z.mod_pos_bound; lia).
    destruct (n <? 16) eqn:E.
    + apply Z.ltb_lt in E.
      exists (String (digit_char (n mod 16)) ""). rewrite Z.mod_small by lia.
      split; [reflexivity|]. split.
      { cbn. unfold is_hex_digit. rewrite digit_char_hex by lia. reflexivity. }
      split; [cbn; lia|]. split; [cbn; lia|].
      intros tail a. cbn [append parse_prefix String.length].
      rewrite digit_char_hex by lia. f_equal; cbn; lia.
    + apply Z.ltb_ge in E.
      assert (Hf : 0 <= n / 16 < 2 ^ Z.of_nat f).
      { split; [apply Z.div_pos; lia|].
        apply Z.div_lt_upper_bound; [lia|].
        rewrite Nat2Z.inj_succ, Z.pow_succ_r in Hn by lia. lia. }
      assert (Hf1 : (1 <= f)%nat).
      { destruct f; [|lia]. cbn in Hn. lia. }
      destruct (IH (n / 16) (String (digit_char (n mod 16)) rest) Hf1 Hf)
        as [ds [Hds [Hhex [Hlen [Hlow Hparse]]]]].
      exists (ds ++ String (digit_char (n mod 16)) "").
      split.
      { rewrite Hds. clear. induction ds; simpl; congruence. }
      split.
      { rewrite forallb_app, Hhex. cbn. unfold is_hex_digit.
        rewrite digit_char_hex by lia. reflexivity. }
      rewrite length_app. cbn [String.length].
      split; [lia|].
      split.
      { replace (Z.of_nat (String.length ds + 1) - 1) with (Z.of_nat (String.length ds) - 1 + 1) by lia.
        rewrite Z.pow_add_r by lia. rewrite Z.max_l by lia.
        assert (1 <= n / 16) by (apply Z.div_le_lower_bound; lia).
        rewrite Z.max_l in Hlow by lia.
        pose proof (Z.mul_div_le n 16). lia. }
      intros tail a.
      replace ((ds ++ String (digit_char (n mod 16)) "") ++ tail)
        with (ds ++ String (digit_char (n mod 16)) tail)
        by (clear; induction ds; simpl; congruence).
      rewrite Hparse. cbn [parse_prefix]. rewrite digit_char_hex by lia.
      f_equal.
      replace (Z.of_nat (String.length ds + 1)) with (Z.of_nat (String.length ds) + 1) by lia.
      rewrite Z.pow_add_r by lia.
      pose proof (Z.div_mod n 16). lia.
Qed.

Lemma toString16_spec (n : Z) :
  0 <= n ->
  exists ds : string,
    toStringRadix 16 n = ds /\
    string_forallb is_hex_digit ds = true /\
    (1 <= String.length ds)%nat /\
    16 ^ (Z.of_nat (String.length ds) - 1) <= Z.max n 1 /\
    forall (tail : string) (a : Z),
      parse_prefix 16 (ds ++ tail) a
      = parse_prefix 16 tail (a * 16 ^ Z.of_nat (String.length ds) + n).
Proof.
  intros Hn. unfold toStringRadix.
  destruct (n <? 0) eqn:E; [apply Z.ltb_lt in E; lia|].
  destruct (digits_of_spec (S (Z.to_nat (Z.log2 n))) n "") as [ds [H1 H2]].
  { lia. }
  { split; [lia|]. rewrite Nat2Z.inj_succ, Z2Nat.id by apply Z.log2_nonneg.
    destruct (Z.eq_dec n 0) as [-> | Hz]; [cbn; lia|].
    apply Z.log2_spec. lia. }
  exists ds. split; [|exact H2].
  rewrite H1. clear. induction ds; simpl; congruence.
Qed.

Lemma repeat_char_length c n : String.length (repeat_char c n) = n.
Proof. induction n; simpl; congruence. Qed.

Lemma repeat_zero_hex n : string_forallb is_hex_digit (repeat_char "0" n) = true.
Proof. induction n; simpl; [reflexivity | exact IHn]. Qed.

Lemma parse_zeros n (s : string) :
  parse_prefix 16 (repeat_char "0" n ++ s) 0 = parse_prefix 16 s 0.
Proof. induction n; simpl; [reflexivity | exact IHn]. Qed.

Lemma app_empty_r (s : string) : s ++ "" = s.
Proof. induction s; simpl; congruence. Qed.

Lemma tsHex_spec (t : Z) :
  0 <= t < 2 ^ 64 ->
  let tsHex := padStart 16 "0" (toStringRadix 16 t) in
  String.length tsHex = 16%nat /\
  string_forallb is_hex_digit tsHex = true /\
  parseInt16 tsHex = Some t.
Proof.
  intros Ht. cbv zeta.
  destruct (toString16_spec t) as [ds [-> [Hhex [Hlen [Hlow Hparse]]]]]; [lia|].
  assert (Hlen16 : (String.length ds <= 16)%nat).
  { destruct (Nat.le_gt_cases (String.length ds) 16) as [|Hgt]; [assumption|].
    assert (16 ^ 16 <= 16 ^ (Z.of_nat (String.length ds) - 1))
      by (apply Z.pow_le_mono_r; lia).
    change (16 ^ 16) with (2 ^ 64) in *. lia. }
  unfold padStart.
  split; [rewrite length_app, repeat_char_length; lia|].
  split; [rewrite forallb_app, repeat_zero_hex, Hhex; reflexivity|].
  assert (Hval : parse_prefix 16 (repeat_char "0" (16 - String.length ds) ++ ds) 0 = t).
  { rewrite parse_zeros. rewrite <- (app_empty_r ds) at 1. rewrite Hparse. cbn. lia. }
  unfold parseInt16.
  destruct (repeat_char "0" (16 - String.length ds) ++ ds) as [| c r] eqn:E.
  - exfalso. apply (f_equal String.length) in E.
    rewrite length_app, repeat_char_length in E. cbn in E. lia.
  - assert (Hc : is_hex_digit c = true).
    { assert (Hall : string_forallb is_hex_digit (String c r) = true)
        by (rewrite <- E, forallb_app, repeat_zero_hex, Hhex; reflexivity).
      cbn in Hall. now apply andb_prop in Hall. }
    rewrite Hc. now rewrite Hval.
Qed.

Lemma bytes_eqb_refl (l : list Z) : bytes_eqb l l = true.
Proof. induction l; simpl; [reflexivity|]. now rewrite Z.eqb_refl. Qed.

(** ** Approval tokens *)

(** C4 as stated fails at the boundary and for tokens from the future: a
    token of age exactly 300000 ms verifies although [now - t < 300000] is
    false, and a token stamped 1 ms ahead of the clock is rejected although
    [now - t < 300000] holds. *)
Lemma approval_token_boundary_and_future :
  (Signer.verifyApprovalToken sample_hmac 300000
     (Signer.generateApprovalToken sample_hmac "0xabc" "secret" 0)
     "0xabc" "secret" = true
   /\ ~ (300000 - 0 < 300000))
  /\
  (Signer.verifyApprovalToken sample_hmac 0
     (Signer.generateApprovalToken sample_hmac "0xabc" "secret" 1)
     "0xabc" "secret" = false
   /\ 0 - 1 < 300000).
Proof.
  split; split; try (vm_compute; reflexivity); lia.
Qed.

(** C4 (amended). For a timestamp [t] that is a non-negative safe integer,
    the token generated for [(h, S, t)] verifies against [(h, S)] at clock
    [now] exactly when [0 <= now - t <= 300000]: the maximum age is
    inclusive and tokens from the future are rejected. *)
Theorem approval_token_round_trip (hmac : string -> string -> string)
    (h secret : string) (t now_ms : Z) :
  hmac_well_formed hmac ->
  0 <= t < 2 ^ 53 ->
  Signer.verifyApprovalToken hmac now_ms
    (Signer.generateApprovalToken hmac h secret t) h secret = true
  <-> 0 <= now_ms - t <= 300000.
Proof.
  intros hmac_hex Ht.
  assert (Ht64 : 0 <= t < 2 ^ 64) by lia.
  destruct (tsHex_spec t Ht64) as [Hlen [Hhex Hparse]].
  destruct (hmac_hex secret (h ++ JS.toString t)) as [Hmlen Hmhex].
  unfold Signer.verifyApprovalToken, Signer.generateApprovalToken.
  set (mac := hmac secret (h ++ JS.toString t)) in *.
  set (tsHex := JS.padStart 16 "0" (JS.toStringRadix 16 t)) in *.
  assert (Hfmt : Signer.token_format (mac ++ tsHex) = true).
  { unfold Signer.token_format.
    rewrite length_app, Hmlen, Hlen, forallb_app, Hmhex, Hhex. reflexivity. }
  rewrite Hfmt. cbn [negb].
  replace 64%nat with (String.length mac) by exact Hmlen.
  rewrite slice_app_l, slice_from_app_r, Hparse.
  fold mac.
  unfold JS.timingSafeEqual. rewrite Nat.eqb_refl, bytes_eqb_refl.
  unfold Signer.APPROVAL_TOKEN_MAX_AGE_MS.
  destruct (5 * 60 * 1000 <? now_ms - t) eqn:E1;
    destruct (now_ms - t <? 0) eqn:E2; cbn [orb];
    try apply Z.ltb_lt in E1; try apply Z.ltb_ge in E1;
    try apply Z.ltb_lt in E2; try apply Z.ltb_ge in E2;
    split; intros; try discriminate; try reflexivity; lia.
Qed.

Lemma sample_hmac_well_formed : hmac_well_formed sample_hmac.
Proof.
  intros key msg. unfold sample_hmac.
  set (n := (Z.of_nat (String.length key) * 256
             + Z.of_nat (String.length msg)) mod 65536).
  assert (Hn : 0 <= n < 65536) by (apply Z.mod_pos_bound; lia).
  destruct (toString16_spec n) as [ds [-> [Hhex [Hlen [Hlow _]]]]]; [lia|].
  assert (Hlen4 : (String.length ds <= 4)%nat).
  { destruct (Nat.le_gt_cases (String.length ds) 4) as [|Hgt]; [assumption|].
    assert (16 ^ 4 <= 16 ^ (Z.of_nat (String.length ds) - 1))
      by (apply Z.pow_le_mono_r; lia).
    change (16 ^ 4) with 65536 in *. lia. }
  unfold JS.padStart. split.
  - rewrite !length_app, !repeat_char_length. lia.
  - rewrite !forallb_app, !repeat_zero_hex, Hhex. reflexivity.
Qed.

Lemma approval_token_round_trip_witness :
  Signer.verifyApprovalToken sample_hmac 1700000120000
    (Signer.generateApprovalToken sample_hmac "0xabc" "secret" 1700000000000)
    "0xabc" "secret" = true.
Proof.
  apply (approval_token_round_trip sample_hmac "0xabc" "secret"
           1700000000000 1700000120000 sample_hmac_well_formed); lia.
Defined.

(** ** The policy guardrail *)

(** C5. [updatePolicy] validates the merged policy: it raises, leaving the
    shield as it was, exactly when the merged policy has no tier or no tier
    of mode guardian or fortress; otherwise the merged policy becomes the
    active one. In particular [updatePolicy({ tiers: [] })] raises and the
    previous policy stays. *)
Theorem updatePolicy_guardrails (Baseline : Type) (s : Shield Baseline)
    (o : PolicyOverrides) :
  let merged_tiers := orElse (o_tiers o) (tiers (sh_policy s)) in
  (o_tiers o = Some [] ->
   exists err, updatePolicy Baseline o s = (Some err, s)) /\
  ((merged_tiers = [] \/ existsb is_blocking_tier merged_tiers = false) ->
   exists err, updatePolicy Baseline o s = (Some err, s)) /\
  (merged_tiers <> [] -> existsb is_blocking_tier merged_tiers = true ->
   exists p,
     updatePolicy Baseline o s = (None, set_policy Baseline p s) /\
     tiers p = merged_tiers /\
     mergePolicy (sh_policy s) o = inr p).
Proof.
  cbv zeta. unfold updatePolicy, mergePolicy. cbn [tiers].
  split; [|split].
  - intros ->. cbn. eexists. reflexivity.
  - intros [-> | Hb].
    + eexists. reflexivity.
    + destruct (orElse (o_tiers o) (tiers (sh_policy s))) as [| t r];
        [eexists; reflexivity|].
      rewrite Hb. eexists. reflexivity.
  - intros Hne Hb.
    destruct (orElse (o_tiers o) (tiers (sh_policy s))) as [| t r] eqn:E;
      [congruence|].
    rewrite Hb. eexists. split; [reflexivity|]. split; reflexivity.
Qed.

Lemma updatePolicy_guardrails_witness :
  exists err,
    updatePolicy unit (mkOverrides (Some []) None None None None None)
                 sample_shield
    = (Some err, sample_shield).
Proof.
  destruct (updatePolicy_guardrails unit sample_shield
              (mkOverrides (Some []) None None None None None))
    as [Hempty _].
  apply Hempty. reflexivity.
Defined.

(** ** The frozen shield *)

Section ShieldFacts.

Variable Baseline : Type.
Variable regex_test : string -> string -> string -> bool.
Variable regex_valid : string -> bool.
Variable behavioralComparator : Middleware Baseline.
Variable config : WardexConfig.

Local Abbreviation evaluateInternal' :=
  (evaluateInternal Baseline regex_test regex_valid behavioralComparator config).
Local Abbreviation run_calls' :=
  (run_calls Baseline regex_test regex_valid behavioralComparator config).
Local Abbreviation call_step' :=
  (call_step Baseline regex_test regex_valid behavioralComparator config).

Lemma recordAudit_frame (tx : TransactionRequest) (v : SecurityVerdict)
    (context : option ConversationContext) (ex : option bool)
    (s : Shield Baseline) :
  let s' := recordAudit Baseline tx v context ex s in
  frozen s' = frozen s /\ freezeReason s' = freezeReason s /\
  sh_policy s' = sh_policy s /\
  evaluationCount s' = evaluationCount s /\ blockCount s' = blockCount s /\
  advisoryCount s' = advisoryCount s /\ dailyVolumeWei s' = dailyVolumeWei s /\
  customMiddlewares s' = customMiddlewares s /\ events s' = events s.
Proof. cbv zeta. unfold recordAudit. cbn. repeat split. Qed.

Lemma frozen_evaluateInternal (env : Env) (tx : TransactionRequest)
    (context : option ConversationContext) (s : Shield Baseline) :
  frozen s = true ->
  evaluateInternal' env tx context s
  = (Returned (frozenVerdict Baseline s env),
     recordAudit Baseline tx (frozenVerdict Baseline s env) context
                 (Some false) s).
Proof. intros H. unfold evaluateInternal. now rewrite H. Qed.

Lemma call_step_frozen (c : ShieldCall Baseline) (s : Shield Baseline) :
  frozen s = true ->
  frozen (snd (call_step' c s)) = true /\
  (forall o, fst (call_step' c s) = Some o -> is_freeze_outcome o).
Proof.
  intros H. destruct c; cbn [call_step].
  - unfold evaluate. rewrite frozen_evaluateInternal by exact H.
    cbn [fst snd]. split; [exact H|].
    intros o [= <-]. eexists. split; reflexivity.
  - unfold evaluateWithContext. rewrite frozen_evaluateInternal by exact H.
    cbn [fst snd]. split; [exact H|].
    intros o [= <-]. eexists. split; reflexivity.
  - cbn [fst snd]. split; [|discriminate].
    unfold updatePolicy. destruct (mergePolicy _ _); exact H.
  - cbn [fst snd]. split; [exact H | discriminate].
  - cbn [fst snd]. split; [|discriminate].
    unfold freeze_shield, notify. destruct (cfg_onFreeze config); reflexivity.
  - split; [exact H | discriminate].
  - split; [exact H | discriminate].
  - split; [exact H | discriminate].
Qed.

Lemma run_calls_frozen (cs : list (ShieldCall Baseline)) :
  forall s : Shield Baseline,
    frozen s = true ->
    frozen (snd (run_calls' cs s)) = true /\
    Forall is_freeze_outcome (fst (run_calls' cs s)).
Proof.
  induction cs as [| c r IH]; intros s H.
  - split; [exact H | constructor].
  - cbn [run_calls].
    destruct (call_step_frozen c s H) as [H1 Ho].
    destruct (call_step' c s) as [o s1]. cbn [fst snd] in *.
    destruct (IH s1 H1) as [H2 Hos].
    destruct (run_calls' r s1) as [os s2]. cbn [fst snd] in *.
    split; [exact H2|].
    destruct o as [x|]; [constructor; auto | exact Hos].
Qed.

(** The log after [recordAudit]: the new entry after the entries there
    were, of which only the most recent 9999 are kept. *)
Lemma recordAudit_auditLog (tx : TransactionRequest) (v : SecurityVerdict)
    (context : option ConversationContext) (ex : option bool)
    (s : Shield Baseline) :
  auditLog (recordAudit Baseline tx v context ex s)
  = (JS.lastn (Z.to_nat (AUDIT_CAPACITY - 1)) (auditLog s)
     ++ [auditEntry tx v context ex])%list.
Proof.
  unfold recordAudit, JS.lastn, AUDIT_CAPACITY. cbn [auditLog set_auditLog].
  rewrite List.length_app. cbn [List.length].
  destruct (10000 <? _) eqn:E;
    [apply Z.ltb_lt in E | apply Z.ltb_ge in E].
  - rewrite skipn_app.
    replace (Z.to_nat (Z.of_nat (List.length (auditLog s) + 1) - 10000))
      with (List.length (auditLog s) - Z.to_nat (10000 - 1))%nat by lia.
    replace (List.length (auditLog s) - Z.to_nat (10000 - 1)
             - List.length (auditLog s))%nat with 0%nat by lia.
    reflexivity.
  - replace (List.length (auditLog s) - Z.to_nat (10000 - 1))%nat
      with 0%nat by lia.
    reflexivity.
Qed.

(** C10. While the shield is frozen, an evaluation returns the synthetic
    freeze verdict and appends exactly one audit entry, for that verdict and
    with [executed = false]: the log afterwards is the log before, cut to
    its most recent 9999 entries, followed by the new entry (nothing is
    dropped from a log of fewer than 10000 entries). The evaluation, block
    and advisory counters, the daily volume and the active policy are
    unchanged, and the shield stays frozen. *)
Theorem frozen_evaluation_frame (env : Env) (tx : TransactionRequest)
    (context : option ConversationContext) (s : Shield Baseline) :
  frozen s = true ->
  exists (entry : AuditEntry) (s' : Shield Baseline),
    evaluateInternal' env tx context s
    = (Returned (frozenVerdict Baseline s env), s') /\
    decision (frozenVerdict Baseline s env) = freeze /\
    au_verdict entry = frozenVerdict Baseline s env /\
    au_transaction entry = tx /\
    executed entry = false /\
    auditLog s'
    = (JS.lastn (Z.to_nat (AUDIT_CAPACITY - 1)) (auditLog s) ++ [entry])%list /\
    (Z.of_nat (List.length (auditLog s)) < AUDIT_CAPACITY ->
     auditLog s' = (auditLog s ++ [entry])%list) /\
    evaluationCount s' = evaluationCount s /\
    blockCount s' = blockCount s /\
    advisoryCount s' = advisoryCount s /\
    dailyVolumeWei s' = dailyVolumeWei s /\
    sh_policy s' = sh_policy s /\
    frozen s' = true.
Proof.
  intros H. rewrite (frozen_evaluateInternal env tx context s H).
  exists (auditEntry tx (frozenVerdict Baseline s env) context (Some false)).
  eexists. split; [reflexivity|].
  split; [reflexivity|].
  split; [reflexivity|]. split; [reflexivity|]. split; [reflexivity|].
  split; [apply recordAudit_auditLog|].
  split.
  - intros Hlt. rewrite recordAudit_auditLog. unfold JS.lastn.
    replace (List.length (auditLog s) - Z.to_nat (AUDIT_CAPACITY - 1))%nat
      with 0%nat by lia.
    reflexivity.
  - destruct (recordAudit_frame tx (frozenVerdict Baseline s env) context
                               (Some false) s)
      as [Hf [_ [Hp [He [Hb [Ha [Hd _]]]]]]].
    repeat split; first [assumption | now rewrite Hf].
Qed.

(** *** Auto-freeze *)

Lemma notify_frame (h : option Handler) (e : Event) (s : Shield Baseline) :
  let s' := snd (notify Baseline h e s) in
  frozen s' = frozen s /\ freezeReason s' = freezeReason s /\
  sh_policy s' = sh_policy s /\
  evaluationCount s' = evaluationCount s /\ blockCount s' = blockCount s /\
  advisoryCount s' = advisoryCount s /\ dailyVolumeWei s' = dailyVolumeWei s /\
  customMiddlewares s' = customMiddlewares s /\ auditLog s' = auditLog s.
Proof. cbv zeta. unfold notify. destruct h; cbn; repeat split. Qed.

Lemma autoFreeze_frame (v : SecurityVerdict) (env : Env)
    (s : Shield Baseline) :
  let s' := snd (autoFreeze Baseline config v env s) in
  sh_policy s' = sh_policy s /\
  evaluationCount s' = evaluationCount s /\ blockCount s' = blockCount s /\
  advisoryCount s' = advisoryCount s /\ dailyVolumeWei s' = dailyVolumeWei s /\
  customMiddlewares s' = customMiddlewares s /\ auditLog s' = auditLog s.
Proof.
  cbv zeta. unfold autoFreeze, notify.
  destruct (is_block_or_freeze (decision v)); [|now repeat split].
  destruct (5 <=? _)%nat; [|now repeat split].
  destruct (cfg_onFreeze config) as [h|];
    [destruct (h _ _)|]; destruct (cfg_onThreat config); cbn; repeat split.
Qed.

Lemma autoFreeze_auditLog (v : SecurityVerdict) (env : Env)
    (s : Shield Baseline) :
  auditLog (snd (autoFreeze Baseline config v env s)) = auditLog s.
Proof. apply autoFreeze_frame. Qed.

Lemma autoFreeze_frozen (v : SecurityVerdict) (env : Env)
    (s : Shield Baseline) :
  is_block_or_freeze (decision v) = true ->
  (5 <= recent_blocks s)%nat ->
  frozen (snd (autoFreeze Baseline config v env s)) = true.
Proof.
  intros Hb H5. unfold autoFreeze, notify. rewrite Hb.
  unfold recent_blocks, blocked_entry in H5.
  apply Nat.leb_le in H5. rewrite H5.
  destruct (cfg_onFreeze config) as [h|];
    [destruct (h _ _)|]; destruct (cfg_onThreat config); reflexivity.
Qed.

(** Without the threshold, or with handlers that return, the check
    completes. *)
Lemma autoFreeze_completes (v : SecurityVerdict) (env : Env)
    (s : Shield Baseline) :
  is_block_or_freeze (decision v) = false \/ (recent_blocks s < 5)%nat \/
  (quiet (cfg_onFreeze config) /\ quiet (cfg_onThreat config)) ->
  fst (autoFreeze Baseline config v env s) = None.
Proof.
  intros H. unfold autoFreeze, notify.
  destruct (is_block_or_freeze (decision v)); [|reflexivity].
  destruct (5 <=? _)%nat eqn:E; [|reflexivity].
  destruct H as [H | [H | [Hf Ht]]]; [discriminate | |].
  - apply Nat.leb_le in E. unfold recent_blocks, blocked_entry in H. lia.
  - destruct (cfg_onFreeze config) as [h|] eqn:Eh.
    + rewrite (Hf h _ _ eq_refl).
      destruct (cfg_onThreat config) as [h'|] eqn:Eh'; [|reflexivity].
      cbn [fst]. apply (Ht h' _ _ eq_refl).
    + destruct (cfg_onThreat config) as [h'|] eqn:Eh'; [|reflexivity].
      cbn [fst]. apply (Ht h' _ _ eq_refl).
Qed.

(** What [autoFreeze] raises was thrown by one of its two handlers, after
    the shield was frozen. *)
Lemma autoFreeze_raises (v : SecurityVerdict) (env : Env)
    (s : Shield Baseline) (err : string) :
  fst (autoFreeze Baseline config v env s) = Some err ->
  (thrown_by (cfg_onFreeze config) err \/ thrown_by (cfg_onThreat config) err)
  /\ frozen (snd (autoFreeze Baseline config v env s)) = true.
Proof.
  unfold autoFreeze, notify.
  destruct (is_block_or_freeze (decision v)); [|discriminate].
  destruct (5 <=? _)%nat; [|discriminate].
  destruct (cfg_onFreeze config) as [h|] eqn:Eh.
  - destruct (h _ _) as [e|] eqn:Ee.
    + cbn [fst snd]. intros [= <-]. split; [|reflexivity].
      left. eexists. eexists. eexists. split; [reflexivity | exact Ee].
    + destruct (cfg_onThreat config) as [h'|] eqn:Eh'; [|discriminate].
      cbn [fst snd]. intros H. split; [|reflexivity].
      right. eexists. eexists. eexists. split; [reflexivity | exact H].
  - destruct (cfg_onThreat config) as [h'|] eqn:Eh'; [|discriminate].
    cbn [fst snd]. intros H. split; [|reflexivity].
    right. eexists. eexists. eexists. split; [reflexivity | exact H].
Qed.

Lemma settleVerdict_returned (env : Env) (tx : TransactionRequest)
    (context : option ConversationContext) (v0 v : SecurityVerdict)
    (d : option DecodedTransaction) (s s' : Shield Baseline) :
  settleVerdict Baseline config env tx context v0 d s = (Returned v, s') ->
  exists s7,
    s' = snd (autoFreeze Baseline config v env
                (recordAudit Baseline tx v context None s7)).
Proof.
  unfold settleVerdict.
  destruct (if is_block_or_freeze (decision v0) then _ else _)
    as [[err|] s5]; [discriminate|].
  destruct (Decision_eqb (decision v0) approve).
  - destruct (JS.StringToBigInt (orElse (value tx) "0")); [|discriminate].
    destruct (JS.StringToBigInt _); [|discriminate].
    destruct (_ <? _);
      match goal with
      | |- context [autoFreeze _ _ ?v ?e ?x] =>
          destruct (autoFreeze Baseline config v e x) as [[err|] s9] eqn:E
      end; try discriminate;
      intros [= <- <-]; eexists; rewrite E; reflexivity.
  - match goal with
    | |- context [autoFreeze _ _ ?v ?e ?x] =>
        destruct (autoFreeze Baseline config v e x) as [[err|] s9] eqn:E
    end; [discriminate|].
    intros [= <- <-]. eexists. rewrite E. reflexivity.
Qed.

(** C6 (amended). When the pipeline of an evaluation produces a verdict, the
    verdict [v] that is recorded (after the daily-volume check) has decision
    block or freeze, and at least 5 of the 10 most recent audit entries,
    the new one included, have decision block or freeze, the shield is frozen
    afterwards; and a frozen shield stays frozen and answers every
    evaluation with a freeze verdict through any sequence of calls other
    than [unfreeze()]. *)
Theorem autoFreeze_after_recorded_block (env : Env) (tx : TransactionRequest)
    (context : option ConversationContext) (s s' : Shield Baseline)
    (w : World Baseline) (v0 v : SecurityVerdict) :
  frozen s = false ->
  runPipeline Baseline regex_test regex_valid behavioralComparator config env
              tx context (beginEvaluation Baseline config env s) = Ok w ->
  md_verdict (metadata (w_ctx w)) = Some v0 ->
  evaluateInternal' env tx context s = (Returned v, s') ->
  is_block_or_freeze (decision v) = true ->
  (5 <= recent_blocks s')%nat ->
  frozen s' = true /\
  forall cs : list (ShieldCall Baseline),
    frozen (snd (run_calls' cs s')) = true /\
    Forall is_freeze_outcome (fst (run_calls' cs s')).
Proof.
  intros Hf Hrun Hv0 Heval Hb H5.
  assert (Hfrozen : frozen s' = true).
  { unfold evaluateInternal in Heval. rewrite Hf, Hrun, Hv0 in Heval.
    apply settleVerdict_returned in Heval as [s7 ->].
    apply autoFreeze_frozen; [exact Hb|].
    unfold recent_blocks in *. now rewrite autoFreeze_auditLog in H5. }
  split; [exact Hfrozen|].
  intros cs. now apply run_calls_frozen.
Qed.

(** The same when the evaluation raises after its audit entry: only the
    freeze or threat handler of the auto-freeze can throw there, and the
    shield is frozen before they are called. *)
Lemma autoFreeze_before_handlers (env : Env) (tx : TransactionRequest)
    (context : option ConversationContext) (s s' : Shield Baseline)
    (w : World Baseline) (v0 : SecurityVerdict) (err : string) :
  frozen s = false ->
  runPipeline Baseline regex_test regex_valid behavioralComparator config env
              tx context (beginEvaluation Baseline config env s) = Ok w ->
  md_verdict (metadata (w_ctx w)) = Some v0 ->
  evaluateInternal' env tx context s = (Raised err, s') ->
  auditLog s' <> auditLog s ->
  frozen s' = true /\
  forall cs : list (ShieldCall Baseline),
    frozen (snd (run_calls' cs s')) = true /\
    Forall is_freeze_outcome (fst (run_calls' cs s')).
Proof.
  intros Hf Hrun Hv0 Heval Hlog.
  assert (Hfrozen : frozen s' = true).
  { unfold evaluateInternal in Heval. rewrite Hf, Hrun, Hv0 in Heval.
    set (s4 := set_closures Baseline _ _ _) in Heval.
    assert (H4 : auditLog s4 = auditLog s).
    { unfold s4, beginEvaluation, checkDailyReset.
      destruct (cfg_intelligence config); destruct (negb _); reflexivity. }
    unfold settleVerdict in Heval.
    pose proof (notify_frame (cfg_onBlock config)
                  (onBlock v0 tx (decoded (w_ctx w)))
                  (set_blockCount Baseline (blockCount s4 + 1) s4)) as Nb.
    pose proof (notify_frame (cfg_onAdvisory config) (onAdvisory v0 tx)
                  (set_advisoryCount Baseline (advisoryCount s4 + 1) s4))
      as Na.
    cbv zeta in Nb, Na.
    destruct Nb as (_ & _ & _ & _ & _ & _ & _ & _ & Nb).
    destruct Na as (_ & _ & _ & _ & _ & _ & _ & _ & Na).
    cbn [auditLog set_blockCount set_advisoryCount] in Nb, Na.
    assert (H5 : forall o s5,
               (if is_block_or_freeze (decision v0)
                then notify Baseline (cfg_onBlock config)
                       (onBlock v0 tx (decoded (w_ctx w)))
                       (set_blockCount Baseline (blockCount s4 + 1) s4)
                else if Decision_eqb (decision v0) advise
                     then notify Baseline (cfg_onAdvisory config)
                            (onAdvisory v0 tx)
                            (set_advisoryCount Baseline
                               (advisoryCount s4 + 1) s4)
                     else (None, s4)) = (o, s5) ->
               auditLog s5 = auditLog s).
    { intros o s5 E. rewrite <- H4.
      destruct (is_block_or_freeze (decision v0));
        [rewrite E in Nb; exact Nb|].
      destruct (Decision_eqb (decision v0) advise);
        [rewrite E in Na; exact Na|].
      now injection E as _ <-. }
    destruct (if is_block_or_freeze (decision v0) then _ else _)
      as [[e5|] s5]; specialize (H5 _ _ eq_refl).
    { injection Heval as _ <-. exfalso. apply Hlog, H5. }
    assert (Hraise : forall v x,
               (let (o, s9) := autoFreeze Baseline config v env x in
                match o with
                | Some err0 => (Raised err0, s9)
                | None => (Returned v, s9)
                end) = (Raised err, s') ->
               frozen s' = true).
    { intros v x.
      pose proof (autoFreeze_raises v env x) as Hr.
      destruct (autoFreeze Baseline config v env x) as [[e9|] s9];
        [|discriminate].
      intros [= _ <-]. now apply (Hr e9). }
    destruct (Decision_eqb (decision v0) approve).
    - destruct (StringToBigInt (orElse (value tx) "0")).
      + destruct (StringToBigInt _).
        * destruct (_ <? _); exact (Hraise _ _ Heval).
        * injection Heval as _ <-. exfalso. apply Hlog. exact H5.
      + injection Heval as _ <-. exfalso. apply Hlog. exact H5.
    - exact (Hraise _ _ Heval). }
  split; [exact Hfrozen|].
  intros cs. now apply run_calls_frozen.
Qed.

End ShieldFacts.

Lemma frozen_evaluation_frame_witness :
  exists (entry : AuditEntry) (s' : Shield unit),
    sample_evaluate 7 small_transfer frozen_sample_shield
    = (Returned (frozenVerdict unit frozen_sample_shield (sample_env 7)), s') /\
    executed entry = false /\
    auditLog s' = [entry] /\
    evaluationCount s' = 0.
Proof.
  destruct (frozen_evaluation_frame unit no_match all_valid passthrough
              sample_config (sample_env 7) small_transfer None
              frozen_sample_shield eq_refl)
    as [entry [s' [Hrun [_ [_ [_ [Hex [_ [Hlog [Hcount _]]]]]]]]]].
  exists entry, s'. split; [exact Hrun|]. split; [exact Hex|].
  split; [|exact Hcount].
  apply Hlog. cbn. unfold AUDIT_CAPACITY. lia.
Defined.

(** ** Infinite approvals (decoder and value assessor) *)


Lemma hex_not_ws (c : ascii) : is_hex_digit c = true -> is_ws c = false.
Proof.
  destruct c as [[] [] [] [] [] [] [] []]; vm_compute; congruence.
Qed.

Lemma digit_in_lower (c : ascii) : digit_in 16 (lower_char c) = digit_in 16 c.
Proof.
  destruct c as [[] [] [] [] [] [] [] []]; vm_compute; reflexivity.
Qed.

Lemma toLowerCase_length (s : string) :
  String.length (toLowerCase s) = String.length s.
Proof. induction s; simpl; congruence. Qed.

Lemma parse_prefix_lower (s : string) : forall a,
  parse_prefix 16 (toLowerCase s) a = parse_prefix 16 s a.
Proof.
  induction s as [| c r IH]; intros a; [reflexivity|].
  cbn [toLowerCase parse_prefix]. rewrite digit_in_lower.
  destruct (digit_in 16 c); [apply IH | reflexivity].
Qed.

Lemma hex_lower (s : string) :
  string_forallb is_hex_digit (toLowerCase s) = string_forallb is_hex_digit s.
Proof.
  induction s as [| c r IH]; [reflexivity|].
  cbn [toLowerCase string_forallb]. unfold is_hex_digit at 1 3.
  rewrite digit_in_lower. now rewrite IH.
Qed.

Lemma parse_digits_hex (s : string) : forall a,
  string_forallb is_hex_digit s = true ->
  parse_digits 16 s a = Some (parse_prefix 16 s a).
Proof.
  induction s as [| c r IH]; intros a H; [reflexivity|].
  cbn [string_forallb] in H. apply andb_prop in H as [Hc Hr].
  cbn [parse_digits parse_prefix]. unfold is_hex_digit in Hc.
  destruct (digit_in 16 c); [now apply IH | discriminate].
Qed.

Lemma trimEnd_hex (s : string) :
  string_forallb is_hex_digit s = true -> trimEnd s = s.
Proof.
  induction s as [| c r IH]; intros H; [reflexivity|].
  cbn [string_forallb] in H. apply andb_prop in H as [Hc Hr].
  cbn [trimEnd]. rewrite (IH Hr). rewrite (hex_not_ws c Hc).
  destruct r; reflexivity.
Qed.

(** [BigInt('0x' + word)] of a word of hexadecimal digits *)
Lemma StringToBigInt_0x (s : string) :
  s <> "" -> string_forallb is_hex_digit s = true ->
  StringToBigInt ("0x" ++ s) = Some (parse_prefix 16 s 0).
Proof.
  intros Hne Hhex. unfold StringToBigInt, trim.
  cbn [append trimStart is_ws].
  change (is_ws "0") with false. cbn iota.
  cbn [trimEnd]. rewrite (trimEnd_hex s Hhex).
  destruct s as [| c r]; [congruence|].
  change (is_ws "x") with false. change (is_ws "0") with false.
  cbn iota. unfold parse_nonempty. now apply parse_digits_hex.
Qed.

Lemma strip0x_hex (s : string) :
  string_forallb is_hex_digit s = true -> strip0x s = s.
Proof.
  intros H. unfold strip0x.
  destruct s as [| a [| b r]].
  - reflexivity.
  - destruct a as [[] [] [] [] [] [] [] []]; reflexivity.
  - cbn [string_forallb] in H.
    apply andb_prop in H as [_ H]. apply andb_prop in H as [Hb _].
    destruct a as [[] [] [] [] [] [] [] []]; try reflexivity.
    destruct b as [[] [] [] [] [] [] [] []]; try reflexivity.
    vm_compute in Hb. discriminate.
Qed.








(** ** Auto-freeze: the verdict of a pipeline without result *)

(** C6 as stated fails: with a custom middleware that returns without
    calling [next()], every evaluation records the synthetic
    [PIPELINE_ERROR] block verdict; after five of them all of the most
    recent audit entries are blocks, yet the shield is not frozen and the
    next evaluation is answered with block, not freeze. *)
Lemma pipeline_error_blocks_do_not_freeze :
  map decision_of (fst (five_evaluations swallowing_shield))
  = [Some block; Some block; Some block; Some block; Some block] /\
  recent_blocks (snd (five_evaluations swallowing_shield)) = 5%nat /\
  frozen (snd (five_evaluations swallowing_shield)) = false /\
  decision_of
    (fst (sample_evaluate 6 small_transfer
            (snd (five_evaluations swallowing_shield))))
  = Some block.
Proof. repeat split; vm_compute; reflexivity. Qed.

Lemma autoFreeze_after_recorded_block_witness :
  frozen (snd (sample_evaluate 5 big_transfer four_blocks)) = true /\
  forall cs : list (ShieldCall unit),
    frozen
      (snd (run_calls unit no_match all_valid passthrough sample_config cs
              (snd (sample_evaluate 5 big_transfer four_blocks)))) = true /\
    Forall is_freeze_outcome
      (fst (run_calls unit no_match all_valid passthrough sample_config cs
              (snd (sample_evaluate 5 big_transfer four_blocks)))).
Proof.
  eapply (autoFreeze_after_recorded_block unit no_match all_valid passthrough
            sample_config (sample_env 5) big_transfer None four_blocks).
  - vm_compute. reflexivity.
  - vm_compute. reflexivity.
  - vm_compute. reflexivity.
  - vm_compute. reflexivity.
  - vm_compute. reflexivity.
  - vm_compute. apply le_n.
Defined.

(** ** Input validation *)

Section ValidationFacts.

Variable Baseline : Type.
Variable regex_test : string -> string -> string -> bool.
Variable regex_valid : string -> bool.
Variable behavioralComparator : Middleware Baseline.
Variable config : WardexConfig.

(** C8 (the code departs from the claim). [evaluateInternal] does not call
    [validateTransactionRequest] and catches nothing: on a shield that is not
    frozen, a request whose value is not an integer literal makes the
    decoder's [BigInt(...)] throw, and [evaluate] raises. *)
Theorem evaluate_raises_on_invalid_value (env : Env)
    (tx : TransactionRequest) (bad : string) (s : Shield Baseline) :
  frozen s = false ->
  value tx = Some bad ->
  JS.StringToBigInt bad = None ->
  validateTransactionRequest tx <> None /\
  exists s',
    evaluate Baseline regex_test regex_valid behavioralComparator config env
             tx s
    = (Raised "SyntaxError: Cannot convert value to a BigInt", s').
Proof.
  intros Hf Hv Hbad. split.
  - unfold validateTransactionRequest. rewrite Hv, Hbad.
    destruct (String.eqb (to tx) ""); [discriminate|].
    destruct (negb _); [discriminate|].
    destruct (chainId tx <=? 0); discriminate.
  - unfold evaluate, evaluateInternal. rewrite Hf.
    unfold runPipeline, buildPipeline, compose.
    cbn [app dispatch w_index set_index Z.leb Z.compare].
    unfold contextAnalyzer at 1. unfold stage at 1.
    unfold contextAnalyzer_work at 1.
    cbn [conversationContext w_ctx set_index createMiddlewareContext].
    cbn [dispatch w_index set_index Z.leb Z.compare Z.add Pos.add].
    unfold transactionDecoder at 1. unfold stage at 1.
    unfold transactionDecoder_work at 1.
    cbn [w_ctx set_index createMiddlewareContext transaction orElse].
    rewrite Hv. cbn [orElse]. rewrite Hbad.
    eexists. reflexivity.
Qed.

(** The context analyzer leaves the escalation tracker alone when the
    context carries no decoded transaction yet. *)
Lemma contextAnalyzer_without_decoded (w w' : World Baseline) :
  decoded (w_ctx w) = None ->
  contextAnalyzer_work Baseline regex_test regex_valid w = Ok w' ->
  w_tracker w' = w_tracker w.
Proof.
  intros Hd. unfold contextAnalyzer_work.
  destruct (conversationContext (w_ctx w)) as [conv|]; [|now intros [= <-]].
  destruct (if enablePromptInjectionDetection _ then _ else _) as [rs1 ok].
  destruct (negb ok); [discriminate|].
  assert (Hnone : forall c, decoded c = None -> forall r, decoded (push_reason r c) = None)
    by (intros; assumption).
  match goal with
  | |- context [decoded ?c] =>
      replace (decoded c) with (@None DecodedTransaction)
  end.
  - destruct (enableEscalationDetection _); intros [= <-]; reflexivity.
  - symmetry.
    destruct (enableSourceVerification _), (enableCoherenceChecking _);
      try destruct (checkCoherence conv); exact Hd.
Qed.

End ValidationFacts.

(** C8, closed instances: the validator of pipeline.ts rejects each of the
    three requests, yet [evaluate] raises for the value and for the
    calldata, and evaluates the malformed address like any other, here to
    an approval without reasons. *)
Lemma evaluate_on_malformed_requests :
  validateTransactionRequest bad_value_request <> None /\
  validateTransactionRequest bad_data_request <> None /\
  validateTransactionRequest bad_address_request <> None /\
  fst (sample_evaluate 1 bad_value_request sample_shield)
  = Raised "SyntaxError: Cannot convert value to a BigInt" /\
  fst (sample_evaluate 1 bad_data_request sample_shield)
  = Raised "SyntaxError: Cannot convert parameter to a BigInt" /\
  decision_of (fst (sample_evaluate 1 bad_address_request sample_shield))
  = Some approve /\
  reason_codes (fst (sample_evaluate 1 bad_address_request sample_shield))
  = [].
Proof.
  repeat split; try (vm_compute; discriminate); vm_compute; reflexivity.
Qed.

(** ** Value escalation *)

(** C9 (the code departs from the claim). The pipeline runs the context
    analyzer before the decoder, so [ctx.decoded] is still undefined when
    the analyzer reaches its escalation step: [detectEscalation] is never
    called from an evaluation. In the scenario of three evaluations with
    context worth $10.50, $31.50 and $63 within 20 minutes all three are
    approved without any reason and the tracker stays empty, although
    [detectEscalation] itself, fed with those samples, reports
    [VALUE_ESCALATION] with severity high for the third. *)
Theorem value_escalation_never_reported :
  map decision_of (fst escalation_run)
  = [Some approve; Some approve; Some approve] /\
  map reason_codes (fst escalation_run) = [[]; []; []] /\
  escalationTracker (snd escalation_run) = [] /\
  option_map (fun r => (code r, severity r))
    (snd (detectEscalation earlier_samples (now (sample_env (minutes 20)))
                           63))
  = Some ("VALUE_ESCALATION", high).
Proof. repeat split; vm_compute; reflexivity. Qed.

Lemma evaluate_raises_on_invalid_value_witness :
  validateTransactionRequest bad_value_request <> None /\
  exists s',
    sample_evaluate 1 bad_value_request sample_shield
    = (Raised "SyntaxError: Cannot convert value to a BigInt", s').
Proof.
  apply (evaluate_raises_on_invalid_value unit no_match all_valid passthrough
           sample_config (sample_env 1) bad_value_request "abc" sample_shield);
    reflexivity.
Defined.

(* ====================================================================== *)
(** * Further properties of the engine                                     *)
(* ====================================================================== *)

(** ** Substrings *)

Lemma substring_split (n : nat) : forall s : string,
  substring 0 n s ++ substring n (String.length s - n) s = s.
Proof.
  induction n as [| n IH]; intros s.
  - cbn. rewrite Nat.sub_0_r. destruct s; cbn; [reflexivity|].
    now rewrite substring_all.
  - destruct s as [| c r]; [reflexivity|]. cbn. now rewrite IH.
Qed.

Lemma substring_0_length (n : nat) : forall s : string,
  String.length (substring 0 n s) = Nat.min n (String.length s).
Proof.
  induction n as [| n IH]; intros s.
  - destruct s; reflexivity.
  - destruct s as [| c r]; [reflexivity|]. cbn. now rewrite IH.
Qed.

Lemma substring_from_length (n : nat) : forall s : string,
  String.length (substring n (String.length s - n) s)
  = (String.length s - n)%nat.
Proof.
  induction n as [| n IH]; intros s.
  - rewrite Nat.sub_0_r, substring_all. reflexivity.
  - destruct s as [| c r]; [reflexivity|]. cbn. apply IH.
Qed.

Lemma substring_forallb (p : ascii -> bool) (n : nat) : forall (m : nat) (s : string),
  string_forallb p s = true -> string_forallb p (substring n m s) = true.
Proof.
  induction n as [| n IH]; intros m s H.
  - revert s H. induction m as [| m IHm]; intros s H.
    + destruct s; reflexivity.
    + destruct s as [| c r]; [reflexivity|]. cbn in *.
      apply andb_prop in H as [Hc Hr]. rewrite Hc. now apply IHm.
  - destruct s as [| c r]; [reflexivity|]. cbn in *.
    apply andb_prop in H as [_ Hr]. now apply IH.
Qed.

Lemma toLowerCase_substring (n : nat) : forall (m : nat) (s : string),
  toLowerCase (substring n m s) = substring n m (toLowerCase s).
Proof.
  induction n as [| n IH]; intros m s.
  - revert s. induction m as [| m IHm]; intros s.
    + destruct s; reflexivity.
    + destruct s as [| c r]; [reflexivity|]. cbn. now rewrite IHm.
  - destruct s as [| c r]; [reflexivity|]. cbn. apply IH.
Qed.

Lemma lower_char_idem (c : ascii) : lower_char (lower_char c) = lower_char c.
Proof. destruct c as [[] [] [] [] [] [] [] []]; vm_compute; reflexivity. Qed.

Lemma toLowerCase_idem (s : string) : toLowerCase (toLowerCase s) = toLowerCase s.
Proof.
  induction s as [| c r IH]; [reflexivity|].
  cbn. now rewrite lower_char_idem, IH.
Qed.

Lemma toLowerCase_app (a b : string) :
  toLowerCase (a ++ b) = toLowerCase a ++ toLowerCase b.
Proof. induction a as [| c r IH]; [reflexivity|]. cbn. now rewrite IH. Qed.

(** ** extractParams *)

Lemma chunks64_join (fuel : nat) : forall s : string,
  (String.length s <= fuel)%nat -> join "" (chunks64 fuel s) = s.
Proof.
  induction fuel as [| f IH]; intros s Hl.
  - destruct s; [reflexivity | cbn in Hl; lia].
  - cbn [chunks64]. destruct s as [| c r] eqn:E; [reflexivity|].
    rewrite <- E in *. clear E c r.
    assert (Hrest : (String.length (slice_from 64 s) <= f)%nat).
    { unfold slice_from. rewrite substring_from_length.
      destruct (String.length s) eqn:El; lia. }
    specialize (IH _ Hrest).
    cbn [join].
    destruct (chunks64 f (slice_from 64 s)) eqn:Ec.
    + cbn in IH. unfold slice, slice_from in *.
      rewrite <- (substring_split 64 s) at 2. rewrite <- IH.
      now rewrite app_empty_r.
    + rewrite IH. cbn [append]. unfold slice, slice_from.
      rewrite Nat.sub_0_r. apply substring_split.
Qed.

Lemma chunks64_sizes (fuel : nat) : forall s : string,
  (String.length s <= fuel)%nat ->
  Forall (fun p => (1 <= String.length p <= 64)%nat) (chunks64 fuel s) /\
  Forall (fun p => String.length p = 64%nat) (removelast (chunks64 fuel s)).
Proof.
  induction fuel as [| f IH]; intros s Hl.
  - split; constructor.
  - cbn [chunks64]. destruct s as [| c r] eqn:E; [split; constructor|].
    rewrite <- E in *.
    assert (Hpos : (1 <= String.length s)%nat) by (rewrite E; cbn; lia).
    clear E c r.
    assert (Hrest : (String.length (slice_from 64 s) <= f)%nat).
    { unfold slice_from. rewrite substring_from_length. lia. }
    destruct (IH _ Hrest) as [IH1 IH2].
    assert (Hhd : String.length (slice 0 64 s)
                  = Nat.min 64 (String.length s)).
    { unfold slice. rewrite Nat.sub_0_r. apply substring_0_length. }
    split.
    + constructor; [rewrite Hhd; lia | exact IH1].
    + cbn [removelast].
      destruct (chunks64 f (slice_from 64 s)) as [| x l] eqn:Ec;
        [constructor|].
      constructor; [|exact IH2].
      rewrite Hhd.
      assert (Hne : slice_from 64 s <> "").
      { intros Hs. rewrite Hs in Ec. destruct f; discriminate. }
      assert (Hlen : String.length (slice_from 64 s)
                     = (String.length s - 64)%nat)
        by (unfold slice_from; apply substring_from_length).
      destruct (slice_from 64 s); [congruence|]. cbn in Hlen. lia.
Qed.

(** X1. [extractParams] cuts the calldata after the 10-character selector
    into words without losing or reordering a character: the words joined
    give back [data.slice(10)]; every word has between 1 and 64 characters,
    and every word but the last has exactly 64; calldata of at most 10
    characters, and no other, gives no word at all. *)
Theorem extractParams_round_trip (data : string) :
  join "" (extractParams data) = slice_from 10 data /\
  Forall (fun p => (1 <= String.length p <= 64)%nat) (extractParams data) /\
  Forall (fun p => String.length p = 64%nat) (removelast (extractParams data)) /\
  (extractParams data = [] <-> (String.length data <= 10)%nat).
Proof.
  unfold extractParams.
  destruct (String.length data <=? 10)%nat eqn:E.
  - apply Nat.leb_le in E.
    split; [|split; [constructor|split; [constructor|tauto]]].
    unfold slice_from.
    replace (String.length data - 10)%nat with 0%nat by lia.
    cbn [join]. clear E. generalize 10%nat as n.
    induction data as [| c r IH]; intros [| n]; cbn; auto.
  - cbv zeta. apply Nat.leb_gt in E.
    split; [apply chunks64_join; lia|].
    split; [apply chunks64_sizes; lia|].
    split; [apply chunks64_sizes; lia|].
    assert (Hlen : String.length (slice_from 10 data)
                   = (String.length data - 10)%nat)
      by (unfold slice_from; apply substring_from_length).
    split; [|lia].
    intros Hnil. exfalso.
    destruct (slice_from 10 data) as [| c r] eqn:Es; [cbn in Hlen; lia|].
    cbn in Hnil. discriminate.
Qed.

(** ** decodeAddress *)

(** X2. The address the decoder reads from a 32-byte word (64 hexadecimal
    digits) is a well-formed Ethereum address in the sense of the request
    validation, and it is in lower case. *)
Theorem decodeAddress_well_formed (param : string) :
  String.length param = 64%nat ->
  string_forallb is_hex_digit param = true ->
  isValidEthereumAddress (decodeAddress param) = true /\
  toLowerCase (decodeAddress param) = decodeAddress param.
Proof.
  intros Hl Hh. unfold decodeAddress, slice_from. rewrite Hl.
  split.
  - cbn [append isValidEthereumAddress].
    rewrite toLowerCase_length, hex_lower.
    rewrite <- Hl at 1. rewrite substring_from_length, Hl.
    cbn [Nat.sub Nat.eqb andb]. now apply substring_forallb.
  - cbn [append toLowerCase]. now rewrite toLowerCase_idem.
Qed.

Lemma decodeAddress_well_formed_witness :
  isValidEthereumAddress
    (decodeAddress
       "000000000000000000000000AbCdEf1111111111111111111111111111111111")
  = true /\
  toLowerCase
    (decodeAddress
       "000000000000000000000000AbCdEf1111111111111111111111111111111111")
  = decodeAddress
      "000000000000000000000000AbCdEf1111111111111111111111111111111111".
Proof.
  apply decodeAddress_well_formed; reflexivity.
Defined.

(** ** decodeSelector *)

(** X3. The selector lookup ignores the letter case of the calldata, needs
    at least ten characters, and only ever answers with an entry of the
    selector table. *)
Theorem decodeSelector_case_insensitive (data : string) :
  decodeSelector (toLowerCase data) = decodeSelector data /\
  ((String.length data < 10)%nat -> decodeSelector data = None) /\
  (forall si, decodeSelector data = Some si ->
              In (toLowerCase (slice 0 10 data), si) KNOWN_SELECTORS).
Proof.
  unfold decodeSelector. rewrite toLowerCase_length.
  repeat split.
  - destruct (String.length data <? 10)%nat; [reflexivity|].
    unfold slice. now rewrite <- toLowerCase_substring, toLowerCase_idem.
  - intros H. apply Nat.ltb_lt in H. now rewrite H.
  - intros si. destruct (String.length data <? 10)%nat; [discriminate|].
    generalize (toLowerCase (slice 0 10 data)) as k.
    generalize KNOWN_SELECTORS as l.
    induction l as [| [k' v] r IH]; intros k H; [discriminate|].
    cbn [lookup] in H. destruct (String.eqb k k') eqn:E.
    + apply String.eqb_eq in E. injection H as <-. subst. now left.
    + right. now apply IH.
Qed.

(** ** isInfiniteApproval *)

(** X4. On a word of hexadecimal digits the approval amount counts as
    infinite exactly when its value is above [2^128] (the comparison with
    the all-[f] word adds nothing, and [2^128] itself is not infinite); a
    [0x] prefix makes no difference. *)
Theorem isInfiniteApproval_threshold (word : string) :
  word <> "" ->
  string_forallb is_hex_digit word = true ->
  isInfiniteApproval word = (2 ^ 128 <? parse_prefix 16 word 0) /\
  isInfiniteApproval ("0x" ++ word) = isInfiniteApproval word.
Proof.
  intros Hne Hhex.
  assert (Hne' : toLowerCase word <> "").
  { intros E. apply (f_equal String.length) in E.
    rewrite toLowerCase_length in E. destruct word; [congruence | discriminate]. }
  assert (H1 : isInfiniteApproval word = (2 ^ 128 <? parse_prefix 16 word 0)).
  { unfold isInfiniteApproval. rewrite (strip0x_hex word Hhex).
    destruct (String.eqb (toLowerCase word) MAX_UINT256) eqn:E.
    - apply String.eqb_eq in E.
      rewrite <- (parse_prefix_lower word), E. reflexivity.
    - rewrite StringToBigInt_0x; [| exact Hne' | now rewrite hex_lower].
      now rewrite parse_prefix_lower. }
  split; [exact H1|].
  unfold isInfiniteApproval at 1. cbn [append strip0x].
  unfold isInfiniteApproval. now rewrite (strip0x_hex word Hhex).
Qed.

Lemma isInfiniteApproval_threshold_witness :
  isInfiniteApproval "100000000000000000000000000000000"
  = (2 ^ 128 <? parse_prefix 16 "100000000000000000000000000000000" 0) /\
  isInfiniteApproval ("0x" ++ "100000000000000000000000000000000")
  = isInfiniteApproval "100000000000000000000000000000000".
Proof.
  apply isInfiniteApproval_threshold; [discriminate | reflexivity].
Defined.

(** ** What the request validation gives *)

Lemma validate_to (tx : TransactionRequest) :
  validateTransactionRequest tx = None ->
  isValidEthereumAddress (to tx) = true /\ 0 < chainId tx.
Proof.
  unfold validateTransactionRequest.
  destruct (String.eqb (to tx) ""); [discriminate|].
  destruct (isValidEthereumAddress (to tx)); [|discriminate]. cbn [negb].
  destruct (chainId tx <=? 0) eqn:E; [discriminate|].
  apply Z.leb_gt in E. intros _. now split.
Qed.

Lemma validate_value (tx : TransactionRequest) :
  validateTransactionRequest tx = None ->
  exists v, StringToBigInt (orElse (value tx) "0") = Some v /\ 0 <= v.
Proof.
  unfold validateTransactionRequest.
  destruct (String.eqb (to tx) ""); [discriminate|].
  destruct (negb (isValidEthereumAddress (to tx))); [discriminate|].
  destruct (chainId tx <=? 0); [discriminate|].
  destruct (value tx) as [v|]; cbn [orElse].
  - destruct (StringToBigInt v) as [val|]; [|discriminate].
    destruct (val <? 0) eqn:E; [discriminate|].
    apply Z.ltb_ge in E. intros _. now exists val.
  - intros _. exists 0. split; [reflexivity | lia].
Qed.

Lemma validate_data (tx : TransactionRequest) :
  validateTransactionRequest tx = None ->
  orElse (data tx) "" = "" \/
  exists r, orElse (data tx) "" = "0x" ++ r /\
            string_forallb is_hex_digit r = true.
Proof.
  unfold validateTransactionRequest.
  destruct (String.eqb (to tx) ""); [discriminate|].
  destruct (negb (isValidEthereumAddress (to tx))); [discriminate|].
  destruct (chainId tx <=? 0); [discriminate|].
  destruct (match value tx with
            | Some v => _ | None => None end); [discriminate|].
  destruct (data tx) as [d|]; cbn [orElse]; [|now left].
  destruct (String.eqb d "") eqn:E; cbn [negb andb].
  - apply String.eqb_eq in E. intros _. now left.
  - destruct (is_hex_data d) eqn:H; [|discriminate]. intros _. right.
    unfold is_hex_data in H.
    destruct d as [| a [| b r]]; [discriminate | |].
    { destruct a as [[] [] [] [] [] [] [] []]; discriminate H. }
    destruct a as [[] [] [] [] [] [] [] []]; try discriminate H.
    destruct b as [[] [] [] [] [] [] [] []]; try discriminate H.
    exists r. split; [reflexivity | exact H].
Qed.

(** ** The words of hexadecimal calldata *)

Lemma chunks64_hex (fuel : nat) : forall s : string,
  string_forallb is_hex_digit s = true ->
  Forall (fun p => string_forallb is_hex_digit p = true) (chunks64 fuel s).
Proof.
  induction fuel as [| f IH]; intros s H; [constructor|].
  cbn [chunks64]. destruct s as [| c r] eqn:E; [constructor|].
  rewrite <- E in *. constructor.
  - now apply substring_forallb.
  - apply IH. now apply substring_forallb.
Qed.

Lemma extractParams_hex (r : string) :
  string_forallb is_hex_digit r = true ->
  Forall (fun p => p <> "" /\ string_forallb is_hex_digit p = true)
         (extractParams ("0x" ++ r)).
Proof.
  intros H. unfold extractParams.
  destruct (_ <=? 10)%nat; [constructor|]. cbv zeta.
  set (paramData := slice_from 10 ("0x" ++ r)).
  assert (Hhex : string_forallb is_hex_digit paramData = true).
  { unfold paramData, slice_from.
    cbn [append String.length Nat.sub substring].
    now apply substring_forallb. }
  destruct (chunks64_sizes (String.length paramData) paramData (le_n _))
    as [Hsz _].
  pose proof (chunks64_hex (String.length paramData) paramData Hhex) as Hh.
  rewrite Forall_forall in *. intros p Hp. split; [|now apply Hh].
  specialize (Hsz p Hp). destruct p; [cbn in Hsz; lia | discriminate].
Qed.

Lemma decode_call_total (name : string) (params : list string)
    (d : DecodedTransaction) :
  Forall (fun p => p <> "" /\ string_forallb is_hex_digit p = true) params ->
  exists d' rs, decode_call name params d = Some (d', rs).
Proof.
  intros H. unfold decode_call.
  repeat match goal with
         | |- context [if ?b then _ else _] =>
             lazymatch b with
             | String.eqb _ _ => destruct b
             | Nat.leb _ _ => destruct b eqn:?
             | isInfiniteApproval _ => destruct b
             end
         end; try (eexists; eexists; reflexivity).
  match goal with Hl : (2 <=? _)%nat = true |- _ => apply Nat.leb_le in Hl end.
  assert (Hin : In (nth_param 1 params) params)
    by (unfold nth_param; apply nth_In; lia).
  rewrite Forall_forall in H. destruct (H _ Hin) as [Hne Hhex].
  unfold decodeUint256. rewrite (StringToBigInt_0x _ Hne Hhex).
  destruct (negb _); eexists; eexists; reflexivity.
Qed.

Lemma decode_call_frame (name : string) (params : list string)
    (d d' : DecodedTransaction) (rs : list SecurityReason) :
  decode_call name params d = Some (d', rs) ->
  involvesEth d' = involvesEth d /\ raw d' = raw d /\
  functionName d' = functionName d /\
  has_code "ETH_WITH_CALLDATA" rs = false.
Proof.
  unfold decode_call.
  repeat match goal with
         | |- context [if ?b then _ else _] =>
             lazymatch b with
             | String.eqb _ _ => destruct b
             | Nat.leb _ _ => destruct b
             | isInfiniteApproval _ => destruct b
             end
         end;
    try (intros [= <- <-]; repeat split; reflexivity).
  destruct (decodeUint256 _); [|discriminate].
  destruct (negb _); intros [= <- <-]; repeat split; reflexivity.
Qed.

Lemma push_reason_reasons (r : SecurityReason) (rs : list SecurityReason)
    (c : MiddlewareContext) :
  push_reason r (push_reasons rs c) = push_reasons (rs ++ [r]) c.
Proof. unfold push_reason, push_reasons, set_reasons. cbn. now rewrite <- app_assoc. Qed.

(** ** The transaction decoder *)

Section DecoderFacts.

Variable Baseline : Type.

Lemma transactionDecoder_work_inv (w w' : World Baseline) :
  transactionDecoder_work Baseline w = Ok w' ->
  exists v d rs,
    StringToBigInt (orElse (value (transaction (w_ctx w))) "0") = Some v /\
    w' = set_ctx (set_decoded (Some d) (push_reasons rs (w_ctx w))) w /\
    raw d = transaction (w_ctx w) /\
    has_code "ETH_WITH_CALLDATA" rs
    = (0 <? v)
      && (2 <? String.length (orElse (data (transaction (w_ctx w))) ""))%nat.
Proof.
  unfold transactionDecoder_work.
  set (tx := transaction (w_ctx w)).
  set (dat := orElse (data tx) "").
  destruct (StringToBigInt (orElse (value tx) "0")) as [v|]; [|discriminate].
  set (d1 := match decodeSelector dat with
             | Some si => mkDecoded tx (Some (sel_name si)) None false false
                                    (0 <? v) 0%float
             | None => mkDecoded tx None None false false (0 <? v) 0%float
             end).
  assert (Hd1 : involvesEth d1 = (0 <? v) /\ raw d1 = tx)
    by (unfold d1; destruct (decodeSelector dat); split; reflexivity).
  destruct Hd1 as [Hd1 Hraw1].
  destruct (match decodeSelector dat with
            | Some si => decode_call (sel_name si) (extractParams dat) d1
            | None => Some (d1, [])
            end) as [[d2 rs]|] eqn:Ecall; [|discriminate].
  assert (Hd2 : involvesEth d2 = (0 <? v) /\ raw d2 = tx /\
                has_code "ETH_WITH_CALLDATA" rs = false).
  { destruct (decodeSelector dat).
    - apply decode_call_frame in Ecall as (He & Hr & _ & Hc).
      repeat split; congruence.
    - injection Ecall as <- <-. repeat split; assumption. }
  destruct Hd2 as (Hd2 & Hraw2 & Hrs).
  intros [= <-]. exists v.
  assert (Hshort : (String.eqb dat "" || String.eqb dat "0x") = true ->
                   (2 <? String.length dat)%nat = false).
  { intros H. apply orb_prop in H as [H | H]; apply String.eqb_eq in H;
      rewrite H; reflexivity. }
  destruct (String.eqb dat "" || String.eqb dat "0x") eqn:Enodata.
  - rewrite (Hshort eq_refl). cbn [negb]. rewrite !andb_false_r.
    eexists. exists rs. repeat split; try eassumption.
    destruct (negb (String.eqb (to tx) "")); cbn; assumption.
  - cbn [andb negb]. rewrite Hd2, andb_true_r.
    destruct ((0 <? v) && (2 <? String.length dat)%nat) eqn:Eflag.
    + exists d2, (rs ++ [mkReason "ETH_WITH_CALLDATA"
                   "Transaction sends ETH along with a contract call - verify this is intentional"
                   low src_transaction])%list.
      rewrite push_reason_reasons. repeat split; try assumption.
      unfold has_code. rewrite existsb_app. cbn. apply orb_true_r.
    + exists d2, rs. repeat split; assumption.
Qed.

Lemma transactionDecoder_validated_ok (w : World Baseline) :
  validateTransactionRequest (transaction (w_ctx w)) = None ->
  exists w', transactionDecoder_work Baseline w = Ok w'.
Proof.
  intros Hvalid.
  destruct (validate_value _ Hvalid) as (v & Hv & _).
  unfold transactionDecoder_work. rewrite Hv.
  set (dat := orElse (data (transaction (w_ctx w))) "").
  assert (Htotal : forall d1, exists d' rs,
             match decodeSelector dat with
             | Some si => decode_call (sel_name si) (extractParams dat) d1
             | None => Some (d1, [])
             end = Some (d', rs)).
  { intros d1. destruct (decodeSelector dat); [|now exists d1, []].
    apply decode_call_total.
    destruct (validate_data _ Hvalid) as [H0 | (r & H0 & Hhex)];
      fold dat in H0; rewrite H0.
    - constructor.
    - now apply extractParams_hex. }
  match goal with
  | |- context [match ?x with Some _ => _ | None => Throw _ _ end] =>
      destruct x as [[d2 rs]|] eqn:Ecall
  end.
  - eexists. reflexivity.
  - match type of Ecall with
    | match _ with Some _ => decode_call _ _ ?d1 | None => _ end = _ =>
        destruct (Htotal d1) as (d' & rs & Hd)
    end.
    congruence.
Qed.

(** X5. A request that [validateTransactionRequest] accepts never makes
    the decoder throw: it completes, stores a decoded transaction for that
    request and only appends reasons. *)
Theorem transactionDecoder_accepts_validated (w : World Baseline) :
  validateTransactionRequest (transaction (w_ctx w)) = None ->
  exists d rs,
    transactionDecoder_work Baseline w
    = Ok (set_ctx (set_decoded (Some d) (push_reasons rs (w_ctx w))) w) /\
    raw d = transaction (w_ctx w).
Proof.
  intros Hvalid.
  destruct (transactionDecoder_validated_ok w Hvalid) as [w' E].
  destruct (transactionDecoder_work_inv _ _ E)
    as (_ & d & rs & _ & -> & Hr & _).
  now exists d, rs.
Qed.

(** X6. When the decoder completes it appends the [ETH_WITH_CALLDATA]
    finding exactly when the value is positive and the calldata has more
    than two characters. *)
Theorem transactionDecoder_eth_with_calldata (w w' : World Baseline) (v : Z) :
  StringToBigInt (orElse (value (transaction (w_ctx w))) "0") = Some v ->
  transactionDecoder_work Baseline w = Ok w' ->
  exists added,
    ctx_reasons (w_ctx w') = (ctx_reasons (w_ctx w) ++ added)%list /\
    has_code "ETH_WITH_CALLDATA" added
    = (0 <? v)
      && (2 <? String.length (orElse (data (transaction (w_ctx w))) ""))%nat.
Proof.
  intros Hv H.
  destruct (transactionDecoder_work_inv _ _ H) as (v' & d & rs & Hv' & -> & _ & Hc).
  exists rs. split; [reflexivity|]. congruence.
Qed.

End DecoderFacts.

Lemma transactionDecoder_accepts_validated_witness :
  exists d rs,
    transactionDecoder_work unit max_approval_world
    = Ok (set_ctx (set_decoded (Some d)
                     (push_reasons rs (w_ctx max_approval_world)))
                  max_approval_world) /\
    raw d = transaction (w_ctx max_approval_world).
Proof.
  apply (transactionDecoder_accepts_validated unit max_approval_world).
  reflexivity.
Defined.

Lemma transactionDecoder_eth_with_calldata_witness :
  exists w' added,
    transactionDecoder_work unit paid_approval_world = Ok w' /\
    ctx_reasons (w_ctx w') = added /\
    has_code "ETH_WITH_CALLDATA" added = true.
Proof.
  eexists.
  destruct (transactionDecoder_eth_with_calldata unit paid_approval_world _ 1
              eq_refl eq_refl) as (added & Hadd & Hcode).
  exists added. split; [reflexivity|]. split; [exact Hadd | exact Hcode].
Defined.

(** ** The address checker *)

(** X7. [normalizeAddress] yields a canonical form: applying it twice
    changes nothing, the result starts with [0x] and is in lower case, and
    the letter case of the input does not matter. *)
Theorem normalizeAddress_canonical (address : string) :
  normalizeAddress (normalizeAddress address) = normalizeAddress address /\
  startsWith "0x" (normalizeAddress address) = true /\
  toLowerCase (normalizeAddress address) = normalizeAddress address /\
  normalizeAddress (toLowerCase address) = normalizeAddress address.
Proof.
  unfold normalizeAddress. rewrite !toLowerCase_idem.
  destruct (startsWith "0x" (toLowerCase address)) eqn:E.
  - rewrite !toLowerCase_idem, E. repeat split; try reflexivity; assumption.
  - cbn [append toLowerCase]. change (lower_char "0") with "0"%char.
    change (lower_char "x") with "x"%char.
    rewrite !toLowerCase_idem.
    assert (Hp : startsWith "0x" (String "0" (String "x" (toLowerCase address)))
                 = true)
      by (unfold startsWith; cbn; destruct (toLowerCase address); reflexivity).
    rewrite Hp. repeat split; reflexivity.
Qed.

Lemma min100_add100_grid :
  forallb (fun i => PrimFloat.Leibniz.eqb
                      (Math_min 100 (of_uint63 i + 100)) 100%float)
          grid_axis = true.
Proof. vm_compute. reflexivity. Qed.

Lemma min100_add0_grid :
  forallb (fun i => PrimFloat.Leibniz.eqb
                      (Math_min 100 (of_uint63 i + 0)) (of_uint63 i))
          grid_axis = true.
Proof. vm_compute. reflexivity. Qed.

Lemma min100_add100 (z : Z) :
  0 <= z <= 100 -> Math_min 100 (num z + 100) = 100%float.
Proof.
  intros H. rewrite num_nonneg by lia.
  pose proof min100_add100_grid as G. rewrite forallb_forall in G.
  apply FloatAxioms.Leibniz.eqb_spec, G, in_grid_axis, H.
Qed.

Lemma min100_add0 (z : Z) :
  0 <= z <= 100 -> Math_min 100 (num z + 0) = num z.
Proof.
  intros H. rewrite num_nonneg by lia.
  pose proof min100_add0_grid as G. rewrite forallb_forall in G.
  apply FloatAxioms.Leibniz.eqb_spec, G, in_grid_axis, H.
Qed.

Section AddressFacts.

Variable Baseline : Type.
Variable getReputation :
  option (string -> Z -> ProviderResult AddressReputation).

(** X8. A target on the denylist (compared in canonical form) gets the
    critical [DENYLISTED_ADDRESS] finding and a transaction score of 100,
    whether or not it is also on an allowlist and whatever the reputation
    provider answers. *)
Theorem addressChecker_denylisted (w : World Baseline) (addr : string) (z : Z) :
  to (transaction (w_ctx w)) <> "" ->
  In addr (deny_addresses (denylists (policy (w_ctx w)))) ->
  normalizeAddress addr = normalizeAddress (to (transaction (w_ctx w))) ->
  score_on_grid (sc_transaction (riskScores (w_ctx w))) z ->
  exists w',
    addressChecker_work Baseline getReputation w = Ok w' /\
    In (mkReason "DENYLISTED_ADDRESS"
          ("Target address " ++ normalizeAddress (to (transaction (w_ctx w)))
           ++ " is on the denylist")
          critical src_address)
       (ctx_reasons (w_ctx w')) /\
    sc_transaction (riskScores (w_ctx w')) = Some 100%float.
Proof.
  intros Hto Hin Hnorm [Hz Hprior]. unfold addressChecker_work.
  apply String.eqb_neq in Hto. rewrite Hto.
  assert (Hden : existsb
            (fun a => String.eqb (normalizeAddress a)
                        (normalizeAddress (to (transaction (w_ctx w)))))
            (deny_addresses (denylists (policy (w_ctx w)))) = true).
  { apply existsb_exists. exists addr. split; [exact Hin|].
    now apply String.eqb_eq. }
  rewrite Hden.
  set (r := mkReason "DENYLISTED_ADDRESS" _ critical src_address).
  match goal with
  | |- context [set_riskScores _ ?c3] => set (ctx3 := c3)
  end.
  assert (H3 : riskScores ctx3 = riskScores (w_ctx w) /\
               In r (ctx_reasons ctx3)).
  { unfold ctx3. destruct getReputation as [get|].
    - destruct (get _ _) as [|[rep|]]; cbn; split; try reflexivity;
        rewrite ?in_app_iff; cbn; auto 6.
    - cbn. split; [reflexivity|]. apply in_app_iff. cbn. auto. }
  destruct H3 as [Hsc Hr].
  eexists. split; [reflexivity|]. cbn. split; [exact Hr|].
  rewrite Hsc, Hprior. f_equal. now apply min100_add100.
Qed.

(** X9. A target on an allowlist and not on the denylist adds nothing to
    the transaction score, whatever the reputation provider reports, and is
    never reported for low activity. *)
Theorem addressChecker_allowlisted (w : World Baseline) (addr : string) (z : Z) :
  to (transaction (w_ctx w)) <> "" ->
  (forall a, In a (deny_addresses (denylists (policy (w_ctx w)))) ->
             normalizeAddress a <> normalizeAddress (to (transaction (w_ctx w)))) ->
  In addr (allow_addresses (allowlists (policy (w_ctx w))) ++
           allow_contracts (allowlists (policy (w_ctx w)))) ->
  normalizeAddress addr = normalizeAddress (to (transaction (w_ctx w))) ->
  score_on_grid (sc_transaction (riskScores (w_ctx w))) z ->
  exists w' added,
    addressChecker_work Baseline getReputation w = Ok w' /\
    ctx_reasons (w_ctx w') = (ctx_reasons (w_ctx w) ++ added)%list /\
    has_code "LOW_ACTIVITY_ADDRESS" added = false /\
    has_code "DENYLISTED_ADDRESS" added = false /\
    sc_transaction (riskScores (w_ctx w')) = Some (num z).
Proof.
  intros Hto Hnot Hin Hnorm [Hz Hprior]. unfold addressChecker_work.
  apply String.eqb_neq in Hto. rewrite Hto.
  set (target := normalizeAddress (to (transaction (w_ctx w)))) in *.
  assert (Hden : existsb (fun a => String.eqb (normalizeAddress a) target)
            (deny_addresses (denylists (policy (w_ctx w)))) = false).
  { apply not_true_is_false. intros H. apply existsb_exists in H as (a & Ha & E).
    apply String.eqb_eq in E. exact (Hnot a Ha E). }
  assert (Hall : existsb (fun a => String.eqb (normalizeAddress a) target)
                   (allow_addresses (allowlists (policy (w_ctx w))))
                 || existsb (fun a => String.eqb (normalizeAddress a) target)
                      (allow_contracts (allowlists (policy (w_ctx w))))
                 = true).
  { rewrite <- existsb_app. apply existsb_exists. exists addr.
    split; [exact Hin | now apply String.eqb_eq]. }
  rewrite Hden, Hall.
  match goal with
  | |- context [set_riskScores _ ?c3] => set (ctx3 := c3)
  end.
  assert (H3 : riskScores ctx3 = riskScores (w_ctx w) /\
               exists added,
                 ctx_reasons ctx3 = (ctx_reasons (w_ctx w) ++ added)%list /\
                 has_code "LOW_ACTIVITY_ADDRESS" added = false /\
                 has_code "DENYLISTED_ADDRESS" added = false).
  { unfold ctx3. destruct getReputation as [get|].
    - destruct (get _ _) as [|[rep|]]; cbn; (split; [reflexivity|]).
      + eexists. split; [reflexivity|]. split; reflexivity.
      + eexists. split; [reflexivity|].
        unfold reputation_reasons, has_code. cbn [negb].
        rewrite andb_false_r, !existsb_app.
        assert (Hmap : forall c l,
                   String.eqb "ADDRESS_RISK_FACTOR" c = false ->
                   existsb (fun r => String.eqb (code r) c)
                     (map (fun factor =>
                             mkReason "ADDRESS_RISK_FACTOR" factor high
                                      src_address) l) = false).
        { intros c l Hc. induction l as [| x l IH]; [reflexivity|].
          cbn [map existsb code]. now rewrite Hc, IH. }
        rewrite !Hmap by reflexivity.
        destruct (ageDays rep <? 7); split; reflexivity.
      + exists (@nil SecurityReason). rewrite List.app_nil_r. repeat split; reflexivity.
    - cbn. split; [reflexivity|]. exists (@nil SecurityReason). rewrite List.app_nil_r. repeat split; reflexivity. }
  destruct H3 as (Hsc & added & Hadd & Hlow & Hdeny).
  eexists. exists added. split; [reflexivity|]. cbn.
  split; [exact Hadd|]. split; [exact Hlow|]. split; [exact Hdeny|].
  rewrite Hsc, Hprior. f_equal. now apply min100_add0.
Qed.

End AddressFacts.

Lemma addressChecker_denylisted_witness :
  exists w',
    addressChecker_work unit None (listed_world [ADDRESS_1_BARE] [ADDRESS_1])
    = Ok w' /\
    has_code "DENYLISTED_ADDRESS" (ctx_reasons (w_ctx w')) = true /\
    sc_transaction (riskScores (w_ctx w')) = Some 100%float.
Proof.
  destruct (addressChecker_denylisted unit None
              (listed_world [ADDRESS_1_BARE] [ADDRESS_1]) ADDRESS_1_BARE 0)
    as (w' & Hrun & Hin & Hscore).
  - discriminate.
  - left. reflexivity.
  - reflexivity.
  - split; [lia | reflexivity].
  - exists w'. split; [exact Hrun|]. split; [|exact Hscore].
    unfold has_code. apply existsb_exists. eexists. split; [exact Hin|].
    reflexivity.
Defined.

Lemma addressChecker_allowlisted_witness :
  exists w',
    addressChecker_work unit None (listed_world [] [ADDRESS_1_BARE]) = Ok w' /\
    sc_transaction (riskScores (w_ctx w')) = Some (num 0).
Proof.
  destruct (addressChecker_allowlisted unit None
              (listed_world [] [ADDRESS_1_BARE]) ADDRESS_1_BARE 0)
    as (w' & added & Hrun & _ & _ & _ & Hscore).
  - discriminate.
  - intros a [].
  - left. reflexivity.
  - reflexivity.
  - split; [lia | reflexivity].
  - exists w'. split; [exact Hrun | exact Hscore].
Defined.

(** ** The context analyzer *)

Lemma lastn_app_exact {A} (older recent : list A) (n : nat) :
  List.length recent = n -> lastn n (older ++ recent) = recent.
Proof.
  intros H. unfold lastn. rewrite List.length_app, H.
  replace (List.length older + n - n)%nat with (List.length older) by lia.
  rewrite skipn_app, skipn_all, Nat.sub_diag. reflexivity.
Qed.

(** X10. The coherence check reads the five most recent messages only:
    whatever was said before them does not change its answer. Without any
    message it reports nothing. *)
Theorem checkCoherence_last_five (older recent : list Message)
    (src : ContextSource) (chain : option (list ToolCall)) :
  List.length recent = 5%nat ->
  checkCoherence (mkConversation (older ++ recent) src chain)
  = checkCoherence (mkConversation recent src chain) /\
  checkCoherence (mkConversation [] src chain) = None.
Proof.
  intros H. split; [|reflexivity]. unfold checkCoherence.
  cbn [messages]. rewrite (lastn_app_exact older recent 5 H).
  assert (Hr : lastn 5 recent = recent)
    by (apply (lastn_app_exact [] recent 5 H)).
  rewrite Hr.
  destruct recent as [| m r]; [discriminate|].
  destruct (older ++ m :: r)%list eqn:E; [|reflexivity].
  destruct older; discriminate.
Qed.

Lemma checkCoherence_last_five_witness :
  checkCoherence
    (mkConversation
       ([mkMessage "user" "please swap my tokens"]
        ++ [mkMessage "user" "a"; mkMessage "assistant" "b";
            mkMessage "user" "c"; mkMessage "assistant" "d";
            mkMessage "user" "e"])
       (mkSource st_user "direct" trust_high) None)
  = checkCoherence
      (mkConversation
         [mkMessage "user" "a"; mkMessage "assistant" "b";
          mkMessage "user" "c"; mkMessage "assistant" "d";
          mkMessage "user" "e"]
         (mkSource st_user "direct" trust_high) None).
Proof.
  exact (proj1 (checkCoherence_last_five
                  [mkMessage "user" "please swap my tokens"]
                  [mkMessage "user" "a"; mkMessage "assistant" "b";
                   mkMessage "user" "c"; mkMessage "assistant" "d";
                   mkMessage "user" "e"]
                  (mkSource st_user "direct" trust_high) None eq_refl)).
Defined.

(** X11. [detectEscalation] compares the current value with the oldest
    sample still within the window, not with the previous one: a finding
    needs such a sample with a positive value, and is made whenever the
    current value is at least five times that sample's value. *)
Theorem detectEscalation_oldest_sample (tracker : list EscalationSample)
    (now_ms : Z) (currentValueUsd : Q) :
  (forall r,
     snd (detectEscalation tracker now_ms currentValueUsd) = Some r ->
     exists oldest rest,
       in_window now_ms tracker = oldest :: rest /\
       (0 < valueUsd oldest)%Q /\
       code r = "VALUE_ESCALATION" /\ severity r = high /\
       source r = src_context) /\
  (forall oldest rest,
     in_window now_ms tracker = oldest :: rest ->
     (0 < valueUsd oldest)%Q ->
     (5 * valueUsd oldest <= currentValueUsd)%Q ->
     exists r, snd (detectEscalation tracker now_ms currentValueUsd) = Some r).
Proof.
  unfold detectEscalation. fold (in_window now_ms tracker).
  destruct (in_window now_ms tracker) as [| oldest rest] eqn:E.
  - split; [cbn; discriminate | discriminate].
  - assert (Hlen : (List.length ((oldest :: rest)
                                 ++ [mkSample currentValueUsd now_ms])
                    <? 2)%nat = false).
    { apply Nat.ltb_ge. rewrite List.length_app. cbn [List.length]. lia. }
    rewrite Hlen. cbn [app hd].
    assert (Hlast : last (oldest :: rest ++ [mkSample currentValueUsd now_ms])
                         (mkSample currentValueUsd now_ms)
                    = mkSample currentValueUsd now_ms).
    { change (oldest :: rest ++ [mkSample currentValueUsd now_ms])%list
        with ((oldest :: rest) ++ [mkSample currentValueUsd now_ms])%list.
      apply last_last. }
    rewrite Hlast. cbn [valueUsd sample_timestamp].
    split.
    + intros r. unfold Qltb.
      destruct (Qle_bool (valueUsd oldest) 0) eqn:Epos; cbn [negb snd];
        [discriminate|].
      destruct (Qle_bool ESCALATION_THRESHOLD _); cbn [snd]; [|discriminate].
      intros [= <-]. exists oldest, rest. repeat split.
      apply Qnot_le_lt. intros Hle. apply Qle_bool_iff in Hle. congruence.
    + intros o r [= <- <-] Hpos Hratio. unfold Qltb.
      assert (Epos : Qle_bool (valueUsd oldest) 0 = false).
      { apply not_true_is_false. intros Hle. apply Qle_bool_iff in Hle.
        apply (Qlt_irrefl 0). eapply Qlt_le_trans; eassumption. }
      rewrite Epos. cbn [negb].
      assert (Eratio : Qle_bool ESCALATION_THRESHOLD
                         (currentValueUsd / valueUsd oldest) = true).
      { apply Qle_bool_iff. unfold ESCALATION_THRESHOLD.
        apply Qle_shift_div_l; assumption. }
      rewrite Eratio. eexists. reflexivity.
Qed.

(** ** Tier resolution *)

Lemma last_some_in {A} (l : list A) (x : A) :
  last (map Some l) None = Some x -> In x l.
Proof.
  induction l as [| y r IH]; [discriminate|].
  cbn [map last]. destruct r as [| z r'].
  - intros [= <-]. now left.
  - intros H. right. apply IH. exact H.
Qed.

Lemma last_sorted_lowest (l : list SecurityTierConfig)
    (t : SecurityTierConfig) :
  StronglySorted min_ge l ->
  last (map Some l) None = Some t ->
  forall t', In t' l -> (tier_min t <= tier_min t')%Q.
Proof.
  induction 1 as [| y r Hr IH Hy]; [discriminate|].
  cbn [map last]. destruct r as [| z r'].
  - intros [= <-] t' [<- | []]. apply Qle_refl.
  - intros H t' [<- | Hin].
    + rewrite Forall_forall in Hy. apply Hy. now apply last_some_in.
    + now apply IH.
Qed.

(** X12. [determineTier] answers [undefined] only for a policy without
    tiers; otherwise it answers with a tier of the policy. *)
Theorem determineTier_defined (policy : SecurityPolicy) (v : float) (a : string)
    (f : option string) :
  (determineTier policy v a f = None <-> tiers policy = []) /\
  (forall t, determineTier policy v a f = Some t -> In t (tiers policy)).
Proof.
  unfold determineTier.
  pose proof (sortTiers_perm (tiers policy)) as Hp.
  split; [split|].
  - destruct (first_match v a f (sortTiers (tiers policy))); [discriminate|].
    destruct (sortTiers (tiers policy)) as [| x r] eqn:E.
    + intros _. now apply Permutation_sym, Permutation_nil in Hp.
    + intros H. exfalso. clear -H. revert x H.
      induction r as [| y r IH]; intros x H; [discriminate|].
      cbn [map last] in *. exact (IH y H).
  - intros ->. reflexivity.
  - intros t H. eapply Permutation_in; [apply Permutation_sym, Hp|].
    destruct (first_match v a f (sortTiers (tiers policy))) as [t0|] eqn:E.
    + injection H as <-. rewrite first_match_find in E.
      now apply find_some in E.
    + now apply last_some_in.
Qed.

(** X13. Which tier [determineTier] returns: when some tier of the policy
    matches the request (by address, function or value range) the result is
    a matching tier and no matching tier has a higher minimum; when none
    matches, the result is a tier with the lowest minimum of the policy. *)
Theorem determineTier_resolution (policy : SecurityPolicy) (v : float)
    (a : string) (f : option string) (t : SecurityTierConfig) :
  determineTier policy v a f = Some t ->
  ((exists t', In t' (tiers policy) /\ tier_matches v a f t' = true) ->
   tier_matches v a f t = true /\
   forall t', In t' (tiers policy) -> tier_matches v a f t' = true ->
              (tier_min t' <= tier_min t)%Q) /\
  ((forall t', In t' (tiers policy) -> tier_matches v a f t' = false) ->
   forall t', In t' (tiers policy) -> (tier_min t <= tier_min t')%Q).
Proof.
  intros Hd. split.
  - intros (t0 & Hin0 & Hm0).
    destruct (determineTier_highest_match policy v a f t t0 Hd Hin0 Hm0)
      as (_ & Hm & _).
    split; [exact Hm|]. intros t' Hin' Hm'.
    now destruct (determineTier_highest_match policy v a f t t' Hd Hin' Hm')
      as (_ & _ & Hle).
  - intros Hnone t' Hin'. unfold determineTier in Hd.
    pose proof (sortTiers_perm (tiers policy)) as Hp.
    destruct (first_match v a f (sortTiers (tiers policy))) as [t0|] eqn:E.
    + rewrite first_match_find in E. apply find_some in E as [Hin0 Hm0].
      apply (Permutation_in _ (Permutation_sym Hp)) in Hin0.
      rewrite (Hnone _ Hin0) in Hm0. discriminate.
    + eapply last_sorted_lowest; [apply sortTiers_sorted | exact Hd |].
      eapply Permutation_in; [exact Hp | exact Hin'].
Qed.

Lemma determineTier_resolution_witness :
  tier_matches 50 ADDRESS_1 None
    (sample_tier "tier-1-copilot" copilot (Some 1%Q) (Some 100%Q) None None)
  = true /\
  forall t', In t' documented_tiers -> tier_matches 50 ADDRESS_1 None t' = true ->
             (tier_min t' <= 1)%Q.
Proof.
  refine (proj1 (determineTier_resolution (cfg_policy sample_config) 50
                   ADDRESS_1 None
                   (sample_tier "tier-1-copilot" copilot (Some 1%Q)
                                (Some 100%Q) None None)
                   eq_refl) _).
  eexists. split; [right; left; reflexivity | reflexivity].
Defined.

(** ** The policy engine *)

Section PolicyFacts.

Variable Baseline : Type.

Ltac run_engine Ht Hv Hl :=
  unfold policyEngine; rewrite Ht, Hv, Hl.

(** X14. Under a tier whose mode is not audit, a critical finding forces
    the decision [block] with required action [human_approval], whatever
    the scores are. *)
Theorem policyEngine_critical_blocks (w : World Baseline)
    (next : Next Baseline) (t : SecurityTierConfig) (txValue maxTx : Z) :
  tier (w_ctx w) = Some t ->
  mode (enforcement t) <> audit ->
  has_critical (ctx_reasons (w_ctx w)) = true ->
  StringToBigInt (orElse (value (transaction (w_ctx w))) "0") = Some txValue ->
  StringToBigInt (maxTransactionValueWei (limits (policy (w_ctx w))))
  = Some maxTx ->
  exists w' v,
    policyEngine Baseline w next = Ok w' /\
    md_verdict (metadata (w_ctx w')) = Some v /\
    decision v = block /\ requiredAction v = Some human_approval.
Proof.
  intros Ht Hm Hc Hv Hl. run_engine Ht Hv Hl.
  unfold has_critical in Hc. rewrite Hc.
  assert (Hna : negb (EnforcementMode_eqb (mode (enforcement t)) audit) = true)
    by (destruct (mode (enforcement t)); [congruence | reflexivity..]).
  rewrite Hna. cbn [andb].
  destruct (mode_decision (enforcement t) _) as [[d0 a0] delay0].
  cbn [Decision_eqb andb]. rewrite ?andb_true_r, ?andb_false_r.
  destruct (maxTx <? txValue); eexists; eexists;
    (split; [reflexivity|]); cbn; repeat split.
Qed.

(** X15. Under a fortress tier every evaluation is blocked, whatever the
    scores and findings are, and the verdict carries the tier's time lock
    when it is set and not zero. *)
Theorem policyEngine_fortress_blocks (w : World Baseline)
    (next : Next Baseline) (t : SecurityTierConfig) (txValue maxTx : Z) :
  tier (w_ctx w) = Some t ->
  mode (enforcement t) = fortress ->
  StringToBigInt (orElse (value (transaction (w_ctx w))) "0") = Some txValue ->
  StringToBigInt (maxTransactionValueWei (limits (policy (w_ctx w))))
  = Some maxTx ->
  exists w' v,
    policyEngine Baseline w next = Ok w' /\
    md_verdict (metadata (w_ctx w')) = Some v /\
    decision v = block /\
    delaySeconds v
    = (if truthy_seconds (timeLockSeconds (enforcement t))
       then timeLockSeconds (enforcement t) else None).
Proof.
  intros Ht Hm Hv Hl. run_engine Ht Hv Hl.
  unfold mode_decision. rewrite Hm. cbn [EnforcementMode_eqb negb].
  rewrite !andb_true_r.
  destruct (truthy_seconds _);
    destruct (existsb _ (ctx_reasons (w_ctx w)));
    cbn [Decision_eqb andb];
    rewrite ?andb_false_r;
    destruct (maxTx <? txValue); eexists; eexists;
    (split; [reflexivity|]); cbn; repeat split.
Qed.

(** X16. Under a copilot tier the decision is [block] exactly when there is
    a critical finding or the value exceeds the per-transaction limit; the
    score alone never blocks. *)
Theorem policyEngine_copilot_block (w : World Baseline)
    (next : Next Baseline) (t : SecurityTierConfig) (txValue maxTx : Z) :
  tier (w_ctx w) = Some t ->
  mode (enforcement t) = copilot ->
  StringToBigInt (orElse (value (transaction (w_ctx w))) "0") = Some txValue ->
  StringToBigInt (maxTransactionValueWei (limits (policy (w_ctx w))))
  = Some maxTx ->
  exists w' v,
    policyEngine Baseline w next = Ok w' /\
    md_verdict (metadata (w_ctx w')) = Some v /\
    (decision v = block <->
     has_critical (ctx_reasons (w_ctx w)) = true \/ maxTx < txValue).
Proof.
  intros Ht Hm Hv Hl. run_engine Ht Hv Hl.
  unfold mode_decision, has_critical. rewrite Hm.
  cbn [EnforcementMode_eqb negb]. rewrite !andb_true_r.
  set (hc := existsb (fun r => Severity_eqb (severity r) critical)
                     (ctx_reasons (w_ctx w))).
  set (hh := existsb (fun r => ReasonSource_eqb (source r) src_context
                               && (Severity_eqb (severity r) high
                                   || Severity_eqb (severity r) critical))
                     (ctx_reasons (w_ctx w))).
  destruct (50 <? _)%float; destruct hc; destruct hh;
    cbn [Decision_eqb andb];
    (destruct (maxTx <? txValue) eqn:E;
     [apply Z.ltb_lt in E | apply Z.ltb_ge in E]);
    eexists; eexists; (split; [reflexivity|]); (split; [reflexivity|]);
    cbn; split; try (intros [H | H]); try discriminate; try lia; auto.
Qed.

(** X17. Without a resolved tier the findings have no influence on the
    decision, critical ones included: two evaluations that agree on the
    composite score, the value and the per-transaction limit get the same
    decision, under the tier id [unknown]. *)
Theorem policyEngine_without_tier (w1 w2 w1' w2' : World Baseline)
    (next1 next2 : Next Baseline) (v1 v2 : SecurityVerdict) :
  tier (w_ctx w1) = None ->
  tier (w_ctx w2) = None ->
  sc_composite (riskScores (w_ctx w1)) = sc_composite (riskScores (w_ctx w2)) ->
  value (transaction (w_ctx w1)) = value (transaction (w_ctx w2)) ->
  maxTransactionValueWei (limits (policy (w_ctx w1)))
  = maxTransactionValueWei (limits (policy (w_ctx w2))) ->
  policyEngine Baseline w1 next1 = Ok w1' ->
  md_verdict (metadata (w_ctx w1')) = Some v1 ->
  policyEngine Baseline w2 next2 = Ok w2' ->
  md_verdict (metadata (w_ctx w2')) = Some v2 ->
  decision v1 = decision v2 /\ tierId v1 = "unknown" /\ tierId v2 = "unknown".
Proof.
  intros Ht1 Ht2 Hc Hv Hl. unfold policyEngine.
  rewrite Ht1, Ht2, Hc, Hv, Hl. cbn [rs_composite].
  destruct (70 <? _)%float; [|destruct (30 <? _)%float];
    cbv beta iota zeta;
    (destruct (StringToBigInt (orElse (value (transaction (w_ctx w2))) "0"))
       as [txValue|]; [|discriminate]);
    (destruct (StringToBigInt
                 (maxTransactionValueWei (limits (policy (w_ctx w2)))))
       as [maxTx|]; [|discriminate]);
    destruct (maxTx <? txValue);
    intros [= <-] E1 [= <-] E2; cbn in E1, E2;
    injection E1 as <-; injection E2 as <-; repeat split.
Qed.

(** X18. Under a tier whose mode is not audit, a context finding of
    severity high or critical is never answered with [approve]. *)
Theorem policyEngine_high_context_not_approved (w : World Baseline)
    (next : Next Baseline) (t : SecurityTierConfig) (txValue maxTx : Z) :
  tier (w_ctx w) = Some t ->
  mode (enforcement t) <> audit ->
  has_high_context (ctx_reasons (w_ctx w)) = true ->
  StringToBigInt (orElse (value (transaction (w_ctx w))) "0") = Some txValue ->
  StringToBigInt (maxTransactionValueWei (limits (policy (w_ctx w))))
  = Some maxTx ->
  exists w' v,
    policyEngine Baseline w next = Ok w' /\
    md_verdict (metadata (w_ctx w')) = Some v /\
    decision v <> approve.
Proof.
  intros Ht Hm Hc Hv Hl. run_engine Ht Hv Hl.
  unfold has_high_context in Hc. rewrite Hc.
  assert (Hna : negb (EnforcementMode_eqb (mode (enforcement t)) audit) = true)
    by (destruct (mode (enforcement t)); [congruence | reflexivity..]).
  rewrite Hna. rewrite !andb_true_r. cbn [andb].
  destruct (mode_decision (enforcement t) _) as [[d0 a0] delay0].
  set (hc := existsb (fun r => Severity_eqb (severity r) critical)
                     (ctx_reasons (w_ctx w))).
  destruct hc; destruct (maxTx <? txValue); try destruct d0;
    cbn [Decision_eqb];
    eexists; eexists; (split; [reflexivity|]); (split; [reflexivity|]);
    cbn; discriminate.
Qed.

End PolicyFacts.

Lemma policyEngine_critical_blocks_witness :
  exists w' v,
    policyEngine unit (engine_world (Some copilot_tier) [untrusted_finding] 0)
                 (fun w => Ok w) = Ok w' /\
    md_verdict (metadata (w_ctx w')) = Some v /\
    decision v = block /\ requiredAction v = Some human_approval.
Proof.
  apply (policyEngine_critical_blocks unit _ _ copilot_tier 1
           100000000000000000000); try reflexivity.
  discriminate.
Defined.

Lemma policyEngine_fortress_blocks_witness :
  exists w' v,
    policyEngine unit (engine_world (Some fortress_tier) [] 0)
                 (fun w => Ok w) = Ok w' /\
    md_verdict (metadata (w_ctx w')) = Some v /\
    decision v = block /\ delaySeconds v = Some 900.
Proof.
  apply (policyEngine_fortress_blocks unit _ _ fortress_tier 1
           100000000000000000000); reflexivity.
Defined.

Lemma policyEngine_copilot_block_witness :
  exists w' v,
    policyEngine unit (engine_world (Some copilot_tier) [] 100)
                 (fun w => Ok w) = Ok w' /\
    md_verdict (metadata (w_ctx w')) = Some v /\
    (decision v = block <->
     has_critical [] = true \/ 100000000000000000000 < 1).
Proof.
  apply (policyEngine_copilot_block unit
           (engine_world (Some copilot_tier) [] 100) (fun w => Ok w)
           copilot_tier 1 100000000000000000000); reflexivity.
Defined.

Lemma policyEngine_without_tier_witness :
  exists w1' w2' v1 v2,
    policyEngine unit (engine_world None [untrusted_finding] 20)
                 (fun w => Ok w) = Ok w1' /\
    md_verdict (metadata (w_ctx w1')) = Some v1 /\
    policyEngine unit (engine_world None [] 20) (fun w => Ok w) = Ok w2' /\
    md_verdict (metadata (w_ctx w2')) = Some v2 /\
    decision v1 = decision v2.
Proof.
  eexists. eexists. eexists. eexists.
  split; [reflexivity|]. split; [reflexivity|].
  split; [reflexivity|]. split; [reflexivity|].
  exact (proj1 (policyEngine_without_tier unit
                  (engine_world None [untrusted_finding] 20)
                  (engine_world None [] 20) _ _ (fun w => Ok w)
                  (fun w => Ok w) _ _
                  eq_refl eq_refl eq_refl eq_refl eq_refl
                  eq_refl eq_refl eq_refl eq_refl)).
Defined.

Lemma policyEngine_high_context_not_approved_witness :
  exists w' v,
    policyEngine unit
      (engine_world (Some copilot_tier) [unknown_source_finding] 0)
      (fun w => Ok w) = Ok w' /\
    md_verdict (metadata (w_ctx w')) = Some v /\
    decision v <> approve.
Proof.
  apply (policyEngine_high_context_not_approved unit _ _ copilot_tier 1
           100000000000000000000); try reflexivity.
  discriminate.
Defined.

(** ** The shield: audit log and counters *)

Section ShieldInvariants.

Variable Baseline : Type.
Variable regex_test : string -> string -> string -> bool.
Variable regex_valid : string -> bool.
Variable behavioralComparator : Middleware Baseline.
Variable config : WardexConfig.

Local Abbreviation evaluateInternal' :=
  (evaluateInternal Baseline regex_test regex_valid behavioralComparator config).
Local Abbreviation call_step' :=
  (call_step Baseline regex_test regex_valid behavioralComparator config).
Local Abbreviation run_ops' :=
  (run_ops Baseline regex_test regex_valid behavioralComparator config).

Lemma recordAudit_bounded (tx : TransactionRequest) (v : SecurityVerdict)
    (context : option ConversationContext) (ex : option bool)
    (s : Shield Baseline) :
  Z.of_nat (List.length (auditLog (recordAudit Baseline tx v context ex s)))
  <= AUDIT_CAPACITY.
Proof.
  unfold recordAudit, AUDIT_CAPACITY. cbn [auditLog set_auditLog].
  destruct (10000 <? _) eqn:E.
  - apply Z.ltb_lt in E. rewrite length_skipn. lia.
  - now apply Z.ltb_ge in E.
Qed.

Lemma recordAudit_invariant (tx : TransactionRequest) (v : SecurityVerdict)
    (context : option ConversationContext) (ex : option bool)
    (s : Shield Baseline) :
  0 <= blockCount s -> 0 <= advisoryCount s ->
  blockCount s + advisoryCount s <= evaluationCount s ->
  shield_invariant (recordAudit Baseline tx v context ex s).
Proof.
  intros Hb Ha He. split; [apply recordAudit_bounded|].
  destruct (recordAudit_frame Baseline tx v context ex s)
    as (_ & _ & _ & -> & -> & -> & _).
  now repeat split.
Qed.

Lemma autoFreeze_invariant (v : SecurityVerdict) (env : Env)
    (s : Shield Baseline) :
  shield_invariant s ->
  shield_invariant (snd (autoFreeze Baseline config v env s)).
Proof.
  unfold shield_invariant.
  destruct (autoFreeze_frame Baseline config v env s)
    as (_ & -> & -> & -> & _ & _ & ->).
  auto.
Qed.

Lemma settleVerdict_invariant (env : Env) (tx : TransactionRequest)
    (context : option ConversationContext) (verdict : SecurityVerdict)
    (d : option DecodedTransaction) (s : Shield Baseline) :
  Z.of_nat (List.length (auditLog s)) <= AUDIT_CAPACITY ->
  0 <= blockCount s -> 0 <= advisoryCount s ->
  blockCount s + advisoryCount s + 1 <= evaluationCount s ->
  shield_invariant
    (snd (settleVerdict Baseline config env tx context verdict d s)).
Proof.
  intros Hl Hb Ha He. unfold settleVerdict, notify.
  destruct (decision verdict); cbn [is_block_or_freeze Decision_eqb orb];
    repeat match goal with
           | |- context [match cfg_onBlock config with _ => _ end] =>
               destruct (cfg_onBlock config) as [h|]; [destruct (h _ _)|]
           | |- context [match cfg_onAdvisory config with _ => _ end] =>
               destruct (cfg_onAdvisory config) as [h|]; [destruct (h _ _)|]
           | |- context [match StringToBigInt ?x with _ => _ end] =>
               destruct (StringToBigInt x)
           | |- context [if ?b then _ else _] => destruct b
           | |- context [autoFreeze _ _ ?v ?e ?x] =>
               let H := fresh "Hfreeze" in
               pose proof (autoFreeze_invariant v e x) as H;
               destruct (autoFreeze Baseline config v e x) as [[?|] ?];
               cbn [snd] in H
           end;
    cbn [snd];
    try (apply Hfreeze, recordAudit_invariant; cbn; lia);
    unfold shield_invariant; cbn; repeat split; lia.
Qed.

Lemma evaluateInternal_invariant (env : Env) (tx : TransactionRequest)
    (context : option ConversationContext) (s : Shield Baseline) :
  shield_invariant s ->
  shield_invariant (snd (evaluateInternal' env tx context s)).
Proof.
  intros (Hl & Hb & Ha & He). unfold evaluateInternal.
  destruct (frozen s).
  { cbn [snd]. now apply recordAudit_invariant. }
  set (s3 := beginEvaluation Baseline config env s).
  assert (H3 : auditLog s3 = auditLog s /\ blockCount s3 = blockCount s /\
               advisoryCount s3 = advisoryCount s /\
               evaluationCount s3 = evaluationCount s + 1).
  { unfold s3, beginEvaluation, checkDailyReset.
    destruct (cfg_intelligence config); destruct (negb _); cbn;
      repeat split. }
  destruct H3 as (E1 & E2 & E3 & E4).
  destruct (runPipeline _ _ _ _ _ _ _ _ s3) as [w | err w].
  - destruct (md_verdict (metadata (w_ctx w))) as [verdict|].
    + apply settleVerdict_invariant; cbn; rewrite ?E1, ?E2, ?E3, ?E4; lia.
    + cbn [snd]. apply recordAudit_invariant; cbn;
        rewrite ?E2, ?E3, ?E4; lia.
  - cbn [snd]. unfold shield_invariant. cbn.
    rewrite E1, E2, E3, E4. repeat split; lia.
Qed.

Lemma call_step_invariant (c : ShieldCall Baseline) (s : Shield Baseline) :
  shield_invariant s -> shield_invariant (snd (call_step' c s)).
Proof.
  intros H. destruct c; cbn [call_step].
  - unfold evaluate.
    pose proof (evaluateInternal_invariant env tx None s H) as H'.
    destruct (evaluateInternal' env tx None s). exact H'.
  - unfold evaluateWithContext.
    pose proof (evaluateInternal_invariant env tx (Some context) s H) as H'.
    destruct (evaluateInternal' env tx (Some context) s). exact H'.
  - cbn [snd]. unfold updatePolicy. destruct (mergePolicy _ _); exact H.
  - exact H.
  - cbn [snd]. unfold freeze_shield, notify.
    destruct (cfg_onFreeze config); exact H.
  - exact H.
  - exact H.
  - exact H.
Qed.

Lemma run_ops_invariant (os : list (ShieldOp Baseline)) :
  forall s : Shield Baseline,
    shield_invariant s -> shield_invariant (run_ops' os s).
Proof.
  induction os as [| o r IH]; intros s H; [exact H|].
  cbn [run_ops fold_left]. apply IH. destruct o as [c|]; cbn [op_step].
  - now apply call_step_invariant.
  - exact H.
Qed.

(** X19. The audit log never holds more than 10,000 entries: after any
    sequence of calls on a new shield (evaluations with or without context,
    policy updates, custom middlewares, freezes and unfreezes) its length
    is within the capacity. *)
Theorem auditLog_bounded (today0 : string) (baseline0 : Baseline)
    (os : list (ShieldOp Baseline)) :
  Z.of_nat
    (List.length
       (auditLog (run_ops' os (createShield Baseline config today0
                                            baseline0))))
  <= AUDIT_CAPACITY.
Proof.
  apply (run_ops_invariant os). unfold shield_invariant, AUDIT_CAPACITY.
  cbn. lia.
Qed.


(** X21. [getAuditLog(limit)]: a limit of zero is read as no limit and
    gives the whole log; a positive limit gives the most recent entries,
    as many as the limit or the whole log when it is shorter. *)
Theorem getAuditLog_limit (s : Shield Baseline) (n : nat) :
  getAuditLog Baseline (Some 0%nat) s = auditLog s /\
  getAuditLog Baseline None s = auditLog s /\
  List.length (getAuditLog Baseline (Some (S n)) s)
  = Nat.min (S n) (List.length (auditLog s)) /\
  exists older,
    auditLog s = (older ++ getAuditLog Baseline (Some (S n)) s)%list.
Proof.
  split; [reflexivity|]. split; [reflexivity|].
  cbn [getAuditLog]. unfold lastn. split.
  - rewrite length_skipn. lia.
  - exists (firstn (List.length (auditLog s) - S n) (auditLog s)).
    symmetry. apply firstn_skipn.
Qed.

(** X22. The value of an approved transaction is added to the daily volume
    before the daily limit is checked, and it stays added when the check
    fails: the verdict then becomes [block] with [DAILY_VOLUME_EXCEEDED],
    the block counter goes up and the audit entry, for that verdict, is
    marked as not executed. Within the limit the verdict is returned as it
    was. Over the limit the changed verdict is returned, unless its entry
    completes an auto-freeze and the freeze or threat handler throws: then
    the evaluation raises that error, with the accounting done and the
    shield frozen. *)
Theorem daily_volume_counted_before_limit (env : Env) (tx : TransactionRequest)
    (context : option ConversationContext) (verdict : SecurityVerdict)
    (d : option DecodedTransaction) (s : Shield Baseline)
    (txValue maxDaily : Z) :
  decision verdict = approve ->
  StringToBigInt (orElse (value tx) "0") = Some txValue ->
  StringToBigInt (maxDailyVolumeWei (limits (sh_policy s))) = Some maxDaily ->
  exists o s',
    settleVerdict Baseline config env tx context verdict d s = (o, s') /\
    dailyVolumeWei s' = dailyVolumeWei s + txValue /\
    (dailyVolumeWei s + txValue <= maxDaily ->
     o = Returned verdict /\ blockCount s' = blockCount s) /\
    (maxDaily < dailyVolumeWei s + txValue ->
     exists v',
       decision v' = block /\
       reasons v'
       = (reasons verdict
          ++ [mkReason "DAILY_VOLUME_EXCEEDED"
                "Daily transaction volume limit exceeded" high src_policy])%list /\
       blockCount s' = blockCount s + 1 /\
       option_map (fun e => (au_verdict e, executed e))
                  (last (map Some (auditLog s')) None)
       = Some (v', false) /\
       (o = Returned v' \/
        exists err,
          o = Raised err /\ frozen s' = true /\
          (thrown_by (cfg_onFreeze config) err \/
           thrown_by (cfg_onThreat config) err)) /\
       ((recent_blocks s' < 5)%nat \/
        (quiet (cfg_onFreeze config) /\ quiet (cfg_onThreat config)) ->
        o = Returned v')).
Proof.
  intros Hd Hv Hm. unfold settleVerdict. rewrite Hd.
  cbn [is_block_or_freeze Decision_eqb orb]. rewrite Hv.
  cbn [sh_policy set_dailyVolume dailyVolumeWei]. rewrite Hm.
  destruct (maxDaily <? dailyVolumeWei s + txValue) eqn:E;
    [apply Z.ltb_lt in E | apply Z.ltb_ge in E].
  - match goal with
    | |- context [autoFreeze _ _ ?v ?e ?x] =>
        set (s8 := x); set (v' := v);
        pose proof (autoFreeze_frame Baseline config v' e s8) as Hframe;
        pose proof (autoFreeze_raises Baseline config v' e s8) as Hraise;
        pose proof (autoFreeze_completes Baseline config v' e s8) as Hdone;
        destruct (autoFreeze Baseline config v' e s8) as [oerr s9]
    end.
    cbn [fst snd] in Hframe, Hraise, Hdone.
    destruct Hframe as (_ & _ & Hblock & _ & Hvol & _ & Hlog).
    exists (match oerr with Some err => Raised err | None => Returned v' end).
    exists s9.
    split; [destruct oerr; reflexivity|].
    split; [rewrite Hvol; reflexivity|].
    split; [lia|]. intros _. exists v'.
    split; [reflexivity|]. split; [reflexivity|].
    split; [rewrite Hblock; reflexivity|].
    split.
    { rewrite Hlog. unfold s8.
      rewrite (recordAudit_auditLog Baseline), map_app. cbn [map].
      rewrite last_last. reflexivity. }
    split.
    { destruct oerr as [err|]; [right | now left].
      destruct (Hraise err eq_refl) as [Hwho Hfrozen].
      exists err. repeat split; assumption. }
    intros Hq. rewrite Hdone; [reflexivity|].
    right. unfold recent_blocks in *. rewrite Hlog in Hq. exact Hq.
  - match goal with
    | |- context [autoFreeze _ _ ?v ?e ?x] =>
        pose proof (autoFreeze_frame Baseline config v e x) as Hframe;
        pose proof (autoFreeze_completes Baseline config v e x) as Hdone;
        destruct (autoFreeze Baseline config v e x) as [oerr s9]
    end.
    cbn [fst snd] in Hframe, Hdone.
    destruct Hframe as (_ & _ & Hblock & _ & Hvol & _ & Hlog).
    rewrite Hdone
      by (left; rewrite Hd; reflexivity).
    exists (Returned verdict), s9.
    split; [reflexivity|].
    split; [rewrite Hvol; reflexivity|].
    split; [|lia]. intros _. split; [reflexivity|].
    rewrite Hblock. reflexivity.
Qed.

End ShieldInvariants.

Lemma daily_volume_counted_before_limit_witness :
  exists v' s',
    settleVerdict unit tight_config (sample_env 1) (eth_transfer "2000") None
                  approving_verdict None tight_shield
    = (Returned v', s') /\
    dailyVolumeWei s' = 2000 /\ decision v' = block.
Proof.
  destruct (daily_volume_counted_before_limit unit tight_config (sample_env 1)
              (eth_transfer "2000") None approving_verdict None tight_shield
              2000 1000 eq_refl eq_refl eq_refl)
    as (o & s' & Hrun & Hvol & _ & Hover).
  destruct Hover as (v' & Hblock & _ & _ & _ & _ & Hquiet); [cbn; lia|].
  exists v', s'. rewrite Hrun, Hquiet.
  - repeat split; assumption.
  - right. split; intros h before e; discriminate.
Defined.

(** ** compose *)

Section ComposeFacts.

Variable Baseline : Type.

Lemma dispatch_cons (m : Middleware Baseline) (r : list (Middleware Baseline))
    (i : Z) (next : Next Baseline) (w : World Baseline) :
  w_index w < i ->
  dispatch Baseline (m :: r) i next w
  = m (set_index Baseline i w) (dispatch Baseline r (i + 1) next).
Proof. intros H. cbn [dispatch]. apply Z.leb_gt in H. now rewrite H. Qed.

Lemma dispatch_stages (works : list (World Baseline -> Res Baseline)) :
  Forall keeps_index works ->
  forall (i : Z) (next : Next Baseline) (w : World Baseline),
    w_index w < i ->
    dispatch Baseline (map stage works) i next w
    = match run_works works i w with
      | Ok w' => next w'
      | Throw e w' => Throw e w'
      end.
Proof.
  induction 1 as [| work rest Hw Hr IH]; intros i next w Hi.
  - cbn [map dispatch run_works]. apply Z.leb_gt in Hi. now rewrite Hi.
  - cbn [map]. rewrite dispatch_cons by exact Hi.
    cbn [run_works]. unfold stage at 1.
    destruct (work (set_index Baseline i w)) as [w' | e w'] eqn:E;
      [|reflexivity].
    apply IH. rewrite (Hw _ _ E). cbn. lia.
Qed.

(** X23. [compose] runs a chain of stages in the order of the array, each
    stage once and on the context its predecessor left; the first
    exception ends the chain and is the outcome; the continuation of the
    composed middleware runs after the last stage. *)
Theorem compose_runs_in_order
    (works : list (World Baseline -> Res Baseline))
    (w : World Baseline) (next : Next Baseline) :
  Forall keeps_index works ->
  compose Baseline (map stage works) w next
  = match run_works works 0 (set_index Baseline (-1) w) with
    | Ok w' => next w'
    | Throw e w' => Throw e w'
    end.
Proof.
  intros H. unfold compose. apply dispatch_stages; [exact H|]. cbn. lia.
Qed.

Lemma run_works_index (works : list (World Baseline -> Res Baseline)) :
  Forall keeps_index works ->
  forall (i : Z) (w w' : World Baseline),
    run_works works i w = Ok w' ->
    w_index w' = i + Z.of_nat (List.length works).
Proof.
  induction 1 as [| work rest Hw Hr IH]; intros i w w' H.
  - cbn in H. injection H as <-. cbn. lia.
  - cbn [run_works] in H.
    destruct (work (set_index Baseline i w)) as [w1 | e w1] eqn:E;
      [|discriminate].
    rewrite (IH _ _ _ H). cbn [List.length]. lia.
Qed.

(** X24. The guard of [compose]: a middleware that awaits [next()] a second
    time, after the rest of the chain and the continuation have completed
    once, gets the error "next() called multiple times in the same
    middleware"; the rest of the chain does not run again. *)
Theorem compose_next_twice
    (works : list (World Baseline -> Res Baseline))
    (w w1 w2 : World Baseline) (next : Next Baseline) :
  Forall keeps_index works ->
  keeps_index next ->
  run_works works 1 (set_index Baseline 0 (set_index Baseline (-1) w))
  = Ok w1 ->
  next w1 = Ok w2 ->
  compose Baseline (next_twice :: map stage works) w next
  = Throw "next() called multiple times in the same middleware" w2.
Proof.
  intros Hworks Hnext Hrun Hk. unfold compose.
  rewrite dispatch_cons by (cbn; lia). unfold next_twice.
  rewrite (dispatch_stages works Hworks) by (cbn; lia).
  change (0 + 1) with 1. rewrite Hrun, Hk.
  assert (Hi : 1 <= w_index w2).
  { rewrite (Hnext _ _ Hk), (run_works_index works Hworks _ _ _ Hrun). lia. }
  destruct works as [| work rest]; cbn [map dispatch];
    apply Z.leb_le in Hi; now rewrite Hi.
Qed.

End ComposeFacts.

Lemma compose_runs_in_order_witness :
  compose unit
    (map stage [transactionDecoder_work unit; riskAggregator_work unit])
    max_approval_world (fun w => Ok w)
  = match run_works [transactionDecoder_work unit; riskAggregator_work unit]
            0 (set_index unit (-1) max_approval_world) with
    | Ok w' => Ok w'
    | Throw e w' => Throw e w'
    end.
Proof.
  apply (compose_runs_in_order unit
           [transactionDecoder_work unit; riskAggregator_work unit]
           max_approval_world (fun w => Ok w)).
  repeat constructor.
  - intros w w' H. apply transactionDecoder_work_inv in H
      as (_ & d & rs & _ & -> & _). reflexivity.
  - intros w w' H. unfold riskAggregator_work in H. injection H as <-.
    reflexivity.
Defined.

Lemma compose_next_twice_witness :
  exists w2,
    compose unit (next_twice :: map stage [riskAggregator_work unit])
            max_approval_world (fun w => Ok w)
    = Throw "next() called multiple times in the same middleware" w2.
Proof.
  eexists.
  eapply (compose_next_twice unit [riskAggregator_work unit]
            max_approval_world).
  - repeat constructor. intros w w' H. unfold riskAggregator_work in H.
    injection H as <-. reflexivity.
  - intros w w' H. now injection H as <-.
  - reflexivity.
  - reflexivity.
Defined.

(** ** Evaluating a validated request *)

Section ValidRequests.

Variable Baseline : Type.
Variable regex_test : string -> string -> string -> bool.
Variable regex_valid : string -> bool.
Variable behavioralComparator : Middleware Baseline.
Variable config : WardexConfig.

Variable tx : TransactionRequest.
Variable pol : SecurityPolicy.
Hypothesis Hvalid : validateTransactionRequest tx = None.
Hypothesis HmaxTx :
  StringToBigInt (maxTransactionValueWei (limits pol)) <> None.










End ValidRequests.

Section ValidEvaluation.

Variable Baseline : Type.
Variable regex_test : string -> string -> string -> bool.
Variable regex_valid : string -> bool.
Variable behavioralComparator : Middleware Baseline.
Variable config : WardexConfig.



End ValidEvaluation.

(** With an [onBlock] handler that throws, the evaluation of a request
    over the transaction limit raises the handler's error: the block is
    counted, and no audit entry is written. *)
Example evaluate_raises_what_onBlock_throws :
  let r := evaluate unit no_match all_valid passthrough throwing_config
                    (sample_env 1) big_transfer sample_shield in
  validateTransactionRequest big_transfer = None /\
  fst r = Raised "Error: handler failed" /\
  blockCount (snd r) = 1 /\ auditLog (snd r) = [].
Proof. vm_compute. repeat split. Qed.



(** ** The composite score of an evaluation *)

Section EvaluationScores.

Variable Baseline : Type.
Variable regex_test : string -> string -> string -> bool.
Variable regex_valid : string -> bool.
Variable behavioralComparator : Middleware Baseline.
Variable config : WardexConfig.











End EvaluationScores.



(** ** The isolated signer *)

Import Signer.

Lemma bytes_eqb_eq (a : list Z) : forall b, bytes_eqb a b = true -> a = b.
Proof.
  induction a as [| x a IH]; intros [| y b] H; try discriminate;
    [reflexivity|].
  cbn in H. apply andb_prop in H as [Hx Hr]. apply Z.eqb_eq in Hx.
  f_equal; [exact Hx | now apply IH].
Qed.

Section SignerFacts.

Variable hmac : string -> string -> string.

(** X26. What a token that verifies is: 80 hexadecimal digits whose last 16
    spell a timestamp that is not in the future and at most five minutes
    old, and whose first 64 spell the bytes of the HMAC of the hash and
    that timestamp under the shared secret. *)
Theorem verifyApprovalToken_sound (now_ms : Z)
    (token transactionHash sharedSecret : string) :
  Signer.verifyApprovalToken hmac now_ms token transactionHash sharedSecret
  = true ->
  Signer.token_format token = true /\
  exists ts,
    parseInt16 (slice_from 64 token) = Some ts /\
    0 <= now_ms - ts <= Signer.APPROVAL_TOKEN_MAX_AGE_MS /\
    bufferFromHex (slice 0 64 token)
    = bufferFromHex (hmac sharedSecret (transactionHash ++ toString ts)).
Proof.
  unfold Signer.verifyApprovalToken.
  destruct (Signer.token_format token) eqn:Ef; [|discriminate].
  cbn [negb]. intros H. split; [reflexivity|].
  assert (Hts : exists ts, parseInt16 (slice_from 64 token) = Some ts).
  { unfold Signer.token_format in Ef. apply andb_prop in Ef as [Hl Hh].
    apply Nat.eqb_eq in Hl. unfold slice_from. rewrite Hl.
    assert (Hsub : string_forallb is_hex_digit (substring 64 (80 - 64) token)
                   = true) by now apply substring_forallb.
    assert (Hlen : String.length (substring 64 (80 - 64) token) = 16%nat).
    { rewrite <- Hl at 1. rewrite substring_from_length. now rewrite Hl. }
    destruct (substring 64 (80 - 64) token) as [| c r]; [discriminate|].
    cbn in Hsub. apply andb_prop in Hsub as [Hc _].
    unfold parseInt16. rewrite Hc. eexists. reflexivity. }
  destruct Hts as [ts Hts]. exists ts. rewrite Hts in H.
  split; [exact Hts|].
  destruct ((Signer.APPROVAL_TOKEN_MAX_AGE_MS <? now_ms - ts)
            || (now_ms - ts <? 0)) eqn:Eage; [discriminate|].
  apply orb_false_elim in Eage as [E1 E2].
  apply Z.ltb_ge in E1, E2. split; [lia|].
  unfold timingSafeEqual in H.
  destruct (_ =? _)%nat; [|discriminate]. now apply bytes_eqb_eq.
Qed.

(** X27. The signer signs only against a valid approval token: a signing
    request answered with success carries a token that verifies for what
    is signed, and an invalid token is refused whatever the signing
    function would do. Health checks and address requests need no
    token. *)
Theorem handleRequest_requires_token (now_ms : Z)
    (sharedSecret privateKey : string)
    (signFn signFn' : string -> string -> SignOutcome)
    (getAddressFn : string -> string) (request : SignerRequest)
    (subject token : string) :
  signed_subject request = Some (subject, token) ->
  (success (handleRequest hmac now_ms sharedSecret privateKey signFn
                          getAddressFn request) = true ->
   Signer.verifyApprovalToken hmac now_ms token subject sharedSecret = true) /\
  (Signer.verifyApprovalToken hmac now_ms token subject sharedSecret = false ->
   handleRequest hmac now_ms sharedSecret privateKey signFn getAddressFn
                 request
   = handleRequest hmac now_ms sharedSecret privateKey signFn' getAddressFn
                   request /\
   success (handleRequest hmac now_ms sharedSecret privateKey signFn
                          getAddressFn request) = false).
Proof.
  destruct request; cbn [signed_subject]; try discriminate;
    intros [= <- <-]; cbn [handleRequest];
    destruct (Signer.verifyApprovalToken hmac now_ms _ _ sharedSecret);
    cbn [negb]; split; try discriminate; try reflexivity; auto.
Qed.

Lemma bufferFromHex_lower (s : string) : forall n : nat,
  (String.length s <= n)%nat ->
  bufferFromHex (toLowerCase s) = bufferFromHex s.
Proof.
  intros n. revert s. induction n as [| n IH]; intros s Hn.
  - destruct s; [reflexivity | cbn in Hn; lia].
  - destruct s as [| a [| b r]]; try reflexivity.
    cbn [toLowerCase bufferFromHex]. rewrite !digit_in_lower.
    destruct (digit_in 16 a), (digit_in 16 b); try reflexivity.
    f_equal. apply IH. cbn in Hn. lia.
Qed.

Lemma parseInt16_lower (s : string) :
  parseInt16 (toLowerCase s) = parseInt16 s.
Proof.
  destruct s as [| c r]; [reflexivity|].
  unfold parseInt16. cbn [toLowerCase].
  change (String (lower_char c) (toLowerCase r))
    with (toLowerCase (String c r)).
  rewrite parse_prefix_lower. unfold is_hex_digit. now rewrite digit_in_lower.
Qed.

(** X28. Verification ignores the letter case of the token: a token and its
    lower-case form are accepted or rejected alike. *)
Theorem verifyApprovalToken_case_insensitive (now_ms : Z)
    (token transactionHash sharedSecret : string) :
  Signer.verifyApprovalToken hmac now_ms (toLowerCase token) transactionHash
                             sharedSecret
  = Signer.verifyApprovalToken hmac now_ms token transactionHash sharedSecret.
Proof.
  unfold Signer.verifyApprovalToken, Signer.token_format.
  rewrite toLowerCase_length, hex_lower.
  unfold slice, slice_from. rewrite toLowerCase_length.
  rewrite <- !toLowerCase_substring, parseInt16_lower.
  now rewrite (bufferFromHex_lower _ _ (le_n _)).
Qed.

End SignerFacts.

Lemma verifyApprovalToken_sound_witness :
  Signer.token_format
    (Signer.generateApprovalToken sample_hmac "0xabc" "secret" 1770940800000)
  = true.
Proof.
  exact (proj1 (verifyApprovalToken_sound sample_hmac 1770940800001
                  (Signer.generateApprovalToken sample_hmac "0xabc" "secret"
                                                1770940800000)
                  "0xabc" "secret" eq_refl)).
Defined.

Lemma handleRequest_requires_token_witness :
  success (handleRequest sample_hmac 1770940800001 "secret" "key"
             (fun _ _ => Signed "sig") (fun k => k)
             (sign_transaction "0xabc" "tx" "00")) = false.
Proof.
  exact (proj2 (proj2 (handleRequest_requires_token sample_hmac 1770940800001
                         "secret" "key" (fun _ _ => Signed "sig")
                         (fun _ _ => SignThrown) (fun k => k)
                         (sign_transaction "0xabc" "tx" "00") "0xabc" "00"
                         eq_refl)
                 eq_refl)).
Defined.
(** X29. The patterns the bytecode analyzer reports agree with its flags:
    SELFDESTRUCT and CALLCODE are reported exactly when their flag is set,
    an EIP-1967 pattern only for a proxy, an implementation address (of 42
    characters) only for a proxy, and DELEGATECALL is never reported for a
    contract recognised as a proxy. *)
Theorem analyzeContractBytecode_consistent (bytecode : string) :
  let a := analyzeContractBytecode bytecode in
  (In "SELFDESTRUCT" (pattern_names a) <-> bc_hasSelfDestruct a = true) /\
  (In "CALLCODE" (pattern_names a) <-> bc_hasCallcode a = true) /\
  (In "EIP_1967_PROXY" (pattern_names a) -> bc_isProxy a = true) /\
  (In "DELEGATECALL" (pattern_names a) ->
   bc_hasDelegatecall a = true /\ bc_isProxy a = false) /\
  (forall x, bc_implementationAddress a = Some x ->
             bc_isProxy a = true /\ String.length x = 42%nat).
Proof.
  cbv zeta. unfold analyzeContractBytecode, pattern_names, isStandardProxy.
  set (code := strip0x (toLowerCase bytecode)).
  destruct (String.length code <? 2)%nat.
  { cbn. repeat split; try tauto; try discriminate. }
  cbn [bc_hasSelfDestruct bc_hasDelegatecall bc_hasCallcode bc_isProxy
       bc_implementationAddress bc_patterns].
  split; [|split; [|split; [|split]]].
  - destruct (includes OPCODE_SELFDESTRUCT code),
      (includes OPCODE_DELEGATECALL code && _),
      (includes OPCODE_CALLCODE code), (includes EIP_1967_IMPL_SLOT code),
      (includes SELECTOR_TRANSFER code && _ && _);
      cbn; split; intros H; try reflexivity; try discriminate; auto;
      repeat (destruct H as [H | H]; try discriminate H); contradiction.
  - destruct (includes OPCODE_SELFDESTRUCT code),
      (includes OPCODE_DELEGATECALL code && _),
      (includes OPCODE_CALLCODE code), (includes EIP_1967_IMPL_SLOT code),
      (includes SELECTOR_TRANSFER code && _ && _);
      cbn; split; intros H; try reflexivity; try discriminate; auto 6;
      repeat (destruct H as [H | H]; try discriminate H); contradiction.
  - destruct (includes OPCODE_SELFDESTRUCT code),
      (includes OPCODE_DELEGATECALL code && _),
      (includes OPCODE_CALLCODE code), (includes EIP_1967_IMPL_SLOT code),
      (includes SELECTOR_TRANSFER code && _ && _);
      cbn; intros H; rewrite ?orb_true_r; try reflexivity;
      repeat (destruct H as [H | H]; try discriminate H); contradiction.
  - destruct (includes OPCODE_DELEGATECALL code);
      destruct (includes MINIMAL_PROXY_PREFIX code);
      destruct (includes EIP_1967_IMPL_SLOT code);
      destruct (includes "5c60da1b" code);
      destruct (includes OPCODE_SELFDESTRUCT code),
        (includes OPCODE_CALLCODE code),
        (includes SELECTOR_TRANSFER code && _ && _);
      cbn; intros H; try (split; reflexivity);
      repeat (destruct H as [H | H]; try discriminate H); contradiction.
  - intros x.
    destruct (includes MINIMAL_PROXY_PREFIX code); [|discriminate].
    destruct (indexOf MINIMAL_PROXY_PREFIX code) as [i|]; [|discriminate].
    destruct (_ =? 40)%nat eqn:E; [|discriminate].
    apply Nat.eqb_eq in E. intros [= <-]. split; [reflexivity|].
    cbn [String.length]. f_equal. f_equal. exact E.
Qed.

Lemma prefix_app (p x : string) : prefix p (p ++ x) = true.
Proof.
  induction p as [| c r IH]; cbn.
  - destruct x; reflexivity.
  - destruct (Ascii.ascii_dec c c); [exact IH | congruence].
Qed.

Lemma substring_skip_app (p : string) : forall (m : nat) (s : string),
  substring (String.length p) m (p ++ s) = substring 0 m s.
Proof. induction p as [| c r IH]; intros m s; [reflexivity | apply IH]. Qed.

(** X30. For the runtime code of an EIP-1167 minimal proxy (the fixed
    prefix, the 20-byte implementation address, anything after it), with
    or without a leading [0x] and in either letter case of the address,
    the analyzer reports a proxy, recovers the implementation address in
    lower case, and does not report DELEGATECALL. *)
Theorem analyzeContractBytecode_minimal_proxy (lead addr rest : string) :
  lead = "" \/ lead = "0x" ->
  String.length addr = 40%nat ->
  let a :=
    analyzeContractBytecode (lead ++ MINIMAL_PROXY_PREFIX ++ addr ++ rest) in
  bc_isProxy a = true /\
  bc_implementationAddress a = Some ("0x" ++ toLowerCase addr) /\
  ~ In "DELEGATECALL" (pattern_names a).
Proof.
  intros Hlead Hlen. cbv zeta.
  unfold analyzeContractBytecode, pattern_names.
  assert (Hcode : strip0x (toLowerCase
                    (lead ++ MINIMAL_PROXY_PREFIX ++ addr ++ rest))
                  = MINIMAL_PROXY_PREFIX
                    ++ toLowerCase addr ++ toLowerCase rest).
  { destruct Hlead as [-> | ->]; rewrite !toLowerCase_app; reflexivity. }
  rewrite Hcode.
  set (tail := toLowerCase addr ++ toLowerCase rest).
  assert (Hshort : (String.length (MINIMAL_PROXY_PREFIX ++ tail) <? 2)%nat
                   = false) by reflexivity.
  rewrite Hshort.
  assert (Hinc : includes MINIMAL_PROXY_PREFIX (MINIMAL_PROXY_PREFIX ++ tail)
                 = true).
  { destruct (MINIMAL_PROXY_PREFIX ++ tail) eqn:E; cbn [includes];
      rewrite <- E, prefix_app; reflexivity. }
  assert (Hidx : indexOf MINIMAL_PROXY_PREFIX (MINIMAL_PROXY_PREFIX ++ tail)
                 = Some 0%nat).
  { destruct (MINIMAL_PROXY_PREFIX ++ tail) eqn:E; cbn [indexOf];
      rewrite <- E, prefix_app; reflexivity. }
  assert (Hslice : slice (0 + String.length MINIMAL_PROXY_PREFIX)
                         (0 + String.length MINIMAL_PROXY_PREFIX + 40)
                         (MINIMAL_PROXY_PREFIX ++ tail)
                   = toLowerCase addr).
  { unfold slice.
    replace (0 + String.length MINIMAL_PROXY_PREFIX + 40
             - (0 + String.length MINIMAL_PROXY_PREFIX))%nat
      with 40%nat by reflexivity.
    cbn [Nat.add]. rewrite substring_skip_app. unfold tail.
    rewrite <- Hlen, <- (toLowerCase_length addr).
    pose proof (slice_app_l (toLowerCase addr) (toLowerCase rest)) as H.
    unfold slice in H. now rewrite Nat.sub_0_r in H. }
  unfold isStandardProxy. rewrite Hinc, Hidx, Hslice.
  rewrite toLowerCase_length, Hlen.
  cbn [bc_isProxy bc_implementationAddress bc_patterns orb negb Nat.eqb].
  rewrite andb_false_r.
  split; [reflexivity|]. split; [reflexivity|].
  destruct (includes OPCODE_SELFDESTRUCT _), (includes OPCODE_CALLCODE _),
    (includes EIP_1967_IMPL_SLOT _), (includes SELECTOR_TRANSFER _ && _ && _);
    cbn; intros H;
    repeat (destruct H as [H | H]; try discriminate H); contradiction.
Qed.

Lemma analyzeContractBytecode_minimal_proxy_witness :
  bc_implementationAddress
    (analyzeContractBytecode
       ("0x" ++ MINIMAL_PROXY_PREFIX
        ++ "BEbeBEbeBEbeBEbeBEbeBEbeBEbeBEbeBEbeBEbe"
        ++ "5af43d82803e903d91602b57fd5bf3"))
  = Some "0xbebebebebebebebebebebebebebebebebebebebe".
Proof.
  exact (proj1 (proj2 (analyzeContractBytecode_minimal_proxy "0x"
                         "BEbeBEbeBEbeBEbeBEbeBEbeBEbeBEbeBEbeBEbe"
                         "5af43d82803e903d91602b57fd5bf3"
                         (or_intror eq_refl) eq_refl))).
Defined.
